(** * mcp-chat-context: the session store, its search paths and the
      term extractors, embedded from
      [server/src/database/database-better.ts] and [server/src/server.ts].

    Conventions of the embedding.
    - JavaScript strings whose code units are all below 256 are Rocq
      [string]s; every regular expression and SQL operator used by the
      code is exact on that range (no code unit above 127 is mapped to
      an ASCII letter by [toLowerCase], and [\w] is ASCII only).
    - A method of [DatabaseBetter] is a function from the receiver to an
      outcome (returned value or thrown exception) and the receiver
      afterwards.
    - The table [chat_sessions] is the list of its rows with their
      rowids, in rowid order; rowids are positive and stay below 2^63.
      [chat_sessions_fts], an FTS5 table whose content is
      [chat_sessions], is the list of the statements that the triggers
      of [createFTSTriggers] and [initializeFTSIndex] have run on it.
    - What the code leaves to its environment is a parameter: the clock
      ([JsDate]), the FTS5 engine ([Fts5]: which updates it refuses,
      what a query matches, ranks and highlights) and the choices of
      SQLite's query planner that a result can show ([Planner]). Values
      read from the environment ([new Date()], [Date.now()],
      [Math.random()]) are arguments of the methods that read them.
    - Of the limits of SQLite, those on a LIKE pattern and on the values
      of LIMIT and OFFSET are embedded. The limits on the size of a
      statement (1000 levels of an expression, the number of its
      parameters) and of a bound string (10^9 bytes) are not: a property
      that says that a call returns is stated for lists of tags or ids
      within the former, and for strings within the latter. *)

From Stdlib Require Import List String Ascii ZArith Lia Bool Arith.
From Stdlib Require Import Sorting.Sorted Sorting.Permutation.
Import ListNotations.
Open Scope string_scope.
Open Scope list_scope.
Set Warnings "-register-all".

(* ===================================================================== *)
(** ** JavaScript values *)
(* ===================================================================== *)

Module Js.

(** Truthiness of an optional string property: [undefined] and the empty
    string are falsy. *)
Definition truthy (v : option string) : bool :=
  match v with
  | Some s => negb (s =? "")
  | None => false
  end.

(** Truthiness of an optional integer property: [undefined] and [0] are
    falsy ([NaN], also falsy, is read as an absent property). *)
Definition truthy_num (v : option Z) : bool :=
  match v with
  | Some n => negb (n =? 0)%Z
  | None => false
  end.

Definition between (lo hi : nat) (c : ascii) : bool :=
  (lo <=? nat_of_ascii c)%nat && (nat_of_ascii c <=? hi)%nat.

Definition is_upper (c : ascii) : bool := between 65 90 c.
Definition is_lower (c : ascii) : bool := between 97 122 c.
Definition is_digit (c : ascii) : bool := between 48 57 c.

(** [\w] : [A-Za-z0-9_]. *)
Definition is_word (c : ascii) : bool :=
  is_upper c || is_lower c || is_digit c || (nat_of_ascii c =? 95)%nat.

(** [\s] below 256: TAB, LF, VT, FF, CR, SPACE, NBSP. *)
Definition is_space (c : ascii) : bool :=
  between 9 13 c || (nat_of_ascii c =? 32)%nat || (nat_of_ascii c =? 160)%nat.

(** [String.prototype.toLowerCase] on one code unit below 256: A-Z and the
    Latin-1 capitals 0xC0-0xDE (but 0xD7) move up by 32. *)
Definition lower_char (c : ascii) : ascii :=
  if is_upper c then ascii_of_nat (nat_of_ascii c + 32)
  else if between 192 222 c && negb (nat_of_ascii c =? 215)%nat
       then ascii_of_nat (nat_of_ascii c + 32)
  else c.

Definition toLowerCase (s : list ascii) : list ascii := map lower_char s.

(** The case folding of a regular expression with flag [i] (no flag [u])
    and of SQLite's [LIKE]: only the ASCII letters are folded. *)
Definition fold_ascii (c : ascii) : ascii :=
  if is_upper c then ascii_of_nat (nat_of_ascii c + 32) else c.

Definition ci_eqb (c d : ascii) : bool :=
  Ascii.eqb (fold_ascii c) (fold_ascii d).

Definition chars (s : string) : list ascii := list_ascii_of_string s.
Definition str (l : list ascii) : string := string_of_list_ascii l.

(** [Array.prototype.join]. *)
Definition join (sep : string) (l : list string) : string := String.concat sep l.

(** [Array.prototype.slice(0, n)]. *)
Definition slice0 {A : Type} (n : nat) (l : list A) : list A := firstn n l.

(** [Array.prototype.includes] on strings. *)
Definition includes (l : list string) (x : string) : bool :=
  existsb (String.eqb x) l.

(** A stable sort by a comparator, as [Array.prototype.sort] is: [x] is
    placed after every element that does not have to come after it.
    [gtb y x] reads "the comparator is positive on (y, x)". The result
    is that of [Array.prototype.sort] for a comparator that is consistent
    (every comparator of the code is, as long as it compares numbers); on
    other comparators the engine's own order of comparisons shows, which
    this sort does not follow. *)
Fixpoint insert_by {A : Type} (gtb : A -> A -> bool) (x : A) (l : list A) : list A :=
  match l with
  | [] => [x]
  | y :: l' => if gtb y x then x :: y :: l' else y :: insert_by gtb x l'
  end.

Definition sort_by {A : Type} (gtb : A -> A -> bool) (l : list A) : list A :=
  fold_left (fun acc x => insert_by gtb x acc) l [].

(** Two neighbours of a sorted array: the left one does not have to follow
    the right one. *)
Definition in_order {A : Type} (gtb : A -> A -> bool) (a b : A) : Prop :=
  gtb a b = false.

End Js.

(* ===================================================================== *)
(** ** SQLite operators *)
(* ===================================================================== *)

Module Sqlite.

Definition pct : ascii := "%"%char.
Definition usc : ascii := "_"%char.
Definition nul : ascii := "000"%char.

(** A TEXT operand as LIKE reads it, a C string: the characters before
    the first NUL. *)
Fixpoint c_string (s : string) : string :=
  match s with
  | EmptyString => EmptyString
  | String c s' => if Ascii.eqb c nul then EmptyString else String c (c_string s')
  end.

(** The comparison that LIKE makes with the default settings: [%] matches
    any run of characters, [_] any one character, every other character
    matches itself up to the case of the ASCII letters; there is no escape
    character. *)
Fixpoint like_chars (p t : list ascii) {struct p} : bool :=
  match p with
  | [] => match t with [] => true | _ => false end
  | c :: p' =>
      if Ascii.eqb c pct then
        (fix skip (t : list ascii) : bool :=
           like_chars p' t || match t with [] => false | _ :: t' => skip t' end) t
      else if Ascii.eqb c usc then
        match t with [] => false | _ :: t' => like_chars p' t' end
      else
        match t with [] => false | d :: t' => Js.ci_eqb c d && like_chars p' t' end
  end.

(** The length in bytes of a bound string. better-sqlite3 binds a string
    in UTF-8: one byte for a code unit below 128, two for every other code
    unit below 256. *)
Fixpoint utf8_length (s : string) : Z :=
  match s with
  | EmptyString => 0%Z
  | String c s' => ((if (nat_of_ascii c <? 128)%nat then 1 else 2) + utf8_length s')%Z
  end.

(** SQLITE_MAX_LIKE_PATTERN_LENGTH, which the build does not change. *)
Definition max_like_pattern_length : Z := 50000%Z.

(** The pattern has more bytes, whatever they are, than LIKE accepts. *)
Definition like_pattern_too_complex (pattern : string) : bool :=
  (max_like_pattern_length <? utf8_length pattern)%Z.

(** [text LIKE pattern]. There is no value for a pattern that is too
    long: the statement that evaluates it fails with the error LIKE or
    GLOB pattern too complex. Otherwise both operands are compared as C
    strings. *)
Definition like (text pattern : string) : option bool :=
  if like_pattern_too_complex pattern then None
  else Some (like_chars (Js.chars (c_string pattern)) (Js.chars (c_string text))).

(** [text LIKE pattern] has a value and it is true. *)
Definition like_true (text pattern : string) : bool :=
  match like text pattern with
  | Some b => b
  | None => false
  end.

(** Comparison of two TEXT values under the BINARY collation. *)
Definition text_lt (a b : string) : bool := String.ltb a b.
Definition text_le (a b : string) : bool := String.leb a b.

(** A number bound to LIMIT or OFFSET. better-sqlite3 binds a number that
    is not a 32-bit integer as a double, and SQLite takes a double for an
    integer only when it is a whole number strictly between -2^63 and
    2^63; with any other value the statement fails at its first step with
    SQLITE_MISMATCH. (A number that is not whole, or NaN, fails alike; the
    embedding has whole numbers only.) *)
Definition must_be_int (n : Z) : bool :=
  (- 2 ^ 63 <? n)%Z && (n <? 2 ^ 63)%Z.

(** [LIMIT n], for [n] that passed [must_be_int]: a negative bound is no
    bound. *)
Definition apply_limit {A : Type} (n : Z) (rows : list A) : list A :=
  if (n <? 0)%Z then rows else firstn (Z.to_nat n) rows.

(** [OFFSET m], for [m] that passed [must_be_int]: a negative offset is
    zero. *)
Definition apply_offset {A : Type} (m : Z) (rows : list A) : list A :=
  skipn (Z.to_nat m) rows.

End Sqlite.

(* ===================================================================== *)
(** ** The schema ([createTables]) *)
(* ===================================================================== *)

(** A row of [chat_sessions]. [project_context] is the only nullable
    column. *)
Record ChatSession : Type := mkChatSession {
  id : string;
  title : string;
  agent_id : string;
  agent_type : string;
  project_context : option string;
  original_content : string;
  tags : string;
  created_at : string;
  updated_at : string
}.

(** [Omit<ChatSession, 'id' | 'created_at' | 'updated_at'>]. *)
Record SessionInput : Type := mkSessionInput {
  in_title : string;
  in_agent_id : string;
  in_agent_type : string;
  in_project_context : option string;
  in_original_content : string;
  in_tags : string
}.

(** [Partial<ChatSession>]. *)
Record PartialSession : Type := mkPartialSession {
  p_id : option string;
  p_title : option string;
  p_agent_id : option string;
  p_agent_type : option string;
  p_project_context : option string;
  p_original_content : option string;
  p_tags : option string;
  p_created_at : option string;
  p_updated_at : option string
}.

(** The values of the four columns of [chat_sessions_fts] in a statement
    on that table. *)
Record FtsEntry : Type := mkFtsEntry {
  fts_id : string;
  fts_title : string;
  fts_original_content : string;
  fts_tags : string
}.

(** A statement that changed [chat_sessions_fts], as its engine received
    it. The table is declared with [content='chat_sessions']: it stores
    the index only. An INSERT that names no rowid indexes the given values
    under a rowid that the engine assigns; a row is otherwise the row of
    [chat_sessions] with the same rowid, so a DELETE or an UPDATE reaches
    the engine with a rowid of [chat_sessions] and with the column values
    that [chat_sessions] holds for it at that moment ([stored]), which are
    the values whose index entries the engine then removes. *)
Inductive FtsWrite : Type :=
| FtsInsert (values : FtsEntry)
| FtsDelete (rowid : Z) (stored : FtsEntry)
| FtsUpdate (rowid : Z) (stored values : FtsEntry).

(** The open database file: the rows of [chat_sessions] with their
    rowids, in rowid order, and, when [createTables] made it, the
    text-search table with its triggers. What the index holds is
    determined by the statements that have changed the table since it
    was created, oldest first. *)
Record Database : Type := mkDatabase {
  by_rowid : list (Z * ChatSession);
  chat_sessions_fts : option (list FtsWrite)
}.

(** [SELECT * FROM chat_sessions]. *)
Definition chat_sessions (d : Database) : list ChatSession := map snd (by_rowid d).

(** The rowid of a new row: one more than the largest rowid, 1 in an
    empty table. *)
Definition next_rowid (table : list (Z * ChatSession)) : Z :=
  (1 + fold_right Z.max 0 (map fst table))%Z.

(** The row of [chat_sessions] with a rowid. *)
Definition content_row (rowid : Z) (table : list (Z * ChatSession)) : option ChatSession :=
  option_map snd (find (fun x => (fst x =? rowid)%Z) table).

(** The receiver: [this.db] is [null] until [initialize] has run. *)
Record DatabaseBetter : Type := mkDatabaseBetter {
  db : option Database
}.

Definition opened (d : Database) : DatabaseBetter := {| db := Some d |}.

Inductive Exception : Type :=
| NotInitialized            (* Error('Database not initialized') *)
| ConstraintPrimaryKey      (* SQLITE_CONSTRAINT_PRIMARYKEY *)
| ConstraintCheck           (* SQLITE_CONSTRAINT_CHECK *)
| SyntaxError (near : string) (* SqliteError: near ...: syntax error *)
| AmbiguousColumn           (* SqliteError: ambiguous column name *)
| NoSuchTable               (* SqliteError: no such table *)
| Fts5Error                 (* fts5: syntax error in the MATCH argument *)
| Mismatch                  (* SQLITE_MISMATCH: datatype mismatch *)
| LikePatternTooComplex     (* SqliteError: LIKE or GLOB pattern too complex *)
| CorruptVtab.              (* SQLITE_CORRUPT_VTAB: database disk image is malformed *)

Inductive outcome (A : Type) : Type :=
| Returned (a : A)
| Thrown (e : Exception).
Arguments Returned {A} a.
Arguments Thrown {A} e.

Definition Method (A : Type) : Type := DatabaseBetter -> outcome A * DatabaseBetter.

(** [if (!this.db) throw new Error('Database not initialized')] followed by
    a body that works on the open database. *)
Definition with_db {A : Type} (body : Database -> outcome A * Database) : Method A :=
  fun this =>
    match db this with
    | None => (Thrown NotInitialized, this)
    | Some d => let (r, d') := body d in (r, opened d')
    end.

(** [CHECK (agent_type IN ('claude', 'cursor', 'other'))]. *)
Definition agent_type_check (a : string) : bool :=
  Js.includes ["claude"; "cursor"; "other"] a.

(* ===================================================================== *)
(** ** The text-search extension *)
(* ===================================================================== *)

(** FTS5, as far as the store depends on it. The index is given by the
    statements that have changed the table.
    - [fts5_update_fails]: the engine refuses an UPDATE of a rowid with
      SQLITE_CORRUPT_VTAB (it does so when the index does not hold what
      it is about to remove).
    - [fts5_match]: the rowids that MATCH selects for a query, each with
      its rank, in the order of [ORDER BY rank]; nothing for a query that
      the engine cannot parse.
    - [fts5_highlight]: [highlight(chat_sessions_fts, 1, '<mark>',
      '</mark>')] on the row with a rowid, whose title [chat_sessions]
      gives. *)
Class Fts5 : Type := {
  rank_t : Type;
  fts5_update_fails : list FtsWrite -> Z -> FtsEntry -> FtsEntry -> bool;
  fts5_match : string -> list FtsWrite -> option (list (Z * rank_t));
  fts5_highlight : string -> list FtsWrite -> Z -> string -> string
}.

(* --------------------------------------------------------------------- *)
(** *** The triggers ([createFTSTriggers]) *)

Definition fts_entry_of (r : ChatSession) : FtsEntry :=
  {| fts_id := id r; fts_title := title r;
     fts_original_content := original_content r; fts_tags := tags r |}.

(** The rows of [chat_sessions_fts] that [WHERE id = ?] selects: the table
    has no content of its own, its rows are those of [chat_sessions]. *)
Definition fts_rows_with_id (key : string) (content : list (Z * ChatSession))
    : list (Z * ChatSession) :=
  filter (fun x => id (snd x) =? key) content.

(** [chat_sessions_ai]: AFTER INSERT, insert the new row's four columns
    without naming a rowid. *)
Definition chat_sessions_ai (new : ChatSession) (fts : list FtsWrite) : list FtsWrite :=
  fts ++ [FtsInsert (fts_entry_of new)].

(** [chat_sessions_ad]: AFTER DELETE, [DELETE FROM chat_sessions_fts WHERE
    id = old.id], on [chat_sessions] as it is once the old row is gone. *)
Definition chat_sessions_ad (old : ChatSession) (content : list (Z * ChatSession))
    (fts : list FtsWrite) : list FtsWrite :=
  fts ++ map (fun x => FtsDelete (fst x) (fts_entry_of (snd x)))
             (fts_rows_with_id (id old) content).

Section Statements.
Context {F : Fts5}.

(** [chat_sessions_au]: AFTER UPDATE, set the three text columns [WHERE id
    = new.id], on [chat_sessions] as it is once the row has its new
    values. Nothing is returned when the engine refuses. *)
Definition chat_sessions_au (new : ChatSession) (content : list (Z * ChatSession))
    (fts : list FtsWrite) : option (list FtsWrite) :=
  fold_left
    (fun acc x =>
       match acc with
       | None => None
       | Some fts =>
           let stored := fts_entry_of (snd x) in
           let values := {| fts_id := fts_id stored; fts_title := title new;
                            fts_original_content := original_content new;
                            fts_tags := tags new |} in
           if fts5_update_fails fts (fst x) stored values then None
           else Some (fts ++ [FtsUpdate (fst x) stored values])
       end)
    (fts_rows_with_id (id new) content) (Some fts).

(* --------------------------------------------------------------------- *)
(** *** The three kinds of write statement *)

(** [INSERT INTO chat_sessions (...) VALUES (...)]; the result is
    [changes]. The CHECK constraint is tested before the primary key. *)
Definition sql_insert (row : ChatSession) (d : Database) : outcome nat * Database :=
  if negb (agent_type_check (agent_type row)) then
    (Thrown ConstraintCheck, d)
  else if existsb (fun r => id r =? id row) (chat_sessions d) then
    (Thrown ConstraintPrimaryKey, d)
  else
    (Returned 1%nat,
     {| by_rowid := by_rowid d ++ [(next_rowid (by_rowid d), row)];
        chat_sessions_fts := option_map (chat_sessions_ai row) (chat_sessions_fts d) |}).

(** One [column = ?] of an UPDATE's SET list with its bound value. *)
Inductive Assignment : Type :=
| SetTitle (v : string)
| SetOriginalContent (v : string)
| SetTags (v : string)
| SetUpdatedAt (v : string).

Definition assign (r : ChatSession) (a : Assignment) : ChatSession :=
  match a with
  | SetTitle v =>
      mkChatSession (id r) v (agent_id r) (agent_type r) (project_context r)
        (original_content r) (tags r) (created_at r) (updated_at r)
  | SetOriginalContent v =>
      mkChatSession (id r) (title r) (agent_id r) (agent_type r) (project_context r)
        v (tags r) (created_at r) (updated_at r)
  | SetTags v =>
      mkChatSession (id r) (title r) (agent_id r) (agent_type r) (project_context r)
        (original_content r) v (created_at r) (updated_at r)
  | SetUpdatedAt v =>
      mkChatSession (id r) (title r) (agent_id r) (agent_type r) (project_context r)
        (original_content r) (tags r) (created_at r) v
  end.

Definition assign_all (fields : list Assignment) (r : ChatSession) : ChatSession :=
  fold_left assign fields r.

(** The trigger [chat_sessions_au] once for each updated row. *)
Definition fire_au (affected content : list (Z * ChatSession)) (fts : list FtsWrite)
    : option (list FtsWrite) :=
  fold_left
    (fun acc x =>
       match acc with
       | None => None
       | Some fts => chat_sessions_au (snd x) content fts
       end)
    affected (Some fts).

(** [UPDATE chat_sessions SET <fields> WHERE id = ?]. When the trigger
    fails the statement fails and nothing of it remains. *)
Definition sql_update (fields : list Assignment) (key : string) (d : Database)
    : outcome nat * Database :=
  let table := map (fun x => if id (snd x) =? key
                             then (fst x, assign_all fields (snd x)) else x)
                   (by_rowid d) in
  let affected := filter (fun x => id (snd x) =? key) table in
  match chat_sessions_fts d with
  | None =>
      (Returned (List.length affected),
       {| by_rowid := table; chat_sessions_fts := None |})
  | Some fts =>
      match fire_au affected table fts with
      | Some fts' =>
          (Returned (List.length affected),
           {| by_rowid := table; chat_sessions_fts := Some fts' |})
      | None => (Thrown CorruptVtab, d)
      end
  end.

(** The rows of a DELETE one after the other, each followed by the
    trigger [chat_sessions_ad] when the text-search table exists: [kept]
    are the rows already passed that stay, [todo] the rows still to
    visit. *)
Fixpoint delete_each (cond : ChatSession -> bool) (kept todo : list (Z * ChatSession))
    (fts : option (list FtsWrite)) : list (Z * ChatSession) * option (list FtsWrite) :=
  match todo with
  | [] => (kept, fts)
  | x :: todo' =>
      if cond (snd x)
      then delete_each cond kept todo'
             (option_map (chat_sessions_ad (snd x) (kept ++ todo')) fts)
      else delete_each cond (kept ++ [x]) todo' fts
  end.

(** [DELETE FROM chat_sessions WHERE <cond>]. *)
Definition sql_delete (cond : ChatSession -> bool) (d : Database) : outcome nat * Database :=
  let after := delete_each cond [] (by_rowid d) (chat_sessions_fts d) in
  (Returned (List.length (filter cond (chat_sessions d))),
   {| by_rowid := fst after; chat_sessions_fts := snd after |}).

End Statements.

(** Post-processing of a statement's result by the calling method. *)
Definition on_result {A B : Type} (f : A -> B) (x : outcome A * Database) : outcome B * Database :=
  match x with
  | (Returned a, d) => (Returned (f a), d)
  | (Thrown e, d) => (Thrown e, d)
  end.

(* ===================================================================== *)
(** ** The clock *)
(* ===================================================================== *)

(** The part of JavaScript's [Date] that the store uses, and the time
    value of a date, in milliseconds, in which the properties of the
    store are stated. *)
Class JsDate : Type := {
  Date : Type;
  getTime : Date -> Z;
  getDate : Date -> Z;            (* day of the month, local time *)
  setDate : Date -> Z -> Date;    (* same local time on another day *)
  toISOString : Date -> string
}.

(** The milliseconds of a day of 24 hours. *)
Definition msPerDay : Z := 86400000%Z.

(* ===================================================================== *)
(** ** Session store ([DatabaseBetter]) *)
(* ===================================================================== *)

(** [generateId]: ['session_' + Date.now() + '_' + Math.random()
    .toString(36).substr(2, 9)], from the two values already printed. *)
Definition generateId (date_now random36 : string) : string :=
  ("session_" ++ date_now ++ "_" ++ random36)%string.

Section Store.
Context {D : JsDate} {F : Fts5}.

Definition createSession (session : SessionInput) (date_now random36 : string) (now : Date)
    : Method string :=
  with_db (fun d =>
    let id := generateId date_now random36 in
    let now := toISOString now in
    let fullSession :=
      {| id := id; title := in_title session; agent_id := in_agent_id session;
         agent_type := in_agent_type session;
         project_context := in_project_context session;
         original_content := in_original_content session;
         tags := in_tags session; created_at := now; updated_at := now |} in
    on_result (fun _ => id) (sql_insert fullSession d)).

(** [SELECT * FROM chat_sessions WHERE id = ?], first row or [null]. *)
Definition getSession (key : string) : Method (option ChatSession) :=
  with_db (fun d => (Returned (find (fun r => id r =? key) (chat_sessions d)), d)).

Definition updateSession (key : string) (updates : PartialSession) (now : Date)
    : Method bool :=
  with_db (fun d =>
    let fields :=
      (if Js.truthy (p_title updates)
       then [SetTitle (match p_title updates with Some v => v | None => "" end)] else [])
      ++ (if Js.truthy (p_original_content updates)
          then [SetOriginalContent
                  (match p_original_content updates with Some v => v | None => "" end)]
          else [])
      ++ (if Js.truthy (p_tags updates)
          then [SetTags (match p_tags updates with Some v => v | None => "" end)] else []) in
    if (List.length fields =? 0)%nat then (Returned false, d)
    else
      let fields := fields ++ [SetUpdatedAt (toISOString now)] in
      on_result (fun changes => (0 <? changes)%nat) (sql_update fields key d)).

Definition deleteSession (key : string) : Method bool :=
  with_db (fun d =>
    on_result (fun changes => (0 <? changes)%nat)
      (sql_delete (fun r => id r =? key) d)).

Definition deleteSessions (ids : list string) : Method nat :=
  with_db (fun d =>
    if (List.length ids =? 0)%nat then (Returned 0%nat, d)
    else sql_delete (fun r => Js.includes ids (id r)) d).

Definition deleteAllSessions : Method nat :=
  with_db (fun d => sql_delete (fun _ => true) d).

Definition deleteOldSessions (daysOld : Z) (now : Date) : Method nat :=
  with_db (fun d =>
    let cutoffDate := setDate now (getDate now - daysOld) in
    let cutoffISO := toISOString cutoffDate in
    sql_delete (fun r => Sqlite.text_lt (created_at r) cutoffISO) d).

Definition deleteSessionsByAgent (agentId : string) : Method nat :=
  with_db (fun d => sql_delete (fun r => agent_id r =? agentId) d).

(** [project_context = ?] is not true on a NULL column. *)
Definition project_is (p : string) (r : ChatSession) : bool :=
  match project_context r with
  | Some q => q =? p
  | None => false
  end.

Definition deleteSessionsByProject (projectContext : string) : Method nat :=
  with_db (fun d => sql_delete (project_is projectContext) d).

End Store.

(* ===================================================================== *)
(** ** Search engine ([searchSessions], [findSimilarSessions]) *)
(* ===================================================================== *)

Record SearchFilters : Type := mkSearchFilters {
  query : option string;
  agentType : option string;
  projectContext : option string;
  filter_tags : option (list string);
  dateFrom : option string;
  dateTo : option string;
  limit : option Z;
  offset : option Z
}.

(** Columns that the WHERE clauses name without a table qualifier. *)
Inductive Column : Type :=
| ColTitle | ColOriginalContent | ColTags
| ColAgentId | ColAgentType | ColProjectContext | ColCreatedAt.

(** A WHERE condition together with its bound parameters. *)
Inductive Expr : Type :=
| Like (c : Column) (pattern : string)
| Eq (c : Column) (v : string)
| Ge (c : Column) (v : string)
| Le (c : Column) (v : string)
| Or (es : list Expr).

Inductive Order : Type := ByRank | ByCreatedAtDesc.

Inductive Clause : Type :=
| OrderBy (o : Order)
| Limit (n : Z)
| Offset (m : Z).

Inductive Source : Type :=
| FromSessions                         (* FROM chat_sessions *)
| FromJoinFts (match_arg : string).    (* ... JOIN chat_sessions_fts ... MATCH ? *)

(** The statement text with its parameters: the table expression, the
    conjuncts of WHERE and the clauses appended after it, in the order in
    which the code appends them. *)
Record Select : Type := mkSelect {
  source : Source;
  where_ : list Expr;
  tail : list Clause
}.

Definition and_where (s : Select) (e : Expr) : Select :=
  {| source := source s; where_ := where_ s ++ [e]; tail := tail s |}.

Definition append_clause (s : Select) (c : Clause) : Select :=
  {| source := source s; where_ := where_ s; tail := tail s ++ [c] |}.

Definition column (c : Column) (r : ChatSession) : option string :=
  match c with
  | ColTitle => Some (title r)
  | ColOriginalContent => Some (original_content r)
  | ColTags => Some (tags r)
  | ColAgentId => Some (agent_id r)
  | ColAgentType => Some (agent_type r)
  | ColProjectContext => project_context r
  | ColCreatedAt => Some (created_at r)
  end.

(** A comparison with NULL is not true. *)
Definition on_column (c : Column) (r : ChatSession) (f : string -> bool) : bool :=
  match column c r with
  | Some v => f v
  | None => false
  end.

(** The truth of a condition on a row. A LIKE whose pattern is too long
    has no value and counts as not true here: a statement that evaluates
    it throws, and any row that a statement returns without throwing owes
    nothing to it. *)
Fixpoint eval (e : Expr) (r : ChatSession) : bool :=
  match e with
  | Like c pattern => on_column c r (fun v => Sqlite.like_true v pattern)
  | Eq c v => on_column c r (fun w => w =? v)
  | Ge c v => on_column c r (fun w => Sqlite.text_le v w)
  | Le c v => on_column c r (fun w => Sqlite.text_le w v)
  | Or es => existsb (fun e' => eval e' r) es
  end.

(** The condition has a LIKE whose pattern is too long. *)
Fixpoint too_complex (e : Expr) : bool :=
  match e with
  | Like _ pattern => Sqlite.like_pattern_too_complex pattern
  | Or es => existsb too_complex es
  | _ => false
  end.

(** Both tables of the join have the columns title, original_content and
    tags, so these names are ambiguous there without a qualifier. *)
Definition in_both_tables (c : Column) : bool :=
  match c with
  | ColTitle | ColOriginalContent | ColTags => true
  | _ => false
  end.

Fixpoint ambiguous (e : Expr) : bool :=
  match e with
  | Like c _ | Eq c _ | Ge c _ | Le c _ => in_both_tables c
  | Or es => existsb ambiguous es
  end.

(** SQLite's grammar after WHERE: [ORDER BY ...] then optionally
    [LIMIT expr], then optionally [OFFSET expr] only after a LIMIT. *)
Definition parse_tail (t : list Clause) : outcome (Order * option Z * option Z) :=
  match t with
  | [OrderBy o] => Returned (o, None, None)
  | [OrderBy o; Limit n] => Returned (o, Some n, None)
  | [OrderBy o; Limit n; Offset m] => Returned (o, Some n, Some m)
  | OrderBy _ :: Offset _ :: _ => Thrown (SyntaxError "OFFSET")
  | _ => Thrown (SyntaxError "")
  end.

(** The row [y] has to come after the row [x] under the ORDER BY of a
    statement on [chat_sessions]; there [rank] is NULL on every row. *)
Definition must_follow (o : Order) (y x : ChatSession) : bool :=
  match o with
  | ByCreatedAtDesc => Sqlite.text_lt (created_at y) (created_at x)
  | ByRank => false
  end.

(** What SQLite's query planner decides and the result may show.
    - [order_by]: the rows sorted for a statement by its ORDER BY; rows
      that the ORDER BY leaves tied come in the order in which the chosen
      access path reads them (backwards in rowid order on a scan of the
      index on created_at, for instance).
    - [evaluates_long_like]: whether the statement, which has a LIKE with
      a pattern that is too long, evaluates such a LIKE on some row. It
      does not on an empty table, on rows that an index excludes, after
      an earlier alternative of an OR has held, or once LIMIT is reached
      on an index scan. *)
Class Planner : Type := {
  order_by : forall {A : Type}, Select -> (A -> A -> bool) -> list A -> list A;
  evaluates_long_like : Select -> list ChatSession -> bool;
  order_by_perm :
    forall (A : Type) (s : Select) (gtb : A -> A -> bool) (l : list A),
      Permutation (order_by s gtb l) l;
  order_by_sorted :
    forall (A : Type) (s : Select) (gtb : A -> A -> bool) (l : list A),
      (forall a b, gtb a b = true -> gtb b a = false) ->
      Sorted (Js.in_order gtb) (order_by s gtb l)
}.

(** The conjuncts of WHERE on a row. *)
Definition keeps (s : Select) (r : ChatSession) : bool :=
  forallb (fun e => eval e r) (where_ s).

Definition paginate {A : Type} (lim off : option Z) (rows : list A) : list A :=
  let rows := match off with Some m => Sqlite.apply_offset m rows | None => rows end in
  match lim with Some n => Sqlite.apply_limit n rows | None => rows end.

(** LIMIT and OFFSET are computed before the first row is read: first
    LIMIT, with which a statement of limit zero ends at once, then
    OFFSET. *)
Definition with_bounds {A : Type} (lim off : option Z) (body : outcome (list A))
    : outcome (list A) :=
  match lim with
  | None => body
  | Some n =>
      if negb (Sqlite.must_be_int n) then Thrown Mismatch
      else if (n =? 0)%Z then Returned []
      else match off with
           | None => body
           | Some m => if negb (Sqlite.must_be_int m) then Thrown Mismatch else body
           end
  end.

Definition map_returned {A B : Type} (f : A -> B) (x : outcome A) : outcome B :=
  match x with
  | Returned a => Returned (f a)
  | Thrown e => Thrown e
  end.

Section Rows.
Context {P : Planner}.

(** A SELECT on [chat_sessions] alone, once its tail is parsed. *)
Definition select_rows (s : Select) (o : Order) (lim off : option Z)
    (rows : list ChatSession) : outcome (list ChatSession) :=
  with_bounds lim off
    (if existsb too_complex (where_ s) && evaluates_long_like s rows
     then Thrown LikePatternTooComplex
     else Returned (paginate lim off (order_by s (must_follow o) (filter (keeps s) rows)))).

(** [db.prepare(sql)] then [stmt.all(...params)] for a statement on
    [chat_sessions] alone that selects the columns of the table. *)
Definition run_rows (s : Select) (d : Database) : outcome (list ChatSession) :=
  match parse_tail (tail s) with
  | Thrown e => Thrown e
  | Returned (o, lim, off) => select_rows s o lim off (chat_sessions d)
  end.

End Rows.

Section Search.
Context {F : Fts5} {P : Planner}.

Record SearchResult : Type := mkSearchResult {
  session : ChatSession;
  rank : option rank_t;
  matched_content : option string
}.

(** [SELECT *, NULL as rank, NULL as matched_content]. *)
Definition plain (r : ChatSession) : SearchResult :=
  {| session := r; rank := None; matched_content := None |}.

(** [SELECT cs.*, fts.rank, highlight(...) FROM chat_sessions cs JOIN
    chat_sessions_fts fts ON cs.id = fts.id WHERE chat_sessions_fts MATCH ?
    ... ORDER BY rank]: the statement steps through the hits of the engine
    in their order. For each hit it reads [fts.id], the id of the row of
    [chat_sessions] with the rowid of the hit, and fails when there is no
    such row; the row of [cs] with this id is that row, ids being unique.
    Rows that the other conditions keep are first skipped, [skip] of
    them, then returned, until [need] are returned when there is such a
    bound; the hits after that are not visited. *)
Fixpoint scan_hits (q : string) (fts : list FtsWrite) (table : list (Z * ChatSession))
    (keep : ChatSession -> bool) (skip : Z) (need : option Z)
    (hits : list (Z * rank_t)) : outcome (list SearchResult) :=
  match hits with
  | [] => Returned []
  | (rowid, rk) :: hits' =>
      if match need with Some n => (n <=? 0)%Z | None => false end then Returned []
      else
        match content_row rowid table with
        | None => Thrown CorruptVtab
        | Some r =>
            if negb (keep r) then scan_hits q fts table keep skip need hits'
            else if (0 <? skip)%Z then scan_hits q fts table keep (skip - 1)%Z need hits'
            else
              map_returned
                (cons {| session := r; rank := Some rk;
                         matched_content := Some (fts5_highlight q fts rowid (title r)) |})
                (scan_hits q fts table keep 0%Z
                   (option_map (fun n => (n - 1)%Z) need) hits')
        end
  end.

(** The number of rows to skip and the number of rows to return, if
    bounded, for bounds that passed [with_bounds]. *)
Definition skip_of (off : option Z) : Z :=
  match off with Some m => m | None => 0%Z end.

Definition need_of (lim : option Z) : option Z :=
  match lim with
  | Some n => if (n <? 0)%Z then None else Some n
  | None => None
  end.

(** [db.prepare(sql)] then [stmt.all(...params)]: the errors of prepare
    (syntax, a missing table, an ambiguous column), then those of the
    first step (the bounds, the MATCH argument), then those that a row
    brings. *)
Definition run_select (s : Select) (d : Database) : outcome (list SearchResult) :=
  match parse_tail (tail s) with
  | Thrown e => Thrown e
  | Returned (o, lim, off) =>
      match source s with
      | FromSessions =>
          map_returned (map plain) (select_rows s o lim off (chat_sessions d))
      | FromJoinFts q =>
          match chat_sessions_fts d with
          | None => Thrown NoSuchTable
          | Some fts =>
              if existsb ambiguous (where_ s) then Thrown AmbiguousColumn
              else
                with_bounds lim off
                  (if existsb too_complex (where_ s)
                      && evaluates_long_like s (chat_sessions d)
                   then Thrown LikePatternTooComplex
                   else
                     match fts5_match q fts with
                     | None => Thrown Fts5Error
                     | Some hits =>
                         match o with
                         | ByRank =>
                             scan_hits q fts (by_rowid d) (keeps s)
                                       (skip_of off) (need_of lim) hits
                         | ByCreatedAtDesc =>
                             map_returned
                               (fun all =>
                                  paginate lim off
                                    (order_by s
                                       (fun y x => must_follow o (session y) (session x))
                                       all))
                               (scan_hits q fts (by_rowid d) (keeps s) 0%Z None hits)
                         end
                     end)
          end
      end
  end.

Definition checkFTSTableExists (d : Database) : bool :=
  match chat_sessions_fts d with Some _ => true | None => false end.

Definition text_of (v : option string) : string :=
  match v with Some s => s | None => "" end.

Definition num_of (v : option Z) : Z :=
  match v with Some n => n | None => 0%Z end.

Definition quote : string := String "034"%char EmptyString.

(** The statement that [searchSessions] builds in [sql] and [params]. *)
Definition search_select (filters : SearchFilters) (hasFTSTable : bool) : Select :=
  let sql :=
    if Js.truthy (query filters) && hasFTSTable then
      {| source := FromJoinFts (text_of (query filters)); where_ := []; tail := [] |}
    else if Js.truthy (query filters) then
      let searchTerm := ("%" ++ text_of (query filters) ++ "%")%string in
      {| source := FromSessions;
         where_ := [Or [Like ColTitle searchTerm; Like ColOriginalContent searchTerm;
                        Like ColTags searchTerm]];
         tail := [] |}
    else
      {| source := FromSessions; where_ := []; tail := [] |} in
  let sql := if Js.truthy (agentType filters)
             then and_where sql (Eq ColAgentType (text_of (agentType filters))) else sql in
  let sql := if Js.truthy (projectContext filters)
             then and_where sql (Eq ColProjectContext (text_of (projectContext filters)))
             else sql in
  let sql := if Js.truthy (dateFrom filters)
             then and_where sql (Ge ColCreatedAt (text_of (dateFrom filters))) else sql in
  let sql := if Js.truthy (dateTo filters)
             then and_where sql (Le ColCreatedAt (text_of (dateTo filters))) else sql in
  let sql :=
    match filter_tags filters with
    | Some (tag :: tags') =>
        and_where sql
          (Or (map (fun tag => Like ColTags ("%" ++ quote ++ tag ++ quote ++ "%")%string)
                   (tag :: tags')))
    | _ => sql
    end in
  let sql := if Js.truthy (query filters) && hasFTSTable
             then append_clause sql (OrderBy ByRank)
             else append_clause sql (OrderBy ByCreatedAtDesc) in
  let sql := if Js.truthy_num (limit filters)
             then append_clause sql (Limit (num_of (limit filters))) else sql in
  let sql := if Js.truthy_num (offset filters)
             then append_clause sql (Offset (num_of (offset filters))) else sql in
  sql.

Definition searchSessions (filters : SearchFilters) : Method (list SearchResult) :=
  with_db (fun d =>
    let hasFTSTable := checkFTSTableExists d in
    (run_select (search_select filters hasFTSTable) d, d)).

End Search.

(* ===================================================================== *)
(** ** Similarity matcher ([extractKeyTermsFromContent]) *)
(* ===================================================================== *)

Module KeyTerms.

(** [s.replace(/[^\w\s]/g, ' ')]. *)
Definition blank_punctuation (s : list ascii) : list ascii :=
  map (fun c => if Js.is_word c || Js.is_space c then c else " "%char) s.

(** [s.split(/\s+/)]: the pieces between maximal runs of white space,
    the empty pieces at both ends included. [cur] is the piece being read,
    [in_sep] tells that the previous character was white space. *)
Fixpoint split_ws (in_sep : bool) (cur : list ascii) (s : list ascii) : list string :=
  match s with
  | [] => [Js.str cur]
  | c :: s' =>
      if Js.is_space c then
        if in_sep then split_ws true cur s'
        else Js.str cur :: split_ws true [] s'
      else split_ws false (cur ++ [c]) s'
  end.

Definition split_spaces (s : list ascii) : list string := split_ws false [] s.

Definition stop_words : list string :=
  ["the"; "and"; "that"; "this"; "with"; "from"; "they"; "have"; "been"; "said";
   "each"; "which"; "their"; "will"; "about"; "would"; "there"; "could"; "other"].

(** The array [words]. *)
Definition words_of (content : string) : list string :=
  filter (fun word => negb (Js.includes stop_words word))
    (filter (fun word => (3 <? String.length word)%nat)
       (split_spaces (blank_punctuation (Js.toLowerCase (Js.chars content))))).

(** A value stored in [wordCount]: a number, or the string that [+ 1]
    makes of a value that is not a number. *)
Inductive JsValue : Type :=
| Num (n : nat)
| Str (s : string).

(** The own properties of the object literal [{}], in creation order. *)
Definition JsObject : Type := list (string * JsValue).

Fixpoint own (o : JsObject) (key : string) : option JsValue :=
  match o with
  | [] => None
  | (k, v) :: o' => if k =? key then Some v else own o' key
  end.

(** What [String(Object.prototype[key])] is for the properties that an
    object literal inherits. *)
Definition inherited (key : string) : option string :=
  if key =? "__proto__" then Some "[object Object]"
  else if key =? "constructor" then Some "function Object() { [native code] }"
  else if Js.includes
            ["hasOwnProperty"; "isPrototypeOf"; "propertyIsEnumerable";
             "toLocaleString"; "toString"; "valueOf"; "__defineGetter__";
             "__defineSetter__"; "__lookupGetter__"; "__lookupSetter__"] key
  then Some ("function " ++ key ++ "() { [native code] }")%string
  else None.

(** [(wordCount[word] || 0) + 1]. *)
Definition incremented (o : JsObject) (word : string) : JsValue :=
  match own o word with
  | Some (Num n) => Num (n + 1)
  | Some (Str s) => Str (s ++ "1")%string
  | None =>
      match inherited word with
      | Some s => Str (s ++ "1")%string
      | None => Num 1
      end
  end.

Fixpoint overwrite (o : JsObject) (key : string) (v : JsValue) : JsObject :=
  match o with
  | [] => [(key, v)]
  | (k, w) :: o' => if k =? key then (k, v) :: o' else (k, w) :: overwrite o' key v
  end.

(** [wordCount[word] = v]: the setter of [__proto__] ignores a value that
    is not an object; every other key becomes or stays an own property. *)
Definition put (o : JsObject) (key : string) (v : JsValue) : JsObject :=
  if key =? "__proto__" then o else overwrite o key v.

Definition count_words (words : list string) : JsObject :=
  fold_left (fun wordCount word => put wordCount word (incremented wordCount word))
            words [].

(** An array index: a canonical decimal numeral up to 2^32 - 2. *)
Fixpoint digits_value (acc : N) (s : list ascii) : option N :=
  match s with
  | [] => Some acc
  | c :: s' =>
      if Js.is_digit c
      then digits_value (acc * 10 + N.of_nat (nat_of_ascii c - 48))%N s'
      else None
  end.

Definition array_index (key : string) : option N :=
  match Js.chars key with
  | [] => None
  | c :: rest =>
      if Ascii.eqb c "0"%char && negb (match rest with [] => true | _ => false end)
      then None
      else match digits_value 0%N (c :: rest) with
           | Some n => if (n <=? 4294967294)%N then Some n else None
           | None => None
           end
  end.

Definition is_index (kv : string * JsValue) : bool :=
  match array_index (fst kv) with Some _ => true | None => false end.

Definition index_after (y x : string * JsValue) : bool :=
  match array_index (fst y), array_index (fst x) with
  | Some a, Some b => (b <? a)%N
  | _, _ => false
  end.

(** [Object.entries]: array indices in ascending order, then the other
    keys in creation order. *)
Definition entries (o : JsObject) : list (string * JsValue) :=
  Js.sort_by index_after (filter is_index o)
  ++ filter (fun kv => negb (is_index kv)) o.

(** [([,a], [,b]) => b - a] is positive; a difference that is [NaN] counts
    as zero. *)
Definition by_count_desc (y x : string * JsValue) : bool :=
  match snd y, snd x with
  | Num a, Num b => (a <? b)%nat
  | _, _ => false
  end.

Definition extractKeyTermsFromContent (content : string) : list string :=
  let words := words_of content in
  let wordCount := count_words words in
  map fst (Js.slice0 8 (Js.sort_by by_count_desc (entries wordCount))).

End KeyTerms.

Section Similar.
Context {F : Fts5} {P : Planner}.

Definition like_any_field (term : string) : Expr :=
  let searchTerm := ("%" ++ term ++ "%")%string in
  Or [Like ColTitle searchTerm; Like ColOriginalContent searchTerm; Like ColTags searchTerm].

Definition similar_select (hasFTSTable : bool) (keyTerms : list string) (limit : Z) : Select :=
  if hasFTSTable then
    let searchQuery := Js.join " OR " keyTerms in
    {| source := FromJoinFts searchQuery; where_ := [];
       tail := [OrderBy ByRank; Limit limit] |}
  else
    {| source := FromSessions;
       where_ := [Or (map like_any_field keyTerms)];
       tail := [OrderBy ByCreatedAtDesc; Limit limit] |}.

Definition findSimilarSessions (content : string) (limit : Z) : Method (list SearchResult) :=
  with_db (fun d =>
    let keyTerms := KeyTerms.extractKeyTermsFromContent content in
    if (List.length keyTerms =? 0)%nat then (Returned [], d)
    else
      let hasFTSTable := checkFTSTableExists d in
      (run_select (similar_select hasFTSTable keyTerms limit) d, d)).

End Similar.

(* ===================================================================== *)
(** ** Content processor ([ChatContentProcessor.extractKeyTopics]) *)
(* ===================================================================== *)

Module ChatContentProcessor.

Definition backslash : ascii := "\"%char.
Definition dquote : ascii := "034"%char.
Definition dot : ascii := "."%char.

(** The keyword as the JavaScript string that the source text denotes
    (['c\\+\\+'] is the five characters c, \, +, \, +). *)
Definition techKeywords : list string :=
  ["javascript"; "typescript"; "python"; "java"; "c\+\+"; "c#"; "go"; "rust"; "php";
   "react"; "vue"; "angular"; "node"; "express"; "django"; "flask"; "spring";
   "sql"; "mongodb"; "postgresql"; "mysql"; "redis"; "docker"; "kubernetes";
   "aws"; "azure"; "gcp"; "git"; "github"; "api"; "rest"; "graphql";
   "html"; "css"; "json"; "xml"; "yaml"; "cli"; "bash"; "shell"].

Definition conceptKeywords : list string :=
  ["authentication"; "authorization"; "database"; "deployment"; "testing";
   "debugging"; "optimization"; "performance"; "security"; "error handling";
   "logging"; "monitoring"; "caching"; "validation"; "migration";
   "refactoring"; "configuration"; "environment"; "build"; "ci/cd"].

Definition allKeywords : list string := techKeywords ++ conceptKeywords.

(** The characters that the pattern text matches literally: an escaped
    character stands for itself. No keyword has another metacharacter. *)
Fixpoint literal (pattern : list ascii) : list ascii :=
  match pattern with
  | [] => []
  | c :: rest =>
      if Ascii.eqb c backslash then
        match rest with
        | [] => []
        | d :: rest' => d :: literal rest'
        end
      else c :: literal rest
  end.

Definition word_at (c : option ascii) : bool :=
  match c with Some c => Js.is_word c | None => false end.

(** [\b] between two neighbouring positions. *)
Definition boundary (prev next : option ascii) : bool :=
  xorb (word_at prev) (word_at next).

(** Matches [lit] at the head of [s] up to ASCII case; gives the last
    character read before the rest and the rest. *)
Fixpoint match_here (lit s : list ascii) (prev : option ascii)
    : option (option ascii * list ascii) :=
  match lit with
  | [] => Some (prev, s)
  | c :: lit' =>
      match s with
      | [] => None
      | d :: s' => if Js.ci_eqb c d then match_here lit' s' (Some d) else None
      end
  end.

(** [new RegExp(`\\b${keyword}\\b`, 'gi').test(content)], scanning from the
    position whose left neighbour is [prev]. *)
Fixpoint test_from (lit : list ascii) (prev : option ascii) (s : list ascii) : bool :=
  (boundary prev (hd_error s)
   && match match_here lit s prev with
      | Some (last, rest) => boundary last (hd_error rest)
      | None => false
      end)
  || match s with
     | [] => false
     | c :: s' => test_from lit (Some c) s'
     end.

Definition keyword_test (keyword : string) (content : string) : bool :=
  test_from (literal (Js.chars keyword)) None (Js.chars content).

(** [content.match] with the pattern for quoted terms (a double quote, 3
    to 30 characters other than a double quote, a double quote; flag g):
    every match with its two quotes. [open] is the text read since the
    last quote that can still open a match. *)
Fixpoint quoted_from (open : option (list ascii)) (s : list ascii) : list string :=
  match s with
  | [] => []
  | c :: s' =>
      match open with
      | None => if Ascii.eqb c dquote then quoted_from (Some []) s' else quoted_from None s'
      | Some body =>
          if Ascii.eqb c dquote then
            if (3 <=? List.length body)%nat && (List.length body <=? 30)%nat
            then Js.str (dquote :: body ++ [dquote]) :: quoted_from None s'
            else quoted_from (Some []) s'
          else quoted_from (Some (body ++ [c])) s'
      end
  end.

Definition quotedTerms (content : string) : list string :=
  quoted_from None (Js.chars content).

(** The term without its double quotes, in lower case. *)
Definition cleanTerm (term : string) : string :=
  Js.str (Js.toLowerCase (filter (fun c => negb (Ascii.eqb c dquote)) (Js.chars term))).

Definition emit_ext (run : list ascii) : list string :=
  if (2 <=? List.length run)%nat && (List.length run <=? 4)%nat
  then [Js.str (dot :: run)] else [].

(** [content.match(/\.\w{2,4}\b/g)]. [open] is the run of word characters
    read since the last dot, when nothing else stood in between. *)
Fixpoint ext_from (open : option (list ascii)) (s : list ascii) : list string :=
  match s with
  | [] => match open with Some run => emit_ext run | None => [] end
  | c :: s' =>
      match open with
      | Some run =>
          if Js.is_word c then ext_from (Some (run ++ [c])) s'
          else emit_ext run
               ++ (if Ascii.eqb c dot then ext_from (Some []) s' else ext_from None s')
      | None => if Ascii.eqb c dot then ext_from (Some []) s' else ext_from None s'
      end
  end.

Definition fileExtensions (content : string) : list string :=
  ext_from None (Js.chars content).

(** [Set.prototype.add] on a set kept in insertion order. *)
Definition add (topics : list string) (x : string) : list string :=
  if Js.includes topics x then topics else topics ++ [x].

Definition lower (s : string) : string := Js.str (Js.toLowerCase (Js.chars s)).

Definition extractKeyTopics (content : string) : list string :=
  let topics : list string := [] in
  let topics :=
    fold_left (fun topics keyword =>
                 if keyword_test keyword content then add topics (lower keyword)
                 else topics)
              allKeywords topics in
  let topics :=
    fold_left (fun topics term =>
                 let cleanTerm := cleanTerm term in
                 if (2 <? String.length cleanTerm)%nat && (String.length cleanTerm <? 30)%nat
                 then add topics cleanTerm else topics)
              (quotedTerms content) topics in
  let topics :=
    fold_left (fun topics ext => add topics (lower ext)) (fileExtensions content) topics in
  Js.slice0 20 topics.

End ChatContentProcessor.

(* ===================================================================== *)
(** ** Runs of store operations *)
(* ===================================================================== *)

Section Runs.
Context {D : JsDate} {F : Fts5}.

(** One call of a writing method with the values it reads from its
    environment. *)
Inductive Op : Type :=
| CreateSession (session : SessionInput) (date_now random36 : string) (now : Date)
| UpdateSession (key : string) (updates : PartialSession) (now : Date)
| DeleteSession (key : string)
| DeleteSessions (ids : list string)
| DeleteAllSessions
| DeleteOldSessions (daysOld : Z) (now : Date)
| DeleteSessionsByAgent (agentId : string)
| DeleteSessionsByProject (projectContext : string).

(** The receiver after the call, whether it returned or threw. *)
Definition step (this : DatabaseBetter) (o : Op) : DatabaseBetter :=
  match o with
  | CreateSession s dn rnd now => snd (createSession s dn rnd now this)
  | UpdateSession k u now => snd (updateSession k u now this)
  | DeleteSession k => snd (deleteSession k this)
  | DeleteSessions ids => snd (deleteSessions ids this)
  | DeleteAllSessions => snd (deleteAllSessions this)
  | DeleteOldSessions n now => snd (deleteOldSessions n now this)
  | DeleteSessionsByAgent a => snd (deleteSessionsByAgent a this)
  | DeleteSessionsByProject p => snd (deleteSessionsByProject p this)
  end.

Definition run (ops : list Op) (this : DatabaseBetter) : DatabaseBetter :=
  fold_left step ops this.

End Runs.

(* ===================================================================== *)
(** ** The rest of the session store *)
(* ===================================================================== *)

Section StoreMore.
Context {D : JsDate}.

(** [deleteSessionsByFilters]: the conditions joined by AND in [sql], each
    with its parameter. *)
Definition deleteSessionsByFilters
    (olderThanDays : Z) (agentType projectContext : option string) (now : Date)
    : Method nat :=
  with_db (fun d =>
    let cutoffDate := setDate now (getDate now - olderThanDays) in
    let cutoffISO := toISOString cutoffDate in
    let sql := [fun r => Sqlite.text_lt (created_at r) cutoffISO] in
    let sql := if Js.truthy agentType
               then sql ++ [eval (Eq ColAgentType (text_of agentType))] else sql in
    let sql := if Js.truthy projectContext
               then sql ++ [eval (Eq ColProjectContext (text_of projectContext))]
               else sql in
    sql_delete (fun r => forallb (fun cond => cond r) sql) d).

End StoreMore.

Section Listings.
Context {P : Planner}.

(** [getRecentSessions(limit = 10, agentType?)]; an omitted limit is
    [None]. *)
Definition getRecentSessions (limit : option Z) (agentType : option string)
    : Method (list ChatSession) :=
  with_db (fun d =>
    let limit := match limit with Some n => n | None => 10%Z end in
    let sql := {| source := FromSessions; where_ := []; tail := [] |} in
    let sql := if Js.truthy agentType
               then and_where sql (Eq ColAgentType (text_of agentType)) else sql in
    let sql := append_clause (append_clause sql (OrderBy ByCreatedAtDesc)) (Limit limit) in
    (run_rows sql d, d)).

(** [getSessionsByAgent(agentId, limit = 20)]. *)
Definition getSessionsByAgent (agentId : string) (limit : option Z)
    : Method (list ChatSession) :=
  with_db (fun d =>
    let limit := match limit with Some n => n | None => 20%Z end in
    (run_rows {| source := FromSessions; where_ := [Eq ColAgentId agentId];
                 tail := [OrderBy ByCreatedAtDesc; Limit limit] |} d,
     d)).

End Listings.

(** [SELECT key, COUNT ... GROUP BY key] over the non-NULL keys of the
    rows: one row for each key, in ascending order of the key. *)
Definition group_count (keys : list string) : list (string * nat) :=
  map (fun k => (k, count_occ string_dec keys k))
      (Js.sort_by (fun y x => Sqlite.text_lt x y) (nodup string_dec keys)).

(** [rows.forEach(row => { record[row.key] = row.count })] on the object
    literal. *)
Definition to_record (rows : list (string * nat)) : KeyTerms.JsObject :=
  fold_left (fun record row => KeyTerms.put record (fst row) (KeyTerms.Num (snd row)))
            rows [].

Definition project_keys (rows : list ChatSession) : list string :=
  flat_map (fun r => match project_context r with Some p => [p] | None => [] end) rows.

Record SessionStats : Type := mkSessionStats {
  total_sessions : nat;
  sessions_by_agent : KeyTerms.JsObject;
  sessions_by_project : KeyTerms.JsObject;
  recent_activity : list (string * nat)
}.

Definition getSessionStats : Method SessionStats :=
  with_db (fun d =>
    let total := List.length (chat_sessions d) in
    let agentResults := group_count (map agent_type (chat_sessions d)) in
    let projectResults := group_count (project_keys (chat_sessions d)) in
    (Returned {| total_sessions := total;
                 sessions_by_agent := to_record agentResults;
                 sessions_by_project := to_record projectResults;
                 recent_activity := [] |},
     d)).

(* --------------------------------------------------------------------- *)
(** *** [initialize] *)

(** [createTables]: every CREATE is IF NOT EXISTS; the text-search table
    and its triggers are made only when the probe found the extension. A
    new text-search table has received no statement. *)
Definition createTables (hasFTS5 : bool) (d : Database) : Database :=
  {| by_rowid := by_rowid d;
     chat_sessions_fts :=
       if hasFTS5
       then match chat_sessions_fts d with
            | Some fts => Some fts
            | None => Some []
            end
       else chat_sessions_fts d |}.

(** The result of counting the rows of [chat_sessions_fts]: a scan of the
    table, which has no content of its own, reads the rows of
    [chat_sessions]. *)
Definition fts_count (d : Database) : nat := List.length (by_rowid d).

(** [initializeFTSIndex]: when [chat_sessions] has rows and the count of
    [chat_sessions_fts] is zero, every row is inserted into the
    text-search table; an error (no text-search table) is caught. The
    statement that follows merges the segments of the index and changes
    nothing of what it holds. *)
Definition initializeFTSIndex (d : Database) : Database :=
  match chat_sessions_fts d with
  | Some fts =>
      let count := List.length (chat_sessions d) in
      let ftsCount := fts_count d in
      if Nat.ltb 0 count && Nat.eqb ftsCount 0
      then {| by_rowid := by_rowid d;
              chat_sessions_fts :=
                Some (fts ++ map (fun r => FtsInsert (fts_entry_of r)) (chat_sessions d)) |}
      else d
  | None => d
  end.

(** A database file that has just been created. *)
Definition new_file : Database := {| by_rowid := []; chat_sessions_fts := None |}.

(** [initialize] on the content of the file at [dbPath] ([None] when there
    is no file yet), [hasFTS5] being the result of [checkFTS5Support]. The
    file can be opened and written. *)
Definition initialize (hasFTS5 : bool) (file : option Database) : DatabaseBetter :=
  let d := match file with Some d => d | None => new_file end in
  let d := createTables hasFTS5 d in
  let d := if hasFTS5 then initializeFTSIndex d else d in
  opened d.

(* ===================================================================== *)
(** ** Instances used to evaluate the model on concrete inputs *)
(* ===================================================================== *)

Definition two_digits (n : nat) : string :=
  String (ascii_of_nat (48 + n / 10)) (String (ascii_of_nat (48 + n mod 10)) EmptyString).

(** The midnights (UTC) of the days of January 2024, a date being its day
    of the month; 1704067200000 is the time value of the first. *)
#[local] Instance January2024 : JsDate := {
  Date := Z;
  getTime := fun d => (1704067200000 + (d - 1) * msPerDay)%Z;
  getDate := fun d => d;
  setDate := fun _ day => day;
  toISOString := fun d => ("2024-01-" ++ two_digits (Z.to_nat d) ++ "T00:00:00.000Z")%string
}.

(** A small engine. Its words are the runs of ASCII letters and digits,
    in lower case. It assigns rowids and keeps the sizes of the three
    indexed columns as FTS5 does: an insert takes the next rowid of its
    own and adds the sizes of its values; a delete or an update of a
    rowid removes from that rowid the words of the values it is told are
    stored, takes their sizes off, and is refused when a column holds
    fewer words in all than it is to give up, or when there is no row
    left; an update then adds the new values. A query is one or more
    groups of words joined by OR; it selects the rowids that hold every
    word of a group, in rowid order and all with rank 0. Nothing is
    highlighted. *)
Module WordIndex.

Definition is_word_char (c : ascii) : bool :=
  Js.is_upper c || Js.is_lower c || Js.is_digit c.

Fixpoint words_from (cur : list ascii) (s : list ascii) : list string :=
  match s with
  | [] => match cur with [] => [] | _ => [Js.str cur] end
  | c :: s' =>
      if is_word_char c then words_from (cur ++ [Js.fold_ascii c]) s'
      else match cur with
           | [] => words_from [] s'
           | _ => Js.str cur :: words_from [] s'
           end
  end.

Definition words (s : string) : list string := words_from [] (Js.chars s).

Definition entry_words (e : FtsEntry) : list string :=
  words (fts_title e) ++ words (fts_original_content e) ++ words (fts_tags e).

Definition sizes (e : FtsEntry) : Z * Z * Z :=
  (Z.of_nat (List.length (words (fts_title e))),
   Z.of_nat (List.length (words (fts_original_content e))),
   Z.of_nat (List.length (words (fts_tags e)))).

Record State : Type := mkState {
  docs : list (Z * list string);
  totals : Z * Z * Z;
  nrows : Z
}.

Definition empty : State := {| docs := []; totals := (0, 0, 0)%Z; nrows := 0%Z |}.

Definition plus (a b : Z * Z * Z) : Z * Z * Z :=
  let '(a1, a2, a3) := a in let '(b1, b2, b3) := b in (a1 + b1, a2 + b2, a3 + b3)%Z.

Definition minus (a b : Z * Z * Z) : Z * Z * Z :=
  let '(a1, a2, a3) := a in let '(b1, b2, b3) := b in (a1 - b1, a2 - b2, a3 - b3)%Z.

(** Some column holds fewer words than [b] has in it. *)
Definition short_of (a b : Z * Z * Z) : bool :=
  let '(a1, a2, a3) := a in let '(b1, b2, b3) := b in
  (a1 <? b1)%Z || (a2 <? b2)%Z || (a3 <? b3)%Z.

Definition without (gone : list string) (ws : list string) : list string :=
  filter (fun w => negb (Js.includes gone w)) ws.

Definition remove (rowid : Z) (stored : FtsEntry) (st : State) : State :=
  {| docs := map (fun doc => if (fst doc =? rowid)%Z
                             then (fst doc, without (entry_words stored) (snd doc))
                             else doc) (docs st);
     totals := minus (totals st) (sizes stored);
     nrows := (nrows st - 1)%Z |}.

Definition add (rowid : Z) (values : FtsEntry) (st : State) : State :=
  {| docs := if existsb (fun doc => (fst doc =? rowid)%Z) (docs st)
             then map (fun doc => if (fst doc =? rowid)%Z
                                  then (fst doc, snd doc ++ entry_words values)
                                  else doc) (docs st)
             else docs st ++ [(rowid, entry_words values)];
     totals := plus (totals st) (sizes values);
     nrows := (nrows st + 1)%Z |}.

Definition perform (st : State) (w : FtsWrite) : State :=
  match w with
  | FtsInsert values => add (1 + fold_right Z.max 0 (map fst (docs st)))%Z values st
  | FtsDelete rowid stored => remove rowid stored st
  | FtsUpdate rowid stored values => add rowid values (remove rowid stored st)
  end.

Definition replay (fts : list FtsWrite) : State := fold_left perform fts empty.

Definition update_fails (fts : list FtsWrite) (rowid : Z) (stored values : FtsEntry) : bool :=
  let st := replay fts in
  short_of (totals st) (sizes stored) || (nrows st <? 1)%Z.

(** The pieces of a query between spaces. *)
Fixpoint pieces (cur : list ascii) (s : list ascii) : list string :=
  match s with
  | [] => match cur with [] => [] | _ => [Js.str cur] end
  | c :: s' =>
      if Ascii.eqb c " "%char
      then match cur with
           | [] => pieces [] s'
           | _ => Js.str cur :: pieces [] s'
           end
      else pieces (cur ++ [c]) s'
  end.

(** The groups of words between the ORs; nothing when a group is empty or
    a piece is not a word. *)
Fixpoint groups (cur : list string) (ps : list string) : option (list (list string)) :=
  match ps with
  | [] => match cur with [] => None | _ => Some [cur] end
  | p :: ps' =>
      if p =? "OR" then
        match cur, groups [] ps' with
        | _ :: _, Some gs => Some (cur :: gs)
        | _, _ => None
        end
      else if Js.includes ["AND"; "NOT"; "NEAR"] p then None
      else
        match words p with
        | [w] => if (String.length w =? String.length p)%nat
                 then groups (cur ++ [w]) ps' else None
        | _ => None
        end
  end.

Definition match_ (q : string) (fts : list FtsWrite) : option (list (Z * Z)) :=
  match groups [] (pieces [] (Js.chars q)) with
  | None => None
  | Some gs =>
      Some (map (fun doc => (fst doc, 0%Z))
              (filter (fun doc =>
                         existsb (fun g => forallb (Js.includes (snd doc)) g) gs)
                      (docs (replay fts))))
  end.

End WordIndex.

#[local] Instance WordEngine : Fts5 := {
  rank_t := Z;
  fts5_update_fails := WordIndex.update_fails;
  fts5_match := WordIndex.match_;
  fts5_highlight := fun _ _ _ text => text
}.

(** The condition is an equality on a column that has an index. *)
Definition indexed_equality (e : Expr) : bool :=
  match e with
  | Eq ColAgentId _ | Eq ColAgentType _ | Eq ColProjectContext _ => true
  | _ => false
  end.

(** A planner. A statement with an equality on an indexed column reads
    the rows of that index and sorts them, which keeps tied rows in rowid
    order; any other statement scans the index on created_at backwards,
    which gives tied rows in reverse rowid order. A LIKE is evaluated
    when some row passes the equalities on indexed columns. *)
Definition scan_order {A : Type} (s : Select) (gtb : A -> A -> bool) (l : list A) : list A :=
  Js.sort_by gtb (if existsb indexed_equality (where_ s) then l else rev l).

Definition scan_evaluates (s : Select) (rows : list ChatSession) : bool :=
  existsb (fun r => forallb (fun e => eval e r) (filter indexed_equality (where_ s))) rows.

(* ===================================================================== *)
(** ** Stores and inputs used in examples *)
(* ===================================================================== *)

(** Rows numbered from 1, as a table has them that was only inserted
    into. *)
Definition numbered (rows : list ChatSession) : list (Z * ChatSession) :=
  combine (map Z.of_nat (seq 1 (List.length rows))) rows.

(** The store that [initialize] leaves on a new file when the extension
    is available: both tables empty. *)
Definition fresh_indexed : Database :=
  {| by_rowid := []; chat_sessions_fts := Some [] |}.

Definition no_updates : PartialSession :=
  mkPartialSession None None None None None None None None None.

Definition no_filters : SearchFilters :=
  mkSearchFilters None None None None None None None None.

Definition sample_input : SessionInput :=
  {| in_title := "Test Chat Session"; in_agent_id := "test-agent-001";
     in_agent_type := "other"; in_project_context := Some "test-project";
     in_original_content := "We decided to use PostgreSQL for the database.";
     in_tags := ("[" ++ quote ++ "db" ++ quote ++ "]")%string |}.

Definition sample_row (i : string) (day : nat) : ChatSession :=
  {| id := i; title := "Test Chat Session"; agent_id := "test-agent-001";
     agent_type := "other"; project_context := Some "test-project";
     original_content := "We decided to use PostgreSQL for the database.";
     tags := ("[" ++ quote ++ "db" ++ quote ++ "]")%string;
     created_at := ("2024-01-" ++ two_digits day ++ "T00:00:00.000Z")%string;
     updated_at := ("2024-01-" ++ two_digits day ++ "T00:00:00.000Z")%string |}.

(** A store with one session, created on a store with and without the
    text-search table. *)
Definition one_session (indexed : bool) : Database :=
  {| by_rowid := [(1%Z, sample_row "s1" 5)];
     chat_sessions_fts :=
       if indexed then Some [FtsInsert (fts_entry_of (sample_row "s1" 5))] else None |}.

(** A store without the text-search table that holds two sessions, of
    the fifth and of the twentieth of January 2024. *)
Definition two_sessions : Database :=
  {| by_rowid := [(1%Z, sample_row "s1" 5); (2%Z, sample_row "s2" 20)];
     chat_sessions_fts := None |}.

(** The date that [createSession] gave a session of January 2024, read
    off its created_at. *)
Definition day_of (r : ChatSession) : Z :=
  match Js.chars (created_at r) with
  | _ :: _ :: _ :: _ :: _ :: _ :: _ :: _ :: a :: b :: _ =>
      Z.of_nat ((nat_of_ascii a - 48) * 10 + (nat_of_ascii b - 48))
  | _ => 0%Z
  end.

(* ===================================================================== *)
(** ** What an update writes *)
(* ===================================================================== *)

(** The partial carries a title, an original_content or a tags value that
    is not falsy. *)
Definition has_update (u : PartialSession) : bool :=
  Js.truthy (p_title u) || Js.truthy (p_original_content u) || Js.truthy (p_tags u).

(** A column after an update whose partial carries [v] for it. *)
Definition updated_value (v : option string) (old : string) : string :=
  if Js.truthy v then text_of v else old.

(** A row after an update stamped [stamp]. *)
Definition updated_row (u : PartialSession) (stamp : string) (r : ChatSession) : ChatSession :=
  {| id := id r;
     title := updated_value (p_title u) (title r);
     agent_id := agent_id r;
     agent_type := agent_type r;
     project_context := project_context r;
     original_content := updated_value (p_original_content u) (original_content r);
     tags := updated_value (p_tags u) (tags r);
     created_at := created_at r;
     updated_at := stamp |}.

Definition has_id (key : string) (r : ChatSession) : bool := id r =? key.

(** Two partials that carry a title alone: a word, and four words, more
    than the title of [sample_row] has. *)
Definition renamed : PartialSession :=
  mkPartialSession None (Some "Renamed") None None None None None None None.

Definition four_words : PartialSession :=
  mkPartialSession None (Some "One two three four") None None None None None None None.

(** A run on a new indexed store: two sessions are created, the first is
    renamed, the second is deleted. *)
Definition sample_ops : list (Op (D := January2024)) :=
  [ CreateSession sample_input "1700000000000" "k3j9x0q2a" 5%Z;
    CreateSession sample_input "1700000000001" "zzzzzzzzz" 6%Z;
    UpdateSession (generateId "1700000000000" "k3j9x0q2a") renamed 7%Z;
    DeleteSession (generateId "1700000000001" "zzzzzzzzz") ].

(* ===================================================================== *)
(** ** Substrings *)
(* ===================================================================== *)

(** A search with nothing but a query. *)
Definition query_only (q : string) : SearchFilters :=
  mkSearchFilters (Some q) None None None None None None None.

(** [q] occurs in [s] as it is written. *)
Definition occurs_in (q s : string) : Prop :=
  exists pre post : list ascii, Js.chars s = pre ++ Js.chars q ++ post.

Fixpoint ci_prefix (q s : list ascii) : bool :=
  match q, s with
  | [], _ => true
  | _ :: _, [] => false
  | c :: q', d :: s' => Js.ci_eqb c d && ci_prefix q' s'
  end.

Fixpoint ci_contains_chars (q s : list ascii) : bool :=
  ci_prefix q s
  || match s with
     | [] => false
     | _ :: s' => ci_contains_chars q s'
     end.

(** [q] occurs in [s] up to the case of ASCII letters. *)
Definition ci_contains (q s : string) : bool :=
  ci_contains_chars (Js.chars q) (Js.chars s).

(** [q] has none of the two wildcard characters of LIKE. *)
Definition no_wildcard (q : string) : bool :=
  forallb (fun c => negb (Ascii.eqb c Sqlite.pct || Ascii.eqb c Sqlite.usc)) (Js.chars q).

(** [q] has no NUL character. *)
Definition no_nul (q : string) : bool :=
  forallb (fun c => negb (Ascii.eqb c Sqlite.nul)) (Js.chars q).

(** The WHERE clause of the fallback path on one row. *)
Definition like_hit (q : string) (r : ChatSession) : bool :=
  let searchTerm := ("%" ++ q ++ "%")%string in
  Sqlite.like_true (title r) searchTerm
  || Sqlite.like_true (original_content r) searchTerm
  || Sqlite.like_true (tags r) searchTerm.

(** A store without the text-search table whose one session has the
    content abc. *)
Definition abc_store : Database :=
  {| by_rowid :=
       [ (1%Z,
          {| id := "s1"; title := "notes"; agent_id := "agent"; agent_type := "other";
             project_context := None; original_content := "abc"; tags := "[]";
             created_at := "2024-01-05T00:00:00.000Z";
             updated_at := "2024-01-05T00:00:00.000Z" |}) ];
     chat_sessions_fts := None |}.

(** A store without the text-search table whose one session has as
    content the character a, a NUL and the characters bc. *)
Definition nul_store : Database :=
  {| by_rowid :=
       [ (1%Z,
          {| id := "s1"; title := "notes"; agent_id := "agent"; agent_type := "other";
             project_context := None;
             original_content := String "a" (String Sqlite.nul "bc");
             tags := "[]";
             created_at := "2024-01-05T00:00:00.000Z";
             updated_at := "2024-01-05T00:00:00.000Z" |}) ];
     chat_sessions_fts := None |}.

(** The largest limit that [validateSearchParams] lets through
    ([Number(query.limit) > 100] is refused). *)
Definition max_limit : Z := 100%Z.

(** A store without the text-search table that holds [n] sessions. *)
Definition many_sessions (n : nat) : Database :=
  {| by_rowid :=
       numbered
         (map (fun k => sample_row ("s" ++ String (ascii_of_nat k) EmptyString)%string 5)
              (seq 0 n));
     chat_sessions_fts := None |}.

Definition with_limit (n : Z) : SearchFilters :=
  mkSearchFilters None None None None None None (Some n) None.

Definition with_offset (m : Z) : SearchFilters :=
  mkSearchFilters None None None None None None None (Some m).

(** A text of ten tokens: eight that occur once and [constructor], which
    occurs twice. *)
Definition constructor_text : string :=
  "aaaa bbbb cccc dddd eeee ffff gggg hhhh constructor constructor".

(** A quoted term of thirty characters. *)
Definition thirty : string := "123456789012345678901234567890".

Definition quoted_thirty : string := (quote ++ thirty ++ quote)%string.

(** The same term without its last character, quoted. *)
Definition twenty_nine : string := "12345678901234567890123456789".

Definition quoted_twenty_nine : string := (quote ++ twenty_nine ++ quote)%string.

(** How often [w] occurs among the tokens [ws]. *)
Definition occurrences (w : string) (ws : list string) : nat :=
  count_occ string_dec ws w.

(** The number that an entry of [wordCount] holds, when it is a number. *)
Definition counted (kv : string * KeyTerms.JsValue) : nat :=
  match snd kv with
  | KeyTerms.Num n => n
  | KeyTerms.Str _ => 0
  end.

Definition is_num (kv : string * KeyTerms.JsValue) : Prop :=
  exists n, snd kv = KeyTerms.Num n.

(** [o] holds exactly the counts of the tokens [ws]. *)
Definition tally (ws : list string) (o : KeyTerms.JsObject) : Prop :=
  NoDup (map fst o)
  /\ forall w, KeyTerms.own o w
               = match occurrences w ws with
                 | O => None
                 | S n => Some (KeyTerms.Num (S n))
                 end.

(* ===================================================================== *)
(** ** Filters used to state properties of the search *)
(* ===================================================================== *)

(** The same filters without pagination. *)
Definition unpaged (f : SearchFilters) : SearchFilters :=
  mkSearchFilters (query f) (agentType f) (projectContext f) (filter_tags f)
                  (dateFrom f) (dateTo f) None None.

(** A search by tags alone. *)
Definition tags_only (ts : list string) : SearchFilters :=
  mkSearchFilters None None None (Some ts) None None None None.

Definition tag_pattern (tag : string) : string :=
  ("%" ++ quote ++ tag ++ quote ++ "%")%string.

(** The conditions that [searchSessions] puts into WHERE: those of the
    text match and those of the other filters. *)
Definition base_where (filters : SearchFilters) (hasFTSTable : bool) : list Expr :=
  if Js.truthy (query filters) && hasFTSTable then []
  else if Js.truthy (query filters)
       then [Or [Like ColTitle ("%" ++ text_of (query filters) ++ "%")%string;
                 Like ColOriginalContent ("%" ++ text_of (query filters) ++ "%")%string;
                 Like ColTags ("%" ++ text_of (query filters) ++ "%")%string]]
       else [].

Definition extra_where (filters : SearchFilters) : list Expr :=
  (if Js.truthy (agentType filters)
   then [Eq ColAgentType (text_of (agentType filters))] else [])
  ++ (if Js.truthy (projectContext filters)
      then [Eq ColProjectContext (text_of (projectContext filters))] else [])
  ++ (if Js.truthy (dateFrom filters)
      then [Ge ColCreatedAt (text_of (dateFrom filters))] else [])
  ++ (if Js.truthy (dateTo filters)
      then [Le ColCreatedAt (text_of (dateTo filters))] else [])
  ++ match filter_tags filters with
     | Some (tag :: tags') => [Or (map (fun tag => Like ColTags (tag_pattern tag)) (tag :: tags'))]
     | _ => []
     end.

(** The bounds that a statement accepts for LIMIT and OFFSET. *)
Definition in_bounds (n : Z) : Prop := (- 2 ^ 63 < n < 2 ^ 63)%Z.

(* ===================================================================== *)
(** ** The server's own term extraction ([ChatContextServer.extractKeyTerms]) *)
(* ===================================================================== *)

Module Server.

(** The same steps as [extractKeyTermsFromContent], but five terms. *)
Definition extractKeyTerms (content : string) : list string :=
  let words := KeyTerms.words_of content in
  let wordCount := KeyTerms.count_words words in
  map fst (Js.slice0 5 (Js.sort_by KeyTerms.by_count_desc (KeyTerms.entries wordCount))).

End Server.

(* ===================================================================== *)
(** ** Validation ([validateSessionData], [validateId]) *)
(* ===================================================================== *)

Module Validation.

(** A value of a parsed JSON body; numbers are the integers. A property
    that is missing ([undefined]) is [None]. *)
Inductive Json : Type :=
| JNull
| JBool (b : bool)
| JNum (n : Z)
| JStr (s : string)
| JArr (items : list Json)
| JObj (members : list (string * Json)).

Definition truthy (v : option Json) : bool :=
  match v with
  | None | Some JNull => false
  | Some (JBool b) => b
  | Some (JNum n) => negb (n =? 0)%Z
  | Some (JStr s) => negb (s =? "")
  | Some (JArr _) | Some (JObj _) => true
  end.

(** [typeof v === 'string']. *)
Definition is_string (v : option Json) : bool :=
  match v with Some (JStr _) => true | _ => false end.

(** [Array.isArray(v)]. *)
Definition is_array (v : option Json) : bool :=
  match v with Some (JArr _) => true | _ => false end.

(** [v.length > bound] for a string or an array. *)
Definition length_gt (v : option Json) (bound : Z) : bool :=
  match v with
  | Some (JStr s) => (bound <? Z.of_nat (String.length s))%Z
  | Some (JArr items) => (bound <? Z.of_nat (List.length items))%Z
  | _ => false
  end.

(** [['claude', 'cursor', 'other'].includes(v)]. *)
Definition is_agent_type (v : option Json) : bool :=
  match v with
  | Some (JStr s) => Js.includes ["claude"; "cursor"; "other"] s
  | _ => false
  end.

(** [v.every(tag => typeof tag === 'string')] on an array. *)
Definition every_string (v : option Json) : bool :=
  match v with
  | Some (JArr items) => forallb (fun tag => is_string (Some tag)) items
  | _ => false
  end.

(** The six properties of the body that [validateSessionData] reads. *)
Record SessionBody : Type := mkSessionBody {
  agentId : option Json;
  agentType : option Json;
  chatContent : option Json;
  title : option Json;
  projectContext : option Json;
  tags : option Json
}.

(** The error message, or [None] for [null]. *)
Definition validateSessionData (data : SessionBody) (isUpdate : bool) : option string :=
  let required :=
    if negb isUpdate then
      if negb (truthy (agentId data)) || negb (is_string (agentId data)) then
        Some "agentId is required and must be a string"
      else if negb (truthy (agentType data)) || negb (is_agent_type (agentType data)) then
        Some "agentType must be one of: claude, cursor, other"
      else if negb (truthy (chatContent data)) || negb (is_string (chatContent data)) then
        Some "chatContent is required and must be a string"
      else if length_gt (chatContent data) (50 * 1024 * 1024) then
        Some "chatContent exceeds maximum size of 50MB"
      else None
    else None in
  match required with
  | Some message => Some message
  | None =>
      if truthy (title data) && (negb (is_string (title data)) || length_gt (title data) 500) then
        Some "title must be a string with maximum length of 500 characters"
      else if truthy (projectContext data)
              && (negb (is_string (projectContext data))
                  || length_gt (projectContext data) 1000) then
        Some "projectContext must be a string with maximum length of 1000 characters"
      else if truthy (tags data)
              && (negb (is_array (tags data)) || negb (every_string (tags data))) then
        Some "tags must be an array of strings"
      else if truthy (tags data) && length_gt (tags data) 50 then
        Some "maximum of 50 tags allowed"
      else None
  end.

Definition id_char (c : ascii) : bool :=
  Js.is_lower c || Js.is_upper c || Js.is_digit c
  || Ascii.eqb c "_"%char || Ascii.eqb c "-"%char.

(** [validateId] on a string: length 1 to 100 and only the characters
    a-z, A-Z, 0-9, underscore and hyphen. *)
Definition validateId (id : string) : bool :=
  Nat.ltb 0 (String.length id) && Nat.leb (String.length id) 100
  && (Nat.ltb 0 (String.length id) && forallb id_char (Js.chars id)).

End Validation.

(* ===================================================================== *)
(** ** Content processor: the metrics and the summary *)
(* ===================================================================== *)

Module Processor.

(** [s.split(re)] for a pattern [re] that matches the maximal runs of the
    characters in [sep]: the pieces between the runs, the empty pieces at
    both ends included. *)
Fixpoint split_runs (sep : ascii -> bool) (in_sep : bool) (cur : list ascii)
    (s : list ascii) : list string :=
  match s with
  | [] => [Js.str cur]
  | c :: s' =>
      if sep c then
        if in_sep then split_runs sep true cur s'
        else Js.str cur :: split_runs sep true [] s'
      else split_runs sep false (cur ++ [c]) s'
  end.

Fixpoint trim_start (s : list ascii) : list ascii :=
  match s with
  | [] => []
  | c :: s' => if Js.is_space c then trim_start s' else s
  end.

(** [String.prototype.trim]. *)
Definition trim (s : list ascii) : list ascii :=
  rev (trim_start (rev (trim_start s))).

(** [content.trim().split(/\s+/).length]. *)
Definition countWords (content : string) : nat :=
  List.length (split_runs Js.is_space false [] (trim (Js.chars content))).

Definition is_line_terminator (c : ascii) : bool :=
  Ascii.eqb c "010"%char || Ascii.eqb c "013"%char.

(** Where the scan for a speaker stands: at the start of a line, inside
    the word that began at the start of a line, or elsewhere. *)
Inductive Scan : Type :=
| LineStart
| InName (name : list ascii)
| Elsewhere.

(** The matches of the participant pattern (a line start, a word, a
    colon; flags g and m), each without its colon. *)
Fixpoint participants_from (st : Scan) (s : list ascii) : list string :=
  match s with
  | [] => []
  | c :: s' =>
      if is_line_terminator c then participants_from LineStart s'
      else
        match st with
        | LineStart =>
            if Js.is_word c then participants_from (InName [c]) s'
            else participants_from Elsewhere s'
        | InName name =>
            if Js.is_word c then participants_from (InName (name ++ [c])) s'
            else if Ascii.eqb c ":"%char
                 then Js.str name :: participants_from Elsewhere s'
                 else participants_from Elsewhere s'
        | Elsewhere => participants_from Elsewhere s'
        end
  end.

(** [extractParticipantCount]: one when nothing matches, else the size of
    the set of names. *)
Definition extractParticipantCount (content : string) : nat :=
  match participants_from LineStart (Js.chars content) with
  | [] => 1
  | matches => List.length (nodup string_dec matches)
  end.

Definition is_sentence_end (c : ascii) : bool :=
  Ascii.eqb c "."%char || Ascii.eqb c "!"%char || Ascii.eqb c "?"%char.

Fixpoint starts_with (needle hay : list ascii) : bool :=
  match needle, hay with
  | [], _ => true
  | _ :: _, [] => false
  | c :: needle', d :: hay' => Ascii.eqb c d && starts_with needle' hay'
  end.

Fixpoint contains_chars (needle hay : list ascii) : bool :=
  starts_with needle hay
  || match hay with
     | [] => false
     | _ :: hay' => contains_chars needle hay'
     end.

(** [String.prototype.includes]. *)
Definition includes (hay needle : string) : bool :=
  contains_chars (Js.chars needle) (Js.chars hay).

Definition cue_words : list string :=
  ["problem"; "solution"; "issue"; "error"; "implement"; "create"; "build"].

Definition generateSummary (content : string) (keyTopics decisions : list string) : string :=
  let sentences :=
    filter (fun s => Nat.ltb 20 (List.length (trim (Js.chars s))))
           (split_runs is_sentence_end false [] (Js.chars content)) in
  if Nat.eqb (List.length sentences) 0 then
    "Chat conversation with technical discussion."
  else
    let importantSentences :=
      filter (fun sentence =>
                let lowerSentence := Js.str (Js.toLowerCase (Js.chars sentence)) in
                existsb (fun topic => includes lowerSentence topic) keyTopics
                || existsb (fun cue => includes lowerSentence cue) cue_words)
             sentences in
    let summarySource :=
      if Nat.ltb 0 (List.length importantSentences) then importantSentences else sentences in
    let selectedSentences := Js.slice0 3 summarySource in
    let summary := Js.str (trim (Js.chars (Js.join ". " selectedSentences))) in
    let summary :=
      if Nat.ltb 0 (List.length keyTopics)
      then (summary ++ " Topics discussed: " ++ Js.join ", " (Js.slice0 5 keyTopics) ++ ".")%string
      else summary in
    if Nat.ltb 500 (String.length summary)
    then (String.substring 0 497 summary ++ "...")%string
    else summary.

End Processor.

(** A body of a new session as a client sends it. *)
Definition sample_body : Validation.SessionBody :=
  {| Validation.agentId := Some (Validation.JStr "test-agent-001");
     Validation.agentType := Some (Validation.JStr "cursor");
     Validation.chatContent := Some (Validation.JStr "We decided to use PostgreSQL.");
     Validation.title := None;
     Validation.projectContext := Some (Validation.JStr "test-project");
     Validation.tags := Some (Validation.JArr [Validation.JStr "db"]) |}.

(** The set of topics has no duplicates and only lower-case members. *)
Definition topic_set (topics : list string) : Prop :=
  NoDup topics /\ Forall (fun t => ChatContentProcessor.lower t = t) topics.


(** The constraints of the table: ids are unique (PRIMARY KEY) and every
    agent type is one of the three (CHECK). *)
Definition table_valid (d : Database) : Prop :=
  NoDup (map id (chat_sessions d))
  /\ Forall (fun r => agent_type_check (agent_type r) = true) (chat_sessions d).

(* ===================================================================== *)
(** * The planner used in examples *)
(* ===================================================================== *)

(** [scan_order] is a planner: it gives a permutation of the rows that is
    in the order of the statement. *)

(** ** The stable sort *)

Section SortProperties.
Variable A : Type.
Variable gtb : A -> A -> bool.

Lemma insert_by_perm (x : A) (l : list A) :
  Permutation (Js.insert_by gtb x l) (x :: l).
Proof.
  induction l as [|y l IH]; simpl; [apply Permutation_refl|].
  destruct (gtb y x); [apply Permutation_refl|].
  eapply Permutation_trans; [apply perm_skip, IH|apply perm_swap].
Qed.

Lemma sort_fold_perm (l acc : list A) :
  Permutation (fold_left (fun acc x => Js.insert_by gtb x acc) l acc) (acc ++ l).
Proof.
  revert acc. induction l as [|x l IH]; intros acc; simpl.
  - rewrite app_nil_r. apply Permutation_refl.
  - eapply Permutation_trans; [apply IH|].
    eapply Permutation_trans; [apply Permutation_app_tail, insert_by_perm|].
    simpl. apply Permutation_middle.
Qed.

Lemma sort_by_perm (l : list A) : Permutation (Js.sort_by gtb l) l.
Proof. apply (sort_fold_perm l []). Qed.

Lemma sort_by_In (l : list A) (x : A) : In x (Js.sort_by gtb l) <-> In x l.
Proof.
  split; apply Permutation_in; [apply sort_by_perm|apply Permutation_sym, sort_by_perm].
Qed.

Lemma sort_by_length (l : list A) : List.length (Js.sort_by gtb l) = List.length l.
Proof. apply Permutation_length, sort_by_perm. Qed.

Hypothesis gtb_asym : forall a b, gtb a b = true -> gtb b a = false.

Lemma insert_by_hd (x y : A) (l : list A) :
  Js.in_order gtb y x -> HdRel (Js.in_order gtb) y l ->
  HdRel (Js.in_order gtb) y (Js.insert_by gtb x l).
Proof.
  intros Hyx Hl. destruct l as [|z l]; simpl; [now constructor|].
  destruct (gtb z x); constructor; [exact Hyx|].
  now inversion Hl.
Qed.

Lemma insert_by_sorted (x : A) (l : list A) :
  Sorted (Js.in_order gtb) l -> Sorted (Js.in_order gtb) (Js.insert_by gtb x l).
Proof.
  induction l as [|y l IH]; simpl; intros Hs.
  - repeat constructor.
  - inversion Hs as [|? ? Hl Hhd]; subst.
    destruct (gtb y x) eqn:Hyx.
    + constructor; [exact Hs|]. constructor. now apply gtb_asym.
    + constructor; [now apply IH|]. now apply insert_by_hd.
Qed.

Lemma sort_by_sorted (l : list A) : Sorted (Js.in_order gtb) (Js.sort_by gtb l).
Proof.
  unfold Js.sort_by. assert (H : Sorted (Js.in_order gtb) []) by constructor.
  revert H. generalize (@nil A). induction l as [|x l IH]; intros acc Hacc; simpl.
  - exact Hacc.
  - apply IH. now apply insert_by_sorted.
Qed.

End SortProperties.

Lemma scan_order_perm (A : Type) (s : Select) (gtb : A -> A -> bool) (l : list A) :
  Permutation (scan_order s gtb l) l.
Proof.
  unfold scan_order. eapply Permutation_trans; [apply sort_by_perm|].
  destruct (existsb indexed_equality (where_ s)); [apply Permutation_refl|].
  apply Permutation_sym, Permutation_rev.
Qed.

Lemma scan_order_sorted (A : Type) (s : Select) (gtb : A -> A -> bool) (l : list A) :
  (forall a b, gtb a b = true -> gtb b a = false) ->
  Sorted (Js.in_order gtb) (scan_order s gtb l).
Proof. intros H. unfold scan_order. now apply sort_by_sorted. Qed.

#[local] Instance IndexScan : Planner := {
  order_by := fun A => scan_order (A := A);
  evaluates_long_like := scan_evaluates;
  order_by_perm := scan_order_perm;
  order_by_sorted := scan_order_sorted
}.

(* ===================================================================== *)
(** * Properties *)
(* ===================================================================== *)

(** ** Lists and rows *)

Lemma find_app_fresh (key : string) (l : list ChatSession) (r : ChatSession) :
  existsb (fun x => id x =? key) l = false ->
  id r = key ->
  find (fun x => id x =? key) (l ++ [r]) = Some r.
Proof.
  intros Hfresh Hid. induction l as [|x l IH]; simpl in *.
  - subst key. now rewrite String.eqb_refl.
  - apply orb_false_iff in Hfresh as [Hx Hl]. rewrite Hx. now apply IH.
Qed.

Lemma existsb_id_false (key : string) (l : list ChatSession) :
  (forall r, In r l -> id r <> key) ->
  existsb (fun x => id x =? key) l = false.
Proof.
  intros H. induction l as [|x l IH]; simpl; [reflexivity|].
  apply orb_false_iff. split.
  - apply String.eqb_neq. apply H. now left.
  - apply IH. intros r Hr. apply H. now right.
Qed.

Lemma existsb_id_In (key : string) (l : list ChatSession) :
  existsb (fun x => id x =? key) l = true <-> In key (map id l).
Proof.
  rewrite existsb_exists, in_map_iff. split.
  - intros [x [Hx He]]. exists x. split; [now apply String.eqb_eq|assumption].
  - intros [x [He Hx]]. exists x. split; [assumption|now apply String.eqb_eq].
Qed.

Lemma length_filter_le {A : Type} (f : A -> bool) (l : list A) :
  (List.length (filter f l) <= List.length l)%nat.
Proof.
  induction l as [|x l IH]; simpl; [lia|]. destruct (f x); simpl; lia.
Qed.


Lemma filter_map_swap {A B : Type} (h : A -> B) (f : B -> bool) (l : list A) :
  filter f (map h l) = map h (filter (fun x => f (h x)) l).
Proof.
  induction l as [|x l IH]; simpl; [reflexivity|].
  destruct (f (h x)); simpl; now rewrite IH.
Qed.

Lemma filter_ext_In {A : Type} (f g : A -> bool) (l : list A) :
  (forall x, In x l -> f x = g x) -> filter f l = filter g l.
Proof.
  induction l as [|x l IH]; intros H; simpl; [reflexivity|].
  rewrite (H x (or_introl eq_refl)), IH; [reflexivity|].
  intros y Hy. apply H. now right.
Qed.

Lemma filter_all {A : Type} (f : A -> bool) (l : list A) :
  (forall x, In x l -> f x = true) -> filter f l = l.
Proof.
  induction l as [|x l IH]; intros H; simpl; [reflexivity|].
  rewrite (H x (or_introl eq_refl)), IH; [reflexivity|].
  intros y Hy. apply H. now right.
Qed.

Lemma filter_none {A : Type} (f : A -> bool) (l : list A) :
  (forall x, In x l -> f x = false) -> filter f l = [].
Proof.
  induction l as [|x l IH]; intros H; simpl; [reflexivity|].
  rewrite (H x (or_introl eq_refl)). apply IH. intros y Hy. apply H. now right.
Qed.

Lemma changes_positive {A : Type} (f : A -> bool) (l : list A) :
  Nat.ltb 0 (List.length (filter f l)) = existsb f l.
Proof.
  induction l as [|x l IH]; simpl; [reflexivity|].
  destruct (f x); simpl; [reflexivity|exact IH].
Qed.

Lemma on_result_snd {A B : Type} (f : A -> B) (x : outcome A * Database) :
  snd (on_result f x) = snd x.
Proof. destruct x as [[a|e] d]; reflexivity. Qed.

Lemma with_db_snd {A : Type} (body : Database -> outcome A * Database) (d : Database) :
  snd (with_db body (opened d)) = opened (snd (body d)).
Proof. unfold with_db. simpl. destruct (body d). reflexivity. Qed.

Lemma with_db_opened {A : Type} (body : Database -> outcome A * Database) (d : Database) :
  with_db body (opened d) = (fst (body d), opened (snd (body d))).
Proof. unfold with_db. simpl. destruct (body d). reflexivity. Qed.

(** ** The three write statements on the table *)

(** What an INSERT that passes both constraints leaves. *)
Lemma sql_insert_rows (row : ChatSession) (d : Database) :
  agent_type_check (agent_type row) = true ->
  existsb (fun r => id r =? id row) (chat_sessions d) = false ->
  sql_insert row d
  = (Returned 1%nat,
     {| by_rowid := by_rowid d ++ [(next_rowid (by_rowid d), row)];
        chat_sessions_fts := option_map (chat_sessions_ai row) (chat_sessions_fts d) |})
  /\ chat_sessions (snd (sql_insert row d)) = chat_sessions d ++ [row].
Proof.
  intros Hc He. unfold sql_insert. rewrite Hc, He. simpl. split; [reflexivity|].
  unfold chat_sessions. simpl. now rewrite map_app.
Qed.

Lemma delete_each_rows (cond : ChatSession -> bool) (kept todo : list (Z * ChatSession))
    (fts : option (list FtsWrite)) :
  fst (delete_each cond kept todo fts)
  = kept ++ filter (fun x => negb (cond (snd x))) todo.
Proof.
  revert kept fts. induction todo as [|x todo IH]; intros kept fts; simpl.
  - now rewrite app_nil_r.
  - destruct (cond (snd x)); simpl.
    + apply IH.
    + rewrite IH. now rewrite <- app_assoc.
Qed.

(** The table after a DELETE. *)
Lemma sql_delete_rows (cond : ChatSession -> bool) (d : Database) :
  chat_sessions (snd (sql_delete cond d))
  = filter (fun r => negb (cond r)) (chat_sessions d).
Proof.
  unfold sql_delete, chat_sessions. simpl. rewrite delete_each_rows. simpl.
  now rewrite filter_map_swap.
Qed.

Lemma sql_delete_changes (cond : ChatSession -> bool) (d : Database) :
  fst (sql_delete cond d) = Returned (List.length (filter cond (chat_sessions d))).
Proof. reflexivity. Qed.

Lemma sql_delete_eq (cond : ChatSession -> bool) (d : Database) :
  sql_delete cond d
  = (Returned (List.length (filter cond (chat_sessions d))), snd (sql_delete cond d)).
Proof. reflexivity. Qed.

(** A DELETE on a table whose ids are distinct runs its trigger on a
    table that no longer has a row with the old id. *)
Lemma delete_each_index (cond : ChatSession -> bool) (kept todo : list (Z * ChatSession))
    (fts : option (list FtsWrite)) :
  NoDup (map (fun x => id (snd x)) (kept ++ todo)) ->
  snd (delete_each cond kept todo fts) = fts.
Proof.
  revert kept fts. induction todo as [|x todo IH]; intros kept fts Hnd; simpl;
    [reflexivity|].
  destruct (cond (snd x)).
  - rewrite IH.
    + destruct fts as [f|]; [|reflexivity]. simpl. f_equal.
      unfold chat_sessions_ad, fts_rows_with_id.
      rewrite filter_none; [simpl; apply app_nil_r|].
      intros y Hy. apply String.eqb_neq. intros Heq.
      rewrite map_app in Hnd. simpl in Hnd.
      apply NoDup_remove_2 in Hnd. apply Hnd.
      rewrite <- map_app. rewrite <- Heq.
      apply (in_map (fun x => id (snd x))). exact Hy.
    + rewrite map_app in Hnd. simpl in Hnd. apply NoDup_remove_1 in Hnd.
      now rewrite map_app.
  - apply IH. now rewrite <- app_assoc.
Qed.

Lemma map_id_rows (d : Database) :
  map (fun x => id (snd x)) (by_rowid d) = map id (chat_sessions d).
Proof. unfold chat_sessions. now rewrite map_map. Qed.

(** On a table whose ids are distinct, as the primary key makes them, a
    DELETE leaves the text-search table as it was. *)
Lemma sql_delete_index (cond : ChatSession -> bool) (d : Database) :
  NoDup (map id (chat_sessions d)) ->
  chat_sessions_fts (snd (sql_delete cond d)) = chat_sessions_fts d.
Proof.
  intros Hnd. unfold sql_delete. simpl. apply delete_each_index. simpl.
  now rewrite map_id_rows.
Qed.

Section UpdateStatement.
Context {F : Fts5}.

Lemma map_snd_update (key : string) (g : ChatSession -> ChatSession)
    (l : list (Z * ChatSession)) :
  map snd (map (fun x => if id (snd x) =? key then (fst x, g (snd x)) else x) l)
  = map (fun r => if id r =? key then g r else r) (map snd l).
Proof.
  rewrite !map_map. apply map_ext. intros x. now destruct (id (snd x) =? key).
Qed.

Lemma length_filter_snd (f : ChatSession -> bool) (l : list (Z * ChatSession)) :
  List.length (filter (fun x => f (snd x)) l) = List.length (filter f (map snd l)).
Proof. rewrite filter_map_swap. now rewrite length_map. Qed.

(** An UPDATE either returns the number of rows with the id, which it has
    rewritten, or fails in the trigger, which needs the text-search table
    and a row to update, and then changes nothing. *)
Lemma sql_update_cases (fields : list Assignment) (key : string) (d : Database) :
  let rows := map (fun r => if id r =? key then assign_all fields r else r)
                  (chat_sessions d) in
  (exists d' : Database,
     sql_update fields key d
     = (Returned (List.length (filter (fun r => id r =? key) rows)), d')
     /\ chat_sessions d' = rows
     /\ (chat_sessions_fts d = None -> chat_sessions_fts d' = None))
  \/ (sql_update fields key d = (Thrown CorruptVtab, d)
      /\ chat_sessions_fts d <> None
      /\ filter (fun r => id r =? key) rows <> []).
Proof.
  intros rows. unfold sql_update.
  set (table := map _ (by_rowid d)).
  assert (Htable : map snd table = rows).
  { subst table rows. unfold chat_sessions. apply map_snd_update. }
  assert (Hlen : List.length (filter (fun x => id (snd x) =? key) table)
                 = List.length (filter (fun r => id r =? key) rows)).
  { rewrite <- Htable. apply (length_filter_snd (fun r => id r =? key)). }
  destruct (chat_sessions_fts d) as [fts|] eqn:Hfts.
  - destruct (fire_au _ table fts) as [fts'|] eqn:Hfire.
    + left. eexists. split; [rewrite Hlen; reflexivity|]. split; [exact Htable|].
      discriminate.
    + right. split; [reflexivity|]. split; [discriminate|].
      intros Hnil. rewrite <- Htable in Hnil.
      assert (Hno : filter (fun x => id (snd x) =? key) table = []).
      { apply length_zero_iff_nil. rewrite Hlen. rewrite <- Htable.
        rewrite Hnil. reflexivity. }
      rewrite Hno in Hfire. discriminate.
  - left. eexists. split; [rewrite Hlen; reflexivity|]. split; [exact Htable|].
    reflexivity.
Qed.

End UpdateStatement.

(** ** Round trip: [createSession] then [getSession] *)

Lemma getSession_opened (k : string) (d : Database) :
  getSession k (opened d)
  = (Returned (find (fun r => id r =? k) (chat_sessions d)), opened d).
Proof. unfold getSession. now rewrite with_db_opened. Qed.

Section StoreProperties.
Context {D : JsDate}.

(** The row that [createSession] inserts. *)
Lemma createSession_eq
    (s : SessionInput) (date_now random36 : string) (now : Date) (d : Database) :
  agent_type_check (in_agent_type s) = true ->
  (forall r, In r (chat_sessions d) -> id r <> generateId date_now random36) ->
  let row := {| id := generateId date_now random36; title := in_title s;
                agent_id := in_agent_id s; agent_type := in_agent_type s;
                project_context := in_project_context s;
                original_content := in_original_content s;
                tags := in_tags s; created_at := toISOString now;
                updated_at := toISOString now |} in
  createSession s date_now random36 now (opened d)
  = (Returned (generateId date_now random36),
     opened {| by_rowid := by_rowid d ++ [(next_rowid (by_rowid d), row)];
               chat_sessions_fts := option_map (chat_sessions_ai row) (chat_sessions_fts d) |}).
Proof.
  intros Hcheck Hfresh row.
  pose proof (existsb_id_false _ _ Hfresh) as Hex.
  unfold createSession. rewrite with_db_opened. cbv zeta. fold row.
  destruct (sql_insert_rows row d Hcheck Hex) as [Heq _].
  rewrite Heq. reflexivity.
Qed.

(** C2. For session fields whose agent_type is one of claude, cursor and
    other, and a generated id that no stored session has, [createSession]
    returns the id, and [getSession] on that id then returns a session
    whose title, agent_id, agent_type, project_context, original_content
    and tags are those of the input; its id is the generated one and both
    timestamps are the time of the call. *)
Theorem create_then_get
    (s : SessionInput) (date_now random36 : string) (now : Date) (d : Database) :
  agent_type_check (in_agent_type s) = true ->
  (forall r, In r (chat_sessions d) -> id r <> generateId date_now random36) ->
  exists (d' : Database) (r : ChatSession),
    createSession s date_now random36 now (opened d)
      = (Returned (generateId date_now random36), opened d')
    /\ getSession (generateId date_now random36) (opened d')
      = (Returned (Some r), opened d')
    /\ title r = in_title s
    /\ agent_id r = in_agent_id s
    /\ agent_type r = in_agent_type s
    /\ project_context r = in_project_context s
    /\ original_content r = in_original_content s
    /\ tags r = in_tags s
    /\ id r = generateId date_now random36
    /\ created_at r = toISOString now
    /\ updated_at r = toISOString now.
Proof.
  intros Hcheck Hfresh.
  pose proof (existsb_id_false _ _ Hfresh) as Hex.
  rewrite (createSession_eq s date_now random36 now d Hcheck Hfresh).
  eexists. eexists. split; [reflexivity|]. rewrite getSession_opened.
  unfold chat_sessions at 1. simpl by_rowid. rewrite map_app. simpl map. split.
  - fold (chat_sessions d). rewrite find_app_fresh; [reflexivity|exact Hex|reflexivity].
  - simpl. repeat split; reflexivity.
Qed.

End StoreProperties.

Lemma create_then_get_witness :
  agent_type_check (in_agent_type sample_input) = true
  /\ (forall r, In r (chat_sessions fresh_indexed) -> id r <> generateId "1700000000000" "k3j9x0q2a")
  /\ exists (d' : Database) (r : ChatSession),
    createSession (D := January2024) sample_input "1700000000000" "k3j9x0q2a" 5%Z (opened fresh_indexed)
      = (Returned (generateId "1700000000000" "k3j9x0q2a"), opened d')
    /\ getSession (generateId "1700000000000" "k3j9x0q2a") (opened d')
      = (Returned (Some r), opened d')
    /\ title r = in_title sample_input
    /\ agent_id r = in_agent_id sample_input
    /\ agent_type r = in_agent_type sample_input
    /\ project_context r = in_project_context sample_input
    /\ original_content r = in_original_content sample_input
    /\ tags r = in_tags sample_input
    /\ id r = generateId "1700000000000" "k3j9x0q2a"
    /\ created_at r = toISOString (JsDate := January2024) 5%Z
    /\ updated_at r = toISOString (JsDate := January2024) 5%Z.
Proof.
  split; [reflexivity|]. split; [intros r []|].
  apply (create_then_get (D := January2024) sample_input "1700000000000" "k3j9x0q2a" 5%Z fresh_indexed).
  - reflexivity.
  - intros r [].
Defined.

(** ** [updateSession] *)

Lemma assign_all_id (fields : list Assignment) (r : ChatSession) :
  id (assign_all fields r) = id r.
Proof.
  unfold assign_all. revert r.
  induction fields as [|a fields IH]; intros r; simpl; [reflexivity|].
  rewrite IH. now destruct a.
Qed.

Lemma filter_updated (key : string) (g : ChatSession -> ChatSession) (l : list ChatSession) :
  (forall r, id (g r) = id r) ->
  filter (fun r => id r =? key) (map (fun r => if id r =? key then g r else r) l)
  = map g (filter (fun r => id r =? key) l).
Proof.
  intros Hg. induction l as [|x l IH]; simpl; [reflexivity|].
  destruct (id x =? key) eqn:Hx.
  - rewrite Hg, Hx. simpl. now rewrite IH.
  - rewrite Hx. exact IH.
Qed.

Lemma changes_of_update (key : string) (g : ChatSession -> ChatSession) (l : list ChatSession) :
  (forall r, id (g r) = id r) ->
  Nat.ltb 0 (List.length (filter (fun r => id r =? key)
                            (map (fun r => if id r =? key then g r else r) l)))
  = existsb (has_id key) l.
Proof.
  intros Hg. rewrite (filter_updated key g l Hg), length_map.
  apply (changes_positive (fun r => id r =? key)).
Qed.

Section UpdateProperties.
Context {D : JsDate} {F : Fts5}.

(** What [updateSession] does, in its three cases: nothing to set, the
    statement run, the statement failed in the trigger. *)
Lemma updateSession_cases (key : string) (u : PartialSession) (now : Date) (d : Database) :
  let rows := map (fun r => if id r =? key then updated_row u (toISOString now) r else r)
                  (chat_sessions d) in
  (has_update u = false
   /\ updateSession key u now (opened d) = (Returned false, opened d))
  \/ (has_update u = true
      /\ exists d' : Database,
           updateSession key u now (opened d)
           = (Returned (existsb (has_id key) (chat_sessions d)), opened d')
           /\ chat_sessions d' = rows
           /\ (chat_sessions_fts d = None -> chat_sessions_fts d' = None))
  \/ (has_update u = true
      /\ updateSession key u now (opened d) = (Thrown CorruptVtab, opened d)
      /\ chat_sessions_fts d <> None
      /\ existsb (has_id key) (chat_sessions d) = true).
Proof.
  intros rows. unfold updateSession. rewrite with_db_opened. unfold has_update.
  set (ft := if Js.truthy (p_title u) then _ else _).
  set (fc := if Js.truthy (p_original_content u) then _ else _).
  set (fg := if Js.truthy (p_tags u) then _ else _).
  assert (Hrow : forall r,
             assign_all ((ft ++ fc ++ fg) ++ [SetUpdatedAt (toISOString now)]) r
             = updated_row u (toISOString now) r).
  { intros r. subst ft fc fg. unfold updated_row, updated_value, text_of.
    destruct (Js.truthy (p_title u)), (Js.truthy (p_original_content u)),
      (Js.truthy (p_tags u)); destruct r; reflexivity. }
  assert (Hlen : (List.length (ft ++ fc ++ fg) =? 0)%nat
                 = negb (Js.truthy (p_title u) || Js.truthy (p_original_content u)
                         || Js.truthy (p_tags u))).
  { subst ft fc fg.
    destruct (Js.truthy (p_title u)), (Js.truthy (p_original_content u)),
      (Js.truthy (p_tags u)); reflexivity. }
  cbv zeta. rewrite Hlen.
  destruct (Js.truthy (p_title u) || Js.truthy (p_original_content u)
            || Js.truthy (p_tags u)); simpl negb; cbv iota.
  2: { left. split; reflexivity. }
  right.
  set (fields := (ft ++ fc ++ fg) ++ [SetUpdatedAt (toISOString now)]) in *.
  assert (Hmap : map (fun r => if id r =? key then assign_all fields r else r)
                     (chat_sessions d) = rows).
  { subst rows. apply map_ext. intros r. now rewrite Hrow. }
  destruct (sql_update_cases fields key d) as [[d' [Heq [Hrows Hnone]]]|[Heq [Hfts Hne]]].
  - left. split; [reflexivity|]. exists d'. rewrite Heq. unfold on_result. simpl fst. simpl snd.
    rewrite (changes_of_update key _ (chat_sessions d) (fun r => assign_all_id _ r)).
    split; [reflexivity|]. split; [now rewrite Hrows|exact Hnone].
  - right. split; [reflexivity|]. rewrite Heq. split; [reflexivity|].
    split; [exact Hfts|].
    rewrite <- (changes_of_update key (assign_all fields) (chat_sessions d)
                  (fun r => assign_all_id _ r)).
    destruct (filter _ _); [contradiction|reflexivity].
Qed.

(** C4 (amended). A call of [updateSession] on an initialised store either
    returns or fails in the trigger of the text-search table. When it
    returns and the partial carries a non-empty title, original_content
    or tags value, every session with the given id has each of these
    three fields replaced by the value carried for it (tags as a whole)
    and kept otherwise, has updated_at set to the time of the call, and
    the result tells whether such a session exists; all other sessions
    are unchanged. When the partial carries none of them, the call
    returns false and the store is unchanged. The call can fail only on a
    store with the text-search table, with a partial that carries a value
    and an id that is stored, and then the store is unchanged. *)
Theorem update_changes_carried_fields
    (key : string) (u : PartialSession) (now : Date) (d : Database) :
  (exists d' : Database,
     updateSession key u now (opened d)
       = (Returned (has_update u && existsb (has_id key) (chat_sessions d)), opened d')
     /\ chat_sessions d'
        = (if has_update u
           then map (fun r => if id r =? key
                              then updated_row u (toISOString now) r else r)
                    (chat_sessions d)
           else chat_sessions d)
     /\ (if has_update u then True else d' = d))
  \/ (updateSession key u now (opened d) = (Thrown CorruptVtab, opened d)
      /\ chat_sessions_fts d <> None
      /\ has_update u = true
      /\ existsb (has_id key) (chat_sessions d) = true).
Proof.
  destruct (updateSession_cases key u now d)
    as [[Hu Heq]|[[Hu [d' [Heq [Hrows _]]]]|[Hu [Heq [Hfts Hex]]]]].
  - left. exists d. rewrite Hu. simpl. repeat split. exact Heq.
  - left. exists d'. rewrite Hu. simpl. split; [exact Heq|]. split; [exact Hrows|exact I].
  - right. now repeat split.
Qed.

Lemma updated_row_frame (u : PartialSession) (stamp : string) (r : ChatSession) :
  id (updated_row u stamp r) = id r
  /\ agent_id (updated_row u stamp r) = agent_id r
  /\ agent_type (updated_row u stamp r) = agent_type r
  /\ project_context (updated_row u stamp r) = project_context r
  /\ created_at (updated_row u stamp r) = created_at r.
Proof. repeat split. Qed.

(** C10. Whether a call of [updateSession] on an initialised store returns
    or throws, it pairs each session before the call with one after it
    that has the same id, agent_id, agent_type, project_context and
    created_at, that keeps its title, original_content or tags whenever
    the value given for that field is absent or empty, and that is the
    same session when its id is not the one given. When all three values
    are absent or empty the call returns false and the store, updated_at
    included, is unchanged, even though a session with that id exists. *)
Theorem update_frame (key : string) (u : PartialSession) (now : Date) (d : Database) :
  exists (res : outcome bool) (d' : Database),
    updateSession key u now (opened d) = (res, opened d')
    /\ Forall2 (fun r r' =>
                  id r' = id r
                  /\ agent_id r' = agent_id r
                  /\ agent_type r' = agent_type r
                  /\ project_context r' = project_context r
                  /\ created_at r' = created_at r
                  /\ (Js.truthy (p_title u) = false -> title r' = title r)
                  /\ (Js.truthy (p_original_content u) = false ->
                      original_content r' = original_content r)
                  /\ (Js.truthy (p_tags u) = false -> tags r' = tags r)
                  /\ (id r <> key -> r' = r))
               (chat_sessions d) (chat_sessions d')
    /\ (Js.truthy (p_title u) = false ->
        Js.truthy (p_original_content u) = false ->
        Js.truthy (p_tags u) = false ->
        res = Returned false /\ d' = d).
Proof.
  assert (Hsame : forall l : list ChatSession,
             Forall2 (fun r r' =>
                  id r' = id r
                  /\ agent_id r' = agent_id r
                  /\ agent_type r' = agent_type r
                  /\ project_context r' = project_context r
                  /\ created_at r' = created_at r
                  /\ (Js.truthy (p_title u) = false -> title r' = title r)
                  /\ (Js.truthy (p_original_content u) = false ->
                      original_content r' = original_content r)
                  /\ (Js.truthy (p_tags u) = false -> tags r' = tags r)
                  /\ (id r <> key -> r' = r)) l l).
  { intros l. induction l as [|r l IH]; constructor; [|exact IH].
    repeat split; reflexivity. }
  assert (Hfalsy : has_update u = true ->
                   Js.truthy (p_title u) = false ->
                   Js.truthy (p_original_content u) = false ->
                   Js.truthy (p_tags u) = false -> False).
  { unfold has_update. intros Hu Ht Hc Hg. rewrite Ht, Hc, Hg in Hu. discriminate. }
  destruct (updateSession_cases key u now d)
    as [[Hu Heq]|[[Hu [d' [Heq [Hrows _]]]]|[Hu [Heq [Hfts Hex]]]]].
  - exists (Returned false), d. split; [exact Heq|]. split; [apply Hsame|].
    intros _ _ _. split; reflexivity.
  - eexists. exists d'. split; [exact Heq|]. split.
    + rewrite Hrows. clear Heq Hrows.
      induction (chat_sessions d) as [|r l IH]; simpl; constructor; [|exact IH].
      destruct (id r =? key) eqn:Hk.
      * unfold updated_row, updated_value; simpl.
        repeat split; try (intros H; rewrite H; reflexivity).
        intros Hne. apply String.eqb_eq in Hk. contradiction.
      * repeat split; reflexivity.
    + intros Ht Hc Hg. destruct (Hfalsy Hu Ht Hc Hg).
  - eexists. exists d. split; [exact Heq|]. split; [apply Hsame|].
    intros Ht Hc Hg. destruct (Hfalsy Hu Ht Hc Hg).
Qed.

End UpdateProperties.

(** C4, as first stated, fails: a session with id s1 exists, the partial
    is empty, and [updateSession] returns false and leaves updated_at as it
    was. *)
Lemma update_returns_false_on_existing_id :
  (exists r, In r (chat_sessions (one_session true)) /\ id r = "s1")
  /\ updateSession (D := January2024) (F := WordEngine) "s1" no_updates 9%Z
       (opened (one_session true))
     = (Returned false, opened (one_session true))
  /\ toISOString (JsDate := January2024) 9%Z
     <> updated_at (sample_row "s1" 5).
Proof.
  split; [exists (sample_row "s1" 5); split; [now left|reflexivity]|].
  split; [reflexivity|discriminate].
Qed.

(** ** Deletion *)

Lemma find_after_delete (cond : ChatSession -> bool) (k : string) (b : bool)
    (l : list ChatSession) :
  (forall r, In r l -> id r = k -> cond r = b) ->
  find (fun r => id r =? k) (filter (fun r => negb (cond r)) l)
  = if b then None else find (fun r => id r =? k) l.
Proof.
  induction l as [|x l IH]; intros H; simpl; [now destruct b|].
  assert (Hl : forall r, In r l -> id r = k -> cond r = b)
    by (intros r Hr; apply H; now right).
  destruct (id x =? k) eqn:Hx.
  - apply String.eqb_eq in Hx. rewrite (H x (or_introl eq_refl) Hx).
    destruct b; simpl.
    + now apply IH.
    + apply String.eqb_eq in Hx. now rewrite Hx.
  - destruct (cond x); simpl; [|rewrite Hx]; now apply IH.
Qed.

Lemma getSession_after_delete (cond : ChatSession -> bool) (k : string) (b : bool)
    (d : Database) :
  (forall r, In r (chat_sessions d) -> id r = k -> cond r = b) ->
  fst (getSession k (opened (snd (sql_delete cond d))))
  = if b then Returned None else fst (getSession k (opened d)).
Proof.
  intros H. rewrite !getSession_opened. cbn [fst]. rewrite sql_delete_rows.
  rewrite (find_after_delete cond k b _ H). now destruct b.
Qed.

Lemma deleteSession_eq (key : string) (d : Database) :
  deleteSession key (opened d)
  = (Returned (existsb (has_id key) (chat_sessions d)),
     opened (snd (sql_delete (fun r => id r =? key) d))).
Proof.
  unfold deleteSession. rewrite with_db_opened. rewrite sql_delete_eq.
  unfold on_result. simpl fst. simpl snd.
  now rewrite (changes_positive (fun r => id r =? key)).
Qed.

(** X1. [deleteSession] tells whether a session with the id was stored;
    afterwards the id is not found and every other id is found as before. *)
Theorem deleteSession_removes (key : string) (d : Database) :
  exists d' : Database,
    deleteSession key (opened d)
      = (Returned (existsb (has_id key) (chat_sessions d)), opened d')
    /\ getSession key (opened d') = (Returned None, opened d')
    /\ forall k, k <> key ->
         fst (getSession k (opened d')) = fst (getSession k (opened d)).
Proof.
  rewrite deleteSession_eq. eexists. split; [reflexivity|]. split.
  - rewrite getSession_opened. f_equal. f_equal. rewrite sql_delete_rows.
    rewrite (find_after_delete (fun r => id r =? key) key true); [reflexivity|].
    intros r _ Hr. now apply String.eqb_eq.
  - intros k Hk.
    rewrite (getSession_after_delete (fun r => id r =? key) k false); [reflexivity|].
    intros r _ Hr. apply String.eqb_neq. congruence.
Qed.

(** C1. The index does not follow the table. On a store with the
    text-search table whose ids are distinct, [deleteSession] removes the
    session from [chat_sessions] and leaves [chat_sessions_fts] exactly as
    it was: the statement of the trigger selects among the rows of
    [chat_sessions], where the deleted row no longer is, so the engine is
    never told to remove the entry that the insert made. *)
Theorem deleted_session_stays_indexed (key : string) (d : Database) :
  NoDup (map id (chat_sessions d)) ->
  exists d' : Database,
    deleteSession key (opened d)
      = (Returned (existsb (has_id key) (chat_sessions d)), opened d')
    /\ (forall r, In r (chat_sessions d') <-> In r (chat_sessions d) /\ id r <> key)
    /\ chat_sessions_fts d' = chat_sessions_fts d.
Proof.
  intros Hnd. rewrite deleteSession_eq. eexists. split; [reflexivity|]. split.
  - intros r. rewrite sql_delete_rows, filter_In, negb_true_iff, String.eqb_neq.
    reflexivity.
  - now apply sql_delete_index.
Qed.

Section AgeProperties.
Context {D : JsDate}.

(** The sessions that the WHERE clause of [deleteOldSessions] selects,
    under the two conditions on the clock. *)
Lemma older_than_cutoff (daysOld : Z) (now : Date) (born : ChatSession -> Date)
    (l : list ChatSession) :
  let cutoff := setDate now (getDate now - daysOld) in
  getTime cutoff = (getTime now - daysOld * msPerDay)%Z ->
  (forall r, In r l ->
     created_at r = toISOString (born r)
     /\ Sqlite.text_lt (toISOString (born r)) (toISOString cutoff)
        = (getTime (born r) <? getTime cutoff)%Z) ->
  forall r, In r l ->
    Sqlite.text_lt (created_at r) (toISOString cutoff)
    = (getTime (born r) <? getTime now - daysOld * msPerDay)%Z.
Proof.
  intros cutoff Hcut Hborn r Hr. destruct (Hborn r Hr) as [Hc Hlt].
  now rewrite Hc, Hlt, Hcut.
Qed.


End AgeProperties.


(** ** Bulk deletion *)

Lemma includes_In (l : list string) (x : string) :
  Js.includes l x = true <-> In x l.
Proof.
  unfold Js.includes. rewrite existsb_exists. split.
  - intros [y [Hy He]]. apply String.eqb_eq in He. now subst.
  - intros H. exists x. split; [exact H|apply String.eqb_refl].
Qed.

(** X5. For a list of at most 999 ids, as many as every build of SQLite
    takes as parameters of one statement, [deleteSessions] returns how
    many stored sessions have an id in the list and removes exactly
    these: afterwards no id of the list is found and every other id is
    found as before; the text-search table of a store whose ids are
    distinct is left as it was, entries of the removed sessions included.
    With the empty list nothing changes. *)
Theorem deleteSessions_removes (ids : list string) (d : Database) :
  (List.length ids <= 999)%nat ->
  exists d' : Database,
    deleteSessions ids (opened d)
      = (Returned (List.length (filter (fun r => Js.includes ids (id r)) (chat_sessions d))),
         opened d')
    /\ chat_sessions d'
       = filter (fun r => negb (Js.includes ids (id r))) (chat_sessions d)
    /\ (forall k, In k ids -> fst (getSession k (opened d')) = Returned None)
    /\ (forall k, ~ In k ids ->
          fst (getSession k (opened d')) = fst (getSession k (opened d)))
    /\ (NoDup (map id (chat_sessions d)) -> chat_sessions_fts d' = chat_sessions_fts d)
    /\ (ids = [] -> d' = d).
Proof.
  intros _. unfold deleteSessions. rewrite with_db_opened.
  destruct ids as [|i ids].
  - simpl. exists d. split; [|split; [|split; [|split; [|split]]]].
    + f_equal. f_equal. rewrite filter_none; [reflexivity|]. reflexivity.
    + symmetry. apply filter_all. reflexivity.
    + intros k [].
    + reflexivity.
    + reflexivity.
    + reflexivity.
  - change (List.length (i :: ids) =? 0)%nat with false. cbv iota.
    exists (snd (sql_delete (fun r => Js.includes (i :: ids) (id r)) d)).
    split; [reflexivity|]. split; [apply sql_delete_rows|]. split; [|split; [|split]].
    + intros k Hk.
      rewrite (getSession_after_delete _ k true); [reflexivity|].
      intros r _ Hr. apply includes_In. now rewrite Hr.
    + intros k Hk.
      rewrite (getSession_after_delete _ k false); [reflexivity|].
      intros r _ Hr. apply not_true_is_false. intros Hin.
      apply includes_In in Hin. apply Hk. now rewrite <- Hr.
    + apply sql_delete_index.
    + discriminate.
Qed.

Lemma deleteSessions_removes_witness :
  (List.length ["s2"; "s9"] <= 999)%nat
  /\ exists d' : Database,
       deleteSessions ["s2"; "s9"] (opened two_sessions)
         = (Returned (List.length (filter (fun r => Js.includes ["s2"; "s9"] (id r))
                                          (chat_sessions two_sessions))),
            opened d')
       /\ chat_sessions d'
          = filter (fun r => negb (Js.includes ["s2"; "s9"] (id r)))
                   (chat_sessions two_sessions)
       /\ (forall k, In k ["s2"; "s9"] -> fst (getSession k (opened d')) = Returned None)
       /\ (forall k, ~ In k ["s2"; "s9"] ->
             fst (getSession k (opened d')) = fst (getSession k (opened two_sessions)))
       /\ (NoDup (map id (chat_sessions two_sessions)) ->
           chat_sessions_fts d' = chat_sessions_fts two_sessions)
       /\ (["s2"; "s9"] = [] -> d' = two_sessions).
Proof.
  assert (H : (List.length ["s2"; "s9"] <= 999)%nat) by (simpl; lia).
  split; [exact H|].
  apply (deleteSessions_removes ["s2"; "s9"] two_sessions H).
Defined.

(** X6. [deleteAllSessions] returns the number of stored sessions and
    leaves an empty table; the text-search table of a store whose ids are
    distinct is left as it was, with the entries of all the sessions. *)
Theorem deleteAllSessions_empties (d : Database) :
  exists d' : Database,
    deleteAllSessions (opened d) = (Returned (List.length (chat_sessions d)), opened d')
    /\ chat_sessions d' = []
    /\ (NoDup (map id (chat_sessions d)) -> chat_sessions_fts d' = chat_sessions_fts d).
Proof.
  unfold deleteAllSessions. rewrite with_db_opened.
  exists (snd (sql_delete (fun _ => true) d)).
  split; [|split].
  - rewrite sql_delete_changes. do 3 f_equal. apply filter_all. reflexivity.
  - rewrite sql_delete_rows. apply filter_none. reflexivity.
  - apply sql_delete_index.
Qed.

(** X7. [deleteSessionsByProject] removes exactly the sessions whose
    project_context is the given one, returns their number, and never
    removes a session that has no project_context; [deleteSessionsByAgent]
    removes exactly the sessions of the agent id. *)
Theorem delete_by_project_or_agent (key : string) (d : Database) :
  (exists d' : Database,
     deleteSessionsByProject key (opened d)
       = (Returned (List.length (filter (fun r => match project_context r with
                                                  | Some p => p =? key
                                                  | None => false
                                                  end) (chat_sessions d))),
          opened d')
     /\ (forall r, In r (chat_sessions d') <->
                   In r (chat_sessions d) /\ project_context r <> Some key)
     /\ (forall r, In r (chat_sessions d) -> project_context r = None ->
                   In r (chat_sessions d')))
  /\ (exists d' : Database,
        deleteSessionsByAgent key (opened d)
          = (Returned (List.length (filter (fun r => agent_id r =? key) (chat_sessions d))),
             opened d')
        /\ (forall r, In r (chat_sessions d') <->
                      In r (chat_sessions d) /\ agent_id r <> key)).
Proof.
  split.
  - unfold deleteSessionsByProject. rewrite with_db_opened.
    exists (snd (sql_delete (project_is key) d)).
    split; [reflexivity|]. rewrite sql_delete_rows.
    assert (Hkeep : forall r, negb (project_is key r) = true <-> project_context r <> Some key).
    { intros r. unfold project_is. destruct (project_context r) as [p|].
      - rewrite negb_true_iff, String.eqb_neq. split; congruence.
      - split; [discriminate|reflexivity]. }
    split.
    + intros r. rewrite filter_In, Hkeep. reflexivity.
    + intros r Hr Hnone. apply filter_In. split; [exact Hr|].
      apply Hkeep. congruence.
  - unfold deleteSessionsByAgent. rewrite with_db_opened.
    exists (snd (sql_delete (fun r => agent_id r =? key) d)).
    split; [reflexivity|]. rewrite sql_delete_rows.
    intros r. rewrite filter_In, negb_true_iff, String.eqb_neq. reflexivity.
Qed.

Section FilteredDelete.
Context {D : JsDate}.

(** X8. Under the conditions on the clock of C6, [deleteSessionsByFilters]
    removes exactly the sessions created more than [olderThanDays] days
    before [now] that have the given agent type and project context,
    where a filter that is absent or empty does not restrict, and returns
    their number; with both filters absent or empty the call is
    [deleteOldSessions]. *)
Theorem deleteSessionsByFilters_exact
    (olderThanDays : Z) (agentType projectContext : option string) (now : Date)
    (d : Database) (born : ChatSession -> Date) :
  let cutoff := setDate now (getDate now - olderThanDays) in
  let hit := fun r =>
    (getTime (born r) <? getTime now - olderThanDays * msPerDay)%Z
    && (if Js.truthy agentType then agent_type r =? text_of agentType else true)
    && (if Js.truthy projectContext then project_is (text_of projectContext) r else true) in
  getTime cutoff = (getTime now - olderThanDays * msPerDay)%Z ->
  (forall r, In r (chat_sessions d) ->
     created_at r = toISOString (born r)
     /\ Sqlite.text_lt (toISOString (born r)) (toISOString cutoff)
        = (getTime (born r) <? getTime cutoff)%Z) ->
  exists d' : Database,
    deleteSessionsByFilters olderThanDays agentType projectContext now (opened d)
      = (Returned (List.length (filter hit (chat_sessions d))), opened d')
    /\ chat_sessions d' = filter (fun r => negb (hit r)) (chat_sessions d)
    /\ (Js.truthy agentType = false -> Js.truthy projectContext = false ->
        deleteSessionsByFilters olderThanDays agentType projectContext now (opened d)
        = deleteOldSessions olderThanDays now (opened d)).
Proof.
  intros cutoff hit Hcut Hborn.
  pose proof (older_than_cutoff olderThanDays now born (chat_sessions d) Hcut Hborn) as Hold.
  cbv zeta in Hold. subst cutoff.
  unfold deleteSessionsByFilters, deleteOldSessions. rewrite !with_db_opened.
  cbv zeta.
  set (iso := toISOString (setDate now (getDate now - olderThanDays))) in *.
  set (sql := if Js.truthy projectContext then _ else _).
  assert (Hsql : forall r, In r (chat_sessions d) ->
                           forallb (fun cond => cond r) sql = hit r).
  { intros r Hr. subst sql hit. cbv beta. rewrite <- (Hold r Hr).
    destruct (Js.truthy agentType), (Js.truthy projectContext); simpl;
      unfold on_column, project_is; simpl; destruct (project_context r);
      rewrite ?andb_true_r, ?andb_false_r, ?andb_assoc; reflexivity. }
  exists (snd (sql_delete (fun r => forallb (fun cond => cond r) sql) d)).
  split; [|split].
  - rewrite sql_delete_changes. do 3 f_equal. apply filter_ext_In. exact Hsql.
  - rewrite sql_delete_rows. apply filter_ext_In. intros r Hr. now rewrite (Hsql r Hr).
  - intros Ha Hp. subst sql. rewrite Ha, Hp.
    assert (Hext : forall c1 c2 : ChatSession -> bool,
               (forall r, c1 r = c2 r) -> sql_delete c1 d = sql_delete c2 d).
    { intros c1 c2 Hc. unfold sql_delete.
      assert (Hd : forall kept todo fts,
                 delete_each c1 kept todo fts = delete_each c2 kept todo fts).
      { intros kept todo. revert kept.
        induction todo as [|x todo IH]; intros kept fts; simpl; [reflexivity|].
        rewrite Hc. destruct (c2 (snd x)); apply IH. }
      rewrite Hd. do 3 f_equal. apply filter_ext_In. intros r _. apply Hc. }
    rewrite (Hext _ (fun r => Sqlite.text_lt (created_at r) iso));
      [reflexivity|].
    intros r. simpl. apply andb_true_r.
Qed.

End FilteredDelete.

Lemma deleteSessionsByFilters_exact_witness :
  getTime (JsDate := January2024) (setDate (JsDate := January2024) 25%Z (getDate (JsDate := January2024) 25%Z - 10))
  = (getTime (JsDate := January2024) 25%Z - 10 * msPerDay)%Z
  /\ (forall r, In r (chat_sessions two_sessions) ->
        created_at r = toISOString (JsDate := January2024) (day_of r)
        /\ Sqlite.text_lt (toISOString (JsDate := January2024) (day_of r))
                          (toISOString (JsDate := January2024)
                                       (setDate (JsDate := January2024) 25%Z (getDate (JsDate := January2024) 25%Z - 10)))
           = (getTime (JsDate := January2024) (day_of r)
              <? getTime (JsDate := January2024) (setDate (JsDate := January2024) 25%Z (getDate (JsDate := January2024) 25%Z - 10)))%Z)
  /\ exists d' : Database,
       deleteSessionsByFilters (D := January2024) 10%Z (Some "other") None 25%Z
                               (opened two_sessions)
       = (Returned 1%nat, opened d')
       /\ chat_sessions d' = [sample_row "s2" 20].
Proof.
  assert (Hborn : forall r, In r (chat_sessions two_sessions) ->
        created_at r = toISOString (JsDate := January2024) (day_of r)
        /\ Sqlite.text_lt (toISOString (JsDate := January2024) (day_of r))
                          (toISOString (JsDate := January2024)
                                       (setDate (JsDate := January2024) 25%Z (getDate (JsDate := January2024) 25%Z - 10)))
           = (getTime (JsDate := January2024) (day_of r)
              <? getTime (JsDate := January2024) (setDate (JsDate := January2024) 25%Z (getDate (JsDate := January2024) 25%Z - 10)))%Z).
  { intros r [Hr|[Hr|[]]]; subst r; split; reflexivity. }
  split; [reflexivity|]. split; [exact Hborn|].
  destruct (deleteSessionsByFilters_exact (D := January2024) 10%Z (Some "other") None 25%Z
              two_sessions day_of eq_refl Hborn) as [d' [Heq [Hrows _]]].
  exists d'. split; [exact Heq|exact Hrows].
Defined.

(** ** Round trips *)

Lemma find_map_update (key k : string) (g : ChatSession -> ChatSession)
    (l : list ChatSession) :
  (forall r, id (g r) = id r) ->
  find (fun r => id r =? k) (map (fun r => if id r =? key then g r else r) l)
  = if k =? key then option_map g (find (fun r => id r =? k) l)
    else find (fun r => id r =? k) l.
Proof.
  intros Hg. induction l as [|x l IH]; simpl; [now destruct (k =? key)|].
  destruct (id x =? key) eqn:Hx.
  - rewrite Hg. destruct (id x =? k) eqn:Hxk.
    + apply String.eqb_eq in Hx, Hxk. subst. now rewrite String.eqb_refl.
    + exact IH.
  - destruct (id x =? k) eqn:Hxk; [|exact IH].
    apply String.eqb_eq in Hxk. subst k. now rewrite Hx.
Qed.

Lemma NoDup_id_filter (f : ChatSession -> bool) (l : list ChatSession) :
  NoDup (map id l) -> NoDup (map id (filter f l)).
Proof.
  induction l as [|x l IH]; simpl; intros Hnd; [constructor|].
  inversion Hnd as [|? ? Hx Hl]; subst.
  destruct (f x); simpl; [|now apply IH].
  constructor; [|now apply IH].
  intros Hin. apply Hx. apply in_map_iff in Hin as [y [Hy Hin]].
  apply filter_In in Hin as [Hin _]. rewrite <- Hy. now apply in_map.
Qed.

Lemma map_id_update (key : string) (g : ChatSession -> ChatSession)
    (l : list ChatSession) :
  (forall r, id (g r) = id r) ->
  map id (map (fun r => if id r =? key then g r else r) l) = map id l.
Proof.
  intros Hg. rewrite map_map. apply map_ext. intros r.
  destruct (id r =? key); [apply Hg|reflexivity].
Qed.

Lemma NoDup_id_snoc (l : list ChatSession) (row : ChatSession) :
  NoDup (map id l) ->
  existsb (fun r => id r =? id row) l = false ->
  NoDup (map id (l ++ [row])).
Proof.
  intros Hnd Hex. rewrite map_app. simpl.
  apply NoDup_app; [exact Hnd|repeat constructor; intros []|].
  intros i Hi [Hi'|[]]. subst i. apply existsb_id_In in Hi. congruence.
Qed.

Section StoreRoundTrips.
Context {D : JsDate} {F : Fts5}.

(** X2. When a session with the id is stored and the partial carries a
    non-empty title, original_content or tags value, [updateSession]
    either returns true, and [getSession] then returns that session with
    the carried values and the new updated_at while every other id is
    found as before, or it fails in the trigger of the text-search
    table, which needs that table, and leaves the store as it was. *)
Theorem update_then_get
    (key : string) (u : PartialSession) (now : Date) (d : Database) (r : ChatSession) :
  find (fun x => id x =? key) (chat_sessions d) = Some r ->
  has_update u = true ->
  (exists d' : Database,
     updateSession key u now (opened d) = (Returned true, opened d')
     /\ getSession key (opened d')
        = (Returned (Some (updated_row u (toISOString now) r)), opened d')
     /\ forall k, k <> key ->
          fst (getSession k (opened d')) = fst (getSession k (opened d)))
  \/ (updateSession key u now (opened d) = (Thrown CorruptVtab, opened d)
      /\ chat_sessions_fts d <> None).
Proof.
  intros Hr Hu.
  assert (Hex : existsb (has_id key) (chat_sessions d) = true).
  { apply existsb_exists. exists r. apply find_some in Hr. exact Hr. }
  destruct (updateSession_cases key u now d)
    as [[Hu' _]|[[_ [d' [Heq [Hrows _]]]]|[_ [Heq [Hfts _]]]]].
  - congruence.
  - left. exists d'. rewrite Heq, Hex. split; [reflexivity|].
    rewrite !getSession_opened, Hrows. split.
    + rewrite find_map_update by reflexivity. now rewrite String.eqb_refl, Hr.
    + intros k Hk. rewrite ?getSession_opened. cbn [fst]. rewrite Hrows.
      rewrite find_map_update by reflexivity.
      apply String.eqb_neq in Hk. now rewrite Hk.
  - right. now split.
Qed.

(** X4. When the generated id is already stored or the agent_type is not
    one of claude, cursor and other, [createSession] throws and the store
    is as it was. *)
Theorem createSession_rejects
    (s : SessionInput) (date_now random36 : string) (now : Date) (d : Database) :
  existsb (has_id (generateId date_now random36)) (chat_sessions d)
  || negb (agent_type_check (in_agent_type s)) = true ->
  exists e : Exception,
    createSession s date_now random36 now (opened d) = (Thrown e, opened d)
    /\ (e = ConstraintPrimaryKey \/ e = ConstraintCheck).
Proof.
  intros H. unfold createSession. rewrite with_db_opened. unfold sql_insert.
  simpl id. simpl agent_type. unfold has_id in H.
  destruct (agent_type_check (in_agent_type s)).
  - simpl negb. cbv iota. simpl in H. rewrite orb_false_r in H. rewrite H.
    exists ConstraintPrimaryKey. split; [reflexivity|now left].
  - exists ConstraintCheck. split; [reflexivity|now right].
Qed.

End StoreRoundTrips.

Section CreateDelete.
Context {D : JsDate}.

(** X3. Creating a session and then deleting the returned id gives back
    the table as it was, rowids included; but on a store whose ids are
    distinct the text-search table is afterwards as the insert left it,
    with the entry of the session that is gone. *)
Theorem create_then_delete
    (s : SessionInput) (date_now random36 : string) (now : Date) (d : Database) :
  agent_type_check (in_agent_type s) = true ->
  (forall r, In r (chat_sessions d) -> id r <> generateId date_now random36) ->
  exists d1 d2 : Database,
    createSession s date_now random36 now (opened d)
      = (Returned (generateId date_now random36), opened d1)
    /\ deleteSession (generateId date_now random36) (opened d1)
       = (Returned true, opened d2)
    /\ by_rowid d2 = by_rowid d
    /\ chat_sessions d2 = chat_sessions d
    /\ (NoDup (map id (chat_sessions d)) ->
        chat_sessions_fts d2 = chat_sessions_fts d1
        /\ chat_sessions_fts d1
           = option_map
               (fun fts => fts ++ [FtsInsert {| fts_id := generateId date_now random36;
                                                fts_title := in_title s;
                                                fts_original_content := in_original_content s;
                                                fts_tags := in_tags s |}])
               (chat_sessions_fts d)).
Proof.
  intros Hcheck Hfresh.
  pose proof (existsb_id_false _ _ Hfresh) as Hex.
  rewrite (createSession_eq s date_now random36 now d Hcheck Hfresh). cbv zeta.
  set (row := {| id := generateId date_now random36; title := in_title s;
                 agent_id := in_agent_id s; agent_type := in_agent_type s;
                 project_context := in_project_context s;
                 original_content := in_original_content s;
                 tags := in_tags s; created_at := toISOString now;
                 updated_at := toISOString now |}).
  set (d1 := {| by_rowid := by_rowid d ++ [(next_rowid (by_rowid d), row)];
                chat_sessions_fts := option_map (chat_sessions_ai row) (chat_sessions_fts d) |}).
  assert (Hrows1 : chat_sessions d1 = chat_sessions d ++ [row]).
  { unfold chat_sessions. simpl. now rewrite map_app. }
  exists d1. eexists. split; [reflexivity|]. rewrite deleteSession_eq.
  assert (Hfound : existsb (has_id (generateId date_now random36)) (chat_sessions d1) = true).
  { rewrite Hrows1, existsb_app. simpl. unfold has_id. simpl.
    rewrite String.eqb_refl. now rewrite orb_true_r. }
  rewrite Hfound. split; [reflexivity|].
  assert (Hback : by_rowid (snd (sql_delete (fun r => id r =? generateId date_now random36) d1))
                  = by_rowid d).
  { unfold sql_delete. simpl by_rowid. rewrite delete_each_rows. simpl app.
    rewrite filter_app. simpl. rewrite String.eqb_refl. simpl. rewrite app_nil_r.
    apply filter_all. intros x Hx. apply negb_true_iff, String.eqb_neq.
    apply Hfresh. unfold chat_sessions. now apply in_map. }
  split; [exact Hback|]. split; [unfold chat_sessions; now rewrite Hback|].
  intros Hnd. split; [|reflexivity].
  apply sql_delete_index. rewrite Hrows1. now apply NoDup_id_snoc.
Qed.

End CreateDelete.

Lemma update_then_get_witness :
  find (fun x => id x =? "s1") (chat_sessions (one_session true)) = Some (sample_row "s1" 5)
  /\ has_update renamed = true
  /\ ((exists d' : Database,
         updateSession (D := January2024) (F := WordEngine) "s1" renamed 9%Z
                       (opened (one_session true))
           = (Returned true, opened d')
         /\ getSession "s1" (opened d')
            = (Returned (Some (updated_row renamed (toISOString (JsDate := January2024) 9%Z)
                                 (sample_row "s1" 5))), opened d')
         /\ forall k, k <> "s1" ->
              fst (getSession k (opened d')) = fst (getSession k (opened (one_session true))))
      \/ (updateSession (D := January2024) (F := WordEngine) "s1" renamed 9%Z
                        (opened (one_session true))
          = (Thrown CorruptVtab, opened (one_session true))
          /\ chat_sessions_fts (one_session true) <> None)).
Proof.
  split; [reflexivity|]. split; [reflexivity|].
  apply (update_then_get (D := January2024) (F := WordEngine) "s1" renamed 9%Z
           (one_session true) (sample_row "s1" 5)); reflexivity.
Defined.

Lemma create_then_delete_witness :
  agent_type_check (in_agent_type sample_input) = true
  /\ (forall r, In r (chat_sessions (one_session true)) ->
                id r <> generateId "1700000000000" "k3j9x0q2a")
  /\ exists d1 d2 : Database,
       createSession (D := January2024) sample_input "1700000000000" "k3j9x0q2a" 6%Z
                     (opened (one_session true))
         = (Returned (generateId "1700000000000" "k3j9x0q2a"), opened d1)
       /\ deleteSession (generateId "1700000000000" "k3j9x0q2a") (opened d1)
          = (Returned true, opened d2)
       /\ by_rowid d2 = by_rowid (one_session true)
       /\ chat_sessions d2 = chat_sessions (one_session true)
       /\ (NoDup (map id (chat_sessions (one_session true))) ->
           chat_sessions_fts d2 = chat_sessions_fts d1
           /\ chat_sessions_fts d1
              = option_map
                  (fun fts => fts ++ [FtsInsert
                     {| fts_id := generateId "1700000000000" "k3j9x0q2a";
                        fts_title := in_title sample_input;
                        fts_original_content := in_original_content sample_input;
                        fts_tags := in_tags sample_input |}])
                  (chat_sessions_fts (one_session true))).
Proof.
  assert (Hfresh : forall r, In r (chat_sessions (one_session true)) ->
                             id r <> generateId "1700000000000" "k3j9x0q2a").
  { intros r [Hr|[]]. subst r. discriminate. }
  split; [reflexivity|]. split; [exact Hfresh|].
  apply (create_then_delete (D := January2024) sample_input "1700000000000" "k3j9x0q2a"
           6%Z (one_session true)); [reflexivity|exact Hfresh].
Defined.

Lemma createSession_rejects_witness :
  existsb (has_id (generateId "1" "a")) (chat_sessions (one_session true))
  || negb (agent_type_check (in_agent_type
             (mkSessionInput "t" "agent" "gpt" None "content" "[]"))) = true
  /\ exists e : Exception,
       createSession (D := January2024)
         (mkSessionInput "t" "agent" "gpt" None "content" "[]") "1" "a" 6%Z
         (opened (one_session true))
       = (Thrown e, opened (one_session true))
       /\ (e = ConstraintPrimaryKey \/ e = ConstraintCheck).
Proof.
  split; [reflexivity|].
  apply (createSession_rejects (D := January2024)
           (mkSessionInput "t" "agent" "gpt" None "content" "[]") "1" "a" 6%Z
           (one_session true)).
  reflexivity.
Defined.

(** ** What a planner keeps *)

Section PlannerProperties.
Context {P : Planner}.

Lemma order_by_In {A : Type} (s : Select) (gtb : A -> A -> bool) (l : list A) (x : A) :
  In x (order_by s gtb l) <-> In x l.
Proof.
  split; apply Permutation_in;
    [apply order_by_perm|apply Permutation_sym, order_by_perm].
Qed.

Lemma order_by_length {A : Type} (s : Select) (gtb : A -> A -> bool) (l : list A) :
  List.length (order_by s gtb l) = List.length l.
Proof. apply Permutation_length, order_by_perm. Qed.

End PlannerProperties.

(** ** The LIKE operator *)

Lemma ci_eqb_refl (c : ascii) : Js.ci_eqb c c = true.
Proof. unfold Js.ci_eqb. apply Ascii.eqb_refl. Qed.

(** One step of the scan that [%] starts. *)
Lemma like_pct (p t : list ascii) :
  Sqlite.like_chars (Sqlite.pct :: p) t
  = Sqlite.like_chars p t
    || match t with
       | [] => false
       | _ :: t' => Sqlite.like_chars (Sqlite.pct :: p) t'
       end.
Proof. destruct t; reflexivity. Qed.

Lemma like_pct_only (t : list ascii) : Sqlite.like_chars [Sqlite.pct] t = true.
Proof.
  induction t as [|c t IH]; [reflexivity|].
  rewrite like_pct. rewrite IH. apply orb_true_r.
Qed.

Lemma like_pct_skip (p pre t : list ascii) :
  Sqlite.like_chars (Sqlite.pct :: p) t = true ->
  Sqlite.like_chars (Sqlite.pct :: p) (pre ++ t) = true.
Proof.
  intros H. induction pre as [|c pre IH]; [exact H|].
  simpl app. rewrite like_pct. rewrite IH. apply orb_true_r.
Qed.

(** A pattern followed by [%] matches every text that starts with the
    pattern as it is written, wildcards included. *)
Lemma like_own_text (q post : list ascii) :
  Sqlite.like_chars (q ++ [Sqlite.pct]) (q ++ post) = true.
Proof.
  induction q as [|c q IH]; simpl app.
  - apply like_pct_only.
  - destruct (Ascii.eqb c Sqlite.pct) eqn:Hp.
    + apply Ascii.eqb_eq in Hp. subst c.
      rewrite like_pct. apply orb_true_iff. right.
      rewrite like_pct. now rewrite IH.
    + simpl. rewrite Hp. destruct (Ascii.eqb c Sqlite.usc); [exact IH|].
      now rewrite ci_eqb_refl, IH.
Qed.

Lemma chars_app (a b : string) : Js.chars (a ++ b)%string = Js.chars a ++ Js.chars b.
Proof. induction a as [|c a IH]; simpl; [reflexivity|]. now rewrite IH. Qed.

Lemma like_plain_prefix (q t : list ascii) :
  forallb (fun c => negb (Ascii.eqb c Sqlite.pct || Ascii.eqb c Sqlite.usc)) q = true ->
  Sqlite.like_chars (q ++ [Sqlite.pct]) t = ci_prefix q t.
Proof.
  revert t. induction q as [|c q IH]; intros t Hq; simpl app.
  - rewrite like_pct_only. now destruct t.
  - simpl in Hq. apply andb_true_iff in Hq as [Hc Hq].
    apply negb_true_iff, orb_false_iff in Hc as [Hp Hu].
    simpl. rewrite Hp, Hu. destruct t as [|d t]; [reflexivity|].
    now rewrite IH.
Qed.

Lemma like_plain_contains (q t : list ascii) :
  forallb (fun c => negb (Ascii.eqb c Sqlite.pct || Ascii.eqb c Sqlite.usc)) q = true ->
  Sqlite.like_chars (Sqlite.pct :: q ++ [Sqlite.pct]) t = ci_contains_chars q t.
Proof.
  intros Hq. induction t as [|d t IH].
  - rewrite like_pct. rewrite like_plain_prefix by exact Hq. simpl. now rewrite orb_false_r.
  - rewrite like_pct. rewrite like_plain_prefix by exact Hq. rewrite IH. reflexivity.
Qed.

Lemma utf8_length_app (a b : string) :
  Sqlite.utf8_length (a ++ b)%string = (Sqlite.utf8_length a + Sqlite.utf8_length b)%Z.
Proof. induction a as [|c a IH]; simpl; [reflexivity|]. rewrite IH. lia. Qed.

(** A string without NUL is its own C string. *)
Lemma c_string_no_nul (a : string) : no_nul a = true -> Sqlite.c_string a = a.
Proof.
  unfold no_nul. induction a as [|c a IH]; simpl; intros H; [reflexivity|].
  apply andb_true_iff in H as [Hc Ha]. apply negb_true_iff in Hc. rewrite Hc.
  now rewrite IH.
Qed.

Lemma no_nul_app (a b : string) :
  no_nul (a ++ b)%string = no_nul a && no_nul b.
Proof. unfold no_nul. now rewrite chars_app, forallb_app. Qed.

(** The value of LIKE for a pattern that it accepts. *)
Lemma like_true_accepted (text pattern : string) :
  (Sqlite.utf8_length pattern <= Sqlite.max_like_pattern_length)%Z ->
  Sqlite.like_true text pattern
  = Sqlite.like_chars (Js.chars (Sqlite.c_string pattern)) (Js.chars (Sqlite.c_string text)).
Proof.
  intros H. unfold Sqlite.like_true, Sqlite.like, Sqlite.like_pattern_too_complex.
  destruct (Sqlite.max_like_pattern_length <? Sqlite.utf8_length pattern)%Z eqn:Hl;
    [apply Z.ltb_lt in Hl; lia|reflexivity].
Qed.

Lemma between_percents (q : string) :
  (Sqlite.utf8_length q <= 49998)%Z ->
  (Sqlite.utf8_length ("%" ++ q ++ "%") <= Sqlite.max_like_pattern_length)%Z.
Proof.
  intros H. rewrite !utf8_length_app. change (Sqlite.utf8_length "%") with 1%Z.
  unfold Sqlite.max_like_pattern_length. lia.
Qed.

(** A query without NUL is found in every text that has it, as it is
    written, before the first NUL of the text. *)
Lemma like_substring (q s : string) :
  (Sqlite.utf8_length q <= 49998)%Z ->
  no_nul q = true ->
  occurs_in q (Sqlite.c_string s) ->
  Sqlite.like_true s ("%" ++ q ++ "%")%string = true.
Proof.
  intros Hlen Hq [pre [post Hs]].
  rewrite (like_true_accepted _ _ (between_percents q Hlen)).
  rewrite c_string_no_nul by (rewrite !no_nul_app, Hq; reflexivity).
  rewrite Hs. rewrite chars_app, chars_app. simpl.
  apply like_pct_skip. rewrite like_pct. now rewrite like_own_text.
Qed.

(** Without wildcards and NUL in the query, [LIKE '%query%'] is
    containment, up to ASCII case, in the text before its first NUL. *)
Lemma like_no_wildcard (q s : string) :
  (Sqlite.utf8_length q <= 49998)%Z ->
  no_wildcard q = true ->
  no_nul q = true ->
  Sqlite.like_true s ("%" ++ q ++ "%")%string = ci_contains q (Sqlite.c_string s).
Proof.
  intros Hlen Hw Hq.
  rewrite (like_true_accepted _ _ (between_percents q Hlen)).
  rewrite c_string_no_nul by (rewrite !no_nul_app, Hq; reflexivity).
  unfold ci_contains. rewrite chars_app, chars_app. simpl.
  now apply like_plain_contains.
Qed.

Lemma truthy_nonempty (q : string) : q <> "" -> Js.truthy (Some q) = true.
Proof. intros H. simpl. apply negb_true_iff. now apply String.eqb_neq. Qed.

Lemma text_lt_asym (a b : string) :
  Sqlite.text_lt a b = true -> Sqlite.text_lt b a = false.
Proof.
  unfold Sqlite.text_lt, String.ltb. rewrite (String.compare_antisym a b).
  destruct (String.compare b a); simpl; congruence.
Qed.

Lemma must_follow_asym (o : Order) (a b : ChatSession) :
  must_follow o a b = true -> must_follow o b a = false.
Proof. destruct o; simpl; [discriminate|apply text_lt_asym]. Qed.

(** ** Statements that select *)

Lemma In_firstn {A : Type} (n : nat) (l : list A) (x : A) :
  In x (firstn n l) -> In x l.
Proof.
  intros H. rewrite <- (firstn_skipn n l). apply in_or_app. now left.
Qed.

Lemma Sorted_firstn {A : Type} (R : A -> A -> Prop) (n : nat) (l : list A) :
  Sorted R l -> Sorted R (firstn n l).
Proof.
  revert l. induction n as [|n IH]; intros l Hs; [constructor|].
  destruct l as [|a l]; [constructor|]. simpl.
  inversion Hs as [|? ? Hl Hhd]; subst. constructor; [now apply IH|].
  destruct n; [constructor|]. destruct Hhd; simpl; now constructor.
Qed.

Lemma Sorted_skipn {A : Type} (R : A -> A -> Prop) (n : nat) (l : list A) :
  Sorted R l -> Sorted R (skipn n l).
Proof.
  revert l. induction n as [|n IH]; intros l Hs; [exact Hs|].
  destruct l as [|a l]; [constructor|]. simpl.
  inversion Hs; subst. now apply IH.
Qed.

Lemma Sorted_map {A B : Type} (R : A -> A -> Prop) (R' : B -> B -> Prop) (f : A -> B)
    (l : list A) :
  (forall a b, R a b -> R' (f a) (f b)) ->
  Sorted R l -> Sorted R' (map f l).
Proof.
  intros H Hs. induction Hs as [|a l Hl IH Hhd]; simpl; constructor; [exact IH|].
  destruct Hhd; simpl; constructor. now apply H.
Qed.

Lemma In_paginate {A : Type} (lim off : option Z) (rows : list A) (x : A) :
  In x (paginate lim off rows) -> In x rows.
Proof.
  unfold paginate, Sqlite.apply_limit, Sqlite.apply_offset. intros H.
  assert (Hoff : forall l, In x (match off with Some m => skipn (Z.to_nat m) l | None => l end)
                           -> In x l).
  { intros l Hl. destruct off as [m|]; [|exact Hl].
    rewrite <- (firstn_skipn (Z.to_nat m) l). apply in_or_app. now right. }
  apply Hoff. destruct lim as [n|]; [|exact H].
  destruct (n <? 0)%Z; [exact H|]. now apply In_firstn in H.
Qed.

Lemma Sorted_paginate {A : Type} (R : A -> A -> Prop) (lim off : option Z) (rows : list A) :
  Sorted R rows -> Sorted R (paginate lim off rows).
Proof.
  intros Hs. unfold paginate, Sqlite.apply_limit, Sqlite.apply_offset.
  assert (Hoff : Sorted R (match off with Some m => skipn (Z.to_nat m) rows | None => rows end)).
  { destruct off; [now apply Sorted_skipn|exact Hs]. }
  destruct lim as [n|]; [|exact Hoff].
  destruct (n <? 0)%Z; [exact Hoff|]. now apply Sorted_firstn.
Qed.

Lemma paginate_limit {A : Type} (n : Z) (off : option Z) (rows : list A) :
  (0 <= n)%Z ->
  (Z.of_nat (List.length (paginate (Some n) off rows)) <= n)%Z.
Proof.
  intros Hn. unfold paginate, Sqlite.apply_limit.
  destruct (n <? 0)%Z eqn:Hneg; [apply Z.ltb_lt in Hneg; lia|].
  match goal with |- context [firstn ?k ?l] =>
    pose proof (firstn_le_length k l) as Hle end.
  lia.
Qed.

(** With a limit that is negative or not below the number of rows, and
    no offset, every row is on the page. *)
Lemma paginate_all {A : Type} (n : Z) (rows : list A) :
  (n < 0)%Z \/ (Z.of_nat (List.length rows) <= n)%Z ->
  paginate (Some n) None rows = rows.
Proof.
  intros H. unfold paginate, Sqlite.apply_limit.
  destruct (n <? 0)%Z eqn:Hn; [reflexivity|]. apply Z.ltb_ge in Hn.
  apply firstn_all2. lia.
Qed.

Lemma must_be_int_in_bounds (n : Z) : in_bounds n -> Sqlite.must_be_int n = true.
Proof.
  unfold in_bounds, Sqlite.must_be_int. intros [H1 H2].
  apply andb_true_iff. split; now apply Z.ltb_lt.
Qed.

(** A statement whose bounds are whole numbers in range computes its
    body; the page of a limit of zero is empty anyway. *)
Lemma with_bounds_in_bounds {A : Type} (lim off : option Z) (rows : list A) :
  match lim with Some n => in_bounds n | None => True end ->
  match off with Some m => in_bounds m | None => True end ->
  with_bounds lim off (Returned (paginate lim off rows))
  = Returned (paginate lim off rows).
Proof.
  intros Hl Ho. unfold with_bounds. destruct lim as [n|]; [|reflexivity].
  rewrite (must_be_int_in_bounds n Hl). simpl negb. cbv iota.
  destruct (n =? 0)%Z eqn:Hz.
  - apply Z.eqb_eq in Hz. subst n. unfold paginate, Sqlite.apply_limit. reflexivity.
  - destruct off as [m|]; [|reflexivity].
    rewrite (must_be_int_in_bounds m Ho). reflexivity.
Qed.

(** What a returning statement with bounds has computed. *)
Lemma with_bounds_returned {A : Type} (lim off : option Z) (body : outcome (list A))
    (rs : list A) :
  with_bounds lim off body = Returned rs ->
  body = Returned rs \/ (lim = Some 0%Z /\ rs = []).
Proof.
  unfold with_bounds. destruct lim as [n|]; [|now left].
  destruct (negb (Sqlite.must_be_int n)); [discriminate|].
  destruct (n =? 0)%Z eqn:Hz.
  - apply Z.eqb_eq in Hz. subst n. intros H. inversion H. now right.
  - destruct off as [m|]; [|now left].
    destruct (negb (Sqlite.must_be_int m)); [discriminate|now left].
Qed.

Section SelectProperties.
Context {P : Planner}.

(** A statement on [chat_sessions] without a pattern that is too long and
    with bounds in range returns the rows that its conditions keep, in
    its order, cut to its page. *)
Lemma select_rows_returns (s : Select) (o : Order) (lim off : option Z)
    (rows : list ChatSession) :
  existsb too_complex (where_ s) = false ->
  match lim with Some n => in_bounds n | None => True end ->
  match off with Some m => in_bounds m | None => True end ->
  select_rows s o lim off rows
  = Returned (paginate lim off (order_by s (must_follow o) (filter (keeps s) rows))).
Proof.
  intros Hc Hl Ho. unfold select_rows. rewrite Hc. simpl andb. cbv iota.
  now apply with_bounds_in_bounds.
Qed.

(** What a statement on [chat_sessions] returns, when it returns. *)
Lemma select_rows_sound (s : Select) (o : Order) (lim off : option Z)
    (rows rs : list ChatSession) :
  select_rows s o lim off rows = Returned rs ->
  (forall r, In r rs -> In r rows /\ keeps s r = true)
  /\ (forall n, lim = Some n -> (0 <= n)%Z -> (Z.of_nat (List.length rs) <= n)%Z).
Proof.
  unfold select_rows. intros H.
  apply with_bounds_returned in H as [H|[Hl Hrs]].
  - destruct (existsb too_complex (where_ s) && evaluates_long_like s rows);
      [discriminate|].
    inversion H as [Hrs]. split.
    + intros r Hr. apply In_paginate, order_by_In, filter_In in Hr. exact Hr.
    + intros n Hn Hpos. subst lim. now apply paginate_limit.
  - subst rs. split; [intros r []|]. intros n _ Hn. simpl. lia.
Qed.

End SelectProperties.

Lemma content_row_In (rowid : Z) (table : list (Z * ChatSession)) (r : ChatSession) :
  content_row rowid table = Some r -> In r (map snd table).
Proof.
  unfold content_row. destruct (find _ table) as [x|] eqn:Hf; [|discriminate].
  simpl. intros H. inversion H. subst r. apply find_some in Hf as [Hin _].
  now apply in_map.
Qed.

Section SearchProperties.
Context {F : Fts5} {P : Planner}.

Lemma In_plain (r : ChatSession) (l : list ChatSession) :
  In (plain r) (map plain l) <-> In r l.
Proof.
  rewrite in_map_iff. split.
  - intros [r' [Heq Hin]]. inversion Heq. now subst.
  - intros Hin. now exists r.
Qed.

(** What the scan of the hits returns, when it returns. *)
Lemma scan_hits_sound (q : string) (fts : list FtsWrite) (table : list (Z * ChatSession))
    (keep : ChatSession -> bool) (hits : list (Z * rank_t)) :
  forall (skip : Z) (need : option Z) (rs : list SearchResult),
    scan_hits q fts table keep skip need hits = Returned rs ->
    (forall x, In x rs -> In (session x) (map snd table) /\ keep (session x) = true)
    /\ (forall n, need = Some n -> (0 <= n)%Z -> (Z.of_nat (List.length rs) <= n)%Z).
Proof.
  induction hits as [|[rowid rk] hits IH]; intros skip need rs; simpl.
  - intros H. inversion H. split; [intros x []|]. intros n _ Hn. simpl. lia.
  - destruct (match need with Some n => (n <=? 0)%Z | None => false end) eqn:Hdone.
    + intros H. inversion H. split; [intros x []|]. intros n _ Hn. simpl. lia.
    + destruct (content_row rowid table) as [r|] eqn:Hrow; [|discriminate].
      destruct (keep r) eqn:Hkeep; simpl negb; cbv iota.
      * destruct (0 <? skip)%Z; [apply IH|].
        destruct (scan_hits q fts table keep 0%Z
                    (option_map (fun n => (n - 1)%Z) need) hits) as [rs'|e] eqn:Hrest;
          [|discriminate].
        simpl. intros H. inversion H. subst rs.
        destruct (IH _ _ _ Hrest) as [Hin Hlen]. split.
        -- intros x [Hx|Hx]; [|now apply Hin]. subst x. simpl.
           split; [now apply (content_row_In rowid)|exact Hkeep].
        -- intros n Hn Hpos. subst need. simpl in Hdone. apply Z.leb_gt in Hdone.
           specialize (Hlen (n - 1)%Z eq_refl). simpl List.length. lia.
      * apply IH.
Qed.

(** The rows that a statement returns are rows of the table that satisfy
    every condition of its WHERE clause, and no more of them than a
    limit that is not negative allows. *)
Lemma run_select_sound (s : Select) (d : Database) (rs : list SearchResult) :
  run_select s d = Returned rs ->
  (forall x, In x rs ->
     In (session x) (chat_sessions d)
     /\ forall e, In e (where_ s) -> eval e (session x) = true)
  /\ (forall o n off, parse_tail (tail s) = Returned (o, Some n, off) -> (0 <= n)%Z ->
                      (Z.of_nat (List.length rs) <= n)%Z).
Proof.
  unfold run_select.
  destruct (parse_tail (tail s)) as [[[o lim] off]|e]; [|discriminate].
  assert (Hkeeps : forall r, keeps s r = true ->
                             forall e, In e (where_ s) -> eval e r = true).
  { intros r Hr. now apply forallb_forall. }
  destruct (source s) as [|q].
  - destruct (select_rows s o lim off (chat_sessions d)) as [rows|e] eqn:Hsel;
      [|discriminate].
    simpl. intros H. inversion H. subst rs.
    destruct (select_rows_sound s o lim off _ rows Hsel) as [Hin Hlen]. split.
    + intros x Hx. apply in_map_iff in Hx as [r [Hxr Hr]]. subst x. simpl.
      destruct (Hin r Hr) as [Hr' Hk]. split; [exact Hr'|now apply Hkeeps].
    + intros o' n off' Ht Hn. inversion Ht. subst. rewrite length_map.
      now apply Hlen.
  - destruct (chat_sessions_fts d) as [fts|]; [|discriminate].
    destruct (existsb ambiguous (where_ s)); [discriminate|].
    intros H. apply with_bounds_returned in H as [H|[Hl Hrs]].
    + destruct (existsb too_complex (where_ s) && evaluates_long_like s (chat_sessions d));
        [discriminate|].
      destruct (fts5_match q fts) as [hits|]; [|discriminate].
      destruct o.
      * destruct (scan_hits_sound q fts (by_rowid d) (keeps s) hits _ _ rs H)
          as [Hin Hlen].
        split.
        -- intros x Hx. destruct (Hin x Hx) as [Hx' Hk].
           split; [exact Hx'|now apply Hkeeps].
        -- intros o' n off' Ht Hn. inversion Ht. subst. apply (Hlen n); [|exact Hn].
           unfold need_of. destruct (n <? 0)%Z eqn:Hneg; [apply Z.ltb_lt in Hneg; lia|].
           reflexivity.
      * destruct (scan_hits q fts (by_rowid d) (keeps s) 0%Z None hits) as [all|e] eqn:Hall;
          [|discriminate].
        simpl in H. inversion H. subst rs.
        destruct (scan_hits_sound q fts (by_rowid d) (keeps s) hits _ _ all Hall)
          as [Hin _].
        split.
        -- intros x Hx. apply In_paginate, order_by_In in Hx.
           destruct (Hin x Hx) as [Hx' Hk]. split; [exact Hx'|now apply Hkeeps].
        -- intros o' n off' Ht Hn. inversion Ht. subst. now apply paginate_limit.
    + subst rs. split; [intros x []|]. intros o' n off' _ Hn. simpl. lia.
Qed.

Lemma search_select_tail (filters : SearchFilters) (hasFTSTable : bool) :
  tail (search_select filters hasFTSTable)
  = [OrderBy (if Js.truthy (query filters) && hasFTSTable then ByRank else ByCreatedAtDesc)]
    ++ (if Js.truthy_num (limit filters) then [Limit (num_of (limit filters))] else [])
    ++ (if Js.truthy_num (offset filters) then [Offset (num_of (offset filters))] else []).
Proof.
  unfold search_select.
  destruct (Js.truthy (query filters)), hasFTSTable, (Js.truthy (agentType filters)),
    (Js.truthy (projectContext filters)), (Js.truthy (dateFrom filters)),
    (Js.truthy (dateTo filters)), (filter_tags filters) as [[|tag tags']|],
    (Js.truthy_num (limit filters)), (Js.truthy_num (offset filters));
    reflexivity.
Qed.

Lemma search_select_body (filters : SearchFilters) (hasFTSTable : bool) :
  source (search_select filters hasFTSTable)
  = (if Js.truthy (query filters) && hasFTSTable
     then FromJoinFts (text_of (query filters)) else FromSessions)
  /\ where_ (search_select filters hasFTSTable)
     = base_where filters hasFTSTable ++ extra_where filters.
Proof.
  unfold search_select, base_where, extra_where, tag_pattern.
  destruct (Js.truthy (query filters)), hasFTSTable, (Js.truthy (agentType filters)),
    (Js.truthy (projectContext filters)), (Js.truthy (dateFrom filters)),
    (Js.truthy (dateTo filters)), (filter_tags filters) as [[|tag tags']|],
    (Js.truthy_num (limit filters)), (Js.truthy_num (offset filters));
    split; reflexivity.
Qed.

Lemma searchSessions_opened (filters : SearchFilters) (d : Database) :
  searchSessions filters (opened d)
  = (run_select (search_select filters (checkFTSTableExists d)) d, opened d).
Proof. unfold searchSessions. now rewrite with_db_opened. Qed.

(** ** The fallback path *)

Lemma search_select_query_fallback (q : string) :
  q <> "" ->
  search_select (query_only q) false
  = {| source := FromSessions;
       where_ := [Or [Like ColTitle ("%" ++ q ++ "%")%string;
                      Like ColOriginalContent ("%" ++ q ++ "%")%string;
                      Like ColTags ("%" ++ q ++ "%")%string]];
       tail := [OrderBy ByCreatedAtDesc] |}.
Proof.
  intros Hq. unfold search_select.
  change (query (query_only q)) with (Some q).
  rewrite (truthy_nonempty q Hq). reflexivity.
Qed.

Lemma like_pattern_accepted (pattern : string) :
  (Sqlite.utf8_length pattern <= Sqlite.max_like_pattern_length)%Z ->
  Sqlite.like_pattern_too_complex pattern = false.
Proof.
  intros H. unfold Sqlite.like_pattern_too_complex. apply Z.ltb_ge. exact H.
Qed.

(** What [searchSessions] computes for a query alone on a store without
    the text-search table. *)
Lemma searchSessions_fallback (q : string) (d : Database) :
  chat_sessions_fts d = None ->
  q <> "" ->
  (Sqlite.utf8_length q <= 49998)%Z ->
  searchSessions (query_only q) (opened d)
  = (Returned (map plain
                 (order_by (search_select (query_only q) false)
                    (must_follow ByCreatedAtDesc)
                    (filter (like_hit q) (chat_sessions d)))),
     opened d).
Proof.
  intros Hfts Hq Hlen. rewrite searchSessions_opened.
  unfold checkFTSTableExists. rewrite Hfts.
  set (s := search_select (query_only q) false).
  assert (Hs : s = {| source := FromSessions;
                      where_ := [Or [Like ColTitle ("%" ++ q ++ "%")%string;
                                     Like ColOriginalContent ("%" ++ q ++ "%")%string;
                                     Like ColTags ("%" ++ q ++ "%")%string]];
                      tail := [OrderBy ByCreatedAtDesc] |})
    by (apply search_select_query_fallback; exact Hq).
  assert (Htail : tail s = [OrderBy ByCreatedAtDesc]) by (rewrite Hs; reflexivity).
  assert (Hsrc : source s = FromSessions) by (rewrite Hs; reflexivity).
  assert (Hw : where_ s = [Or [Like ColTitle ("%" ++ q ++ "%")%string;
                               Like ColOriginalContent ("%" ++ q ++ "%")%string;
                               Like ColTags ("%" ++ q ++ "%")%string]])
    by (rewrite Hs; reflexivity).
  clearbody s.
  unfold run_select. rewrite Htail, Hsrc. cbn [parse_tail].
  rewrite (select_rows_returns s ByCreatedAtDesc None None); [|rewrite Hw|exact I|exact I].
  - cbn [map_returned]. unfold paginate. do 3 f_equal. f_equal.
    apply filter_ext_In. intros r _. unfold keeps. rewrite Hw. cbn [forallb].
    unfold like_hit, on_column. simpl.
    rewrite orb_false_r, andb_true_r. now rewrite orb_assoc.
  - cbn [existsb too_complex].
    rewrite (like_pattern_accepted _ (between_percents q Hlen)). reflexivity.
Qed.

(** C3 (amended). On a store without the text-search table a search for a
    query alone that is not empty and has at most 49998 bytes returns, and
    what it returns are exactly the stored sessions whose title,
    original_content or serialized tags match the LIKE pattern made of
    the query between two percent signs, in descending order of
    created_at. When the query has no NUL character, these include every
    stored session whose original_content has the query, as it is
    written, before its first NUL character; when moreover the query has
    no percent sign and no underscore, they are exactly the sessions of
    which one of the three fields, read up to its first NUL character,
    contains the query up to the case of ASCII letters. *)
Theorem fallback_search (q : string) (d : Database) :
  chat_sessions_fts d = None ->
  q <> "" ->
  (Sqlite.utf8_length q <= 49998)%Z ->
  exists rs : list SearchResult,
    searchSessions (query_only q) (opened d) = (Returned rs, opened d)
    /\ (no_nul q = true ->
        forall r, In r (chat_sessions d) ->
                  occurs_in q (Sqlite.c_string (original_content r)) ->
                  In (plain r) rs)
    /\ (forall x, In x rs <->
                  exists r, x = plain r /\ In r (chat_sessions d) /\ like_hit q r = true)
    /\ (no_wildcard q = true -> no_nul q = true ->
        forall r, In r (chat_sessions d) ->
                  (In (plain r) rs <->
                   ci_contains q (Sqlite.c_string (title r))
                   || ci_contains q (Sqlite.c_string (original_content r))
                   || ci_contains q (Sqlite.c_string (tags r)) = true))
    /\ Sorted (fun a b => Sqlite.text_lt (created_at (session a)) (created_at (session b))
                          = false) rs.
Proof.
  intros Hfts Hq Hlen. eexists.
  split; [apply (searchSessions_fallback q d Hfts Hq Hlen)|].
  split; [|split; [|split]].
  - intros Hnul r Hr Hocc. apply In_plain, order_by_In, filter_In. split; [exact Hr|].
    unfold like_hit. rewrite (like_substring q (original_content r) Hlen Hnul Hocc).
    now rewrite orb_true_r.
  - intros x. rewrite in_map_iff. split.
    + intros [r [Hx Hr]]. apply order_by_In, filter_In in Hr as [Hr Hhit].
      exists r. now repeat split.
    + intros [r [Hx [Hr Hhit]]]. exists r. split; [now symmetry|].
      apply order_by_In, filter_In. now split.
  - intros Hnw Hnul r Hr. rewrite In_plain, order_by_In, filter_In. unfold like_hit.
    rewrite !(like_no_wildcard q _ Hlen Hnw Hnul). tauto.
  - apply (Sorted_map (Js.in_order (must_follow ByCreatedAtDesc))).
    + intros a b Hab. exact Hab.
    + apply order_by_sorted. apply must_follow_asym.
Qed.

(** ** Pagination *)

(** C5 (amended). When filters.limit is a positive integer, a search that
    returns gives at most filters.limit results, hence at most the smaller
    of filters.limit and 100 when the limit is one that
    [validateSearchParams] admits. *)
Theorem search_respects_limit
    (filters : SearchFilters) (n : Z) (this this' : DatabaseBetter)
    (rs : list SearchResult) :
  limit filters = Some n ->
  (0 < n)%Z ->
  searchSessions filters this = (Returned rs, this') ->
  (Z.of_nat (List.length rs) <= n)%Z
  /\ ((n <= max_limit)%Z -> (Z.of_nat (List.length rs) <= Z.min n max_limit)%Z).
Proof.
  intros Hlim Hn Hrun.
  assert (Hle : (Z.of_nat (List.length rs) <= n)%Z).
  { unfold searchSessions, with_db in Hrun.
    destruct (db this) as [d|]; [|discriminate].
    cbv zeta in Hrun. inversion Hrun as [[Hrs Hthis]].
    pose proof (search_select_tail filters (checkFTSTableExists d)) as Htail.
    rewrite Hlim in Htail. simpl Js.truthy_num in Htail.
    destruct (n =? 0)%Z eqn:Hz; [apply Z.eqb_eq in Hz; lia|].
    simpl negb in Htail. cbv iota in Htail. simpl num_of in Htail.
    destruct (run_select_sound _ d rs Hrs) as [_ Hlen].
    rewrite Htail in Hlen.
    destruct (Js.truthy_num (offset filters)).
    - eapply (Hlen _ n (Some (num_of (offset filters)))); [reflexivity|lia].
    - eapply (Hlen _ n None); [reflexivity|lia]. }
  split; [exact Hle|]. intros Hmax. lia.
Qed.

(** C9. For filters with a positive offset and a limit that is absent or
    zero, the statement that [searchSessions] builds ends with an OFFSET
    clause that no LIMIT clause precedes; the call throws the syntax error
    of the statement and leaves the store as it was. *)
Theorem offset_without_limit_fails (filters : SearchFilters) (m : Z) (d : Database) :
  offset filters = Some m ->
  (0 < m)%Z ->
  limit filters = None \/ limit filters = Some 0%Z ->
  (exists o, tail (search_select filters (checkFTSTableExists d)) = [OrderBy o; Offset m])
  /\ searchSessions filters (opened d)
     = (Thrown (SyntaxError "OFFSET") : outcome (list SearchResult), opened d).
Proof.
  intros Hoff Hm Hlim.
  pose proof (search_select_tail filters (checkFTSTableExists d)) as Htail.
  assert (Hl : Js.truthy_num (limit filters) = false)
    by (destruct Hlim as [H|H]; rewrite H; reflexivity).
  assert (Ho : Js.truthy_num (offset filters) = true).
  { rewrite Hoff. simpl. apply negb_true_iff, Z.eqb_neq. lia. }
  rewrite Hl, Ho, Hoff in Htail. simpl in Htail.
  split; [eexists; exact Htail|].
  rewrite searchSessions_opened.
  unfold run_select. rewrite Htail. reflexivity.
Qed.

(** X14. On either path, every result of a search that returns is a stored
    session that has the agent type and the project context of the
    filters and a created_at between dateFrom and dateTo, for each of
    these filters that is given and not empty; and the store is as it
    was. *)
Theorem search_results_satisfy_filters
    (filters : SearchFilters) (d : Database) (rs : list SearchResult)
    (this' : DatabaseBetter) :
  searchSessions filters (opened d) = (Returned rs, this') ->
  this' = opened d
  /\ forall x, In x rs ->
       In (session x) (chat_sessions d)
       /\ (Js.truthy (agentType filters) = true ->
           agent_type (session x) = text_of (agentType filters))
       /\ (Js.truthy (projectContext filters) = true ->
           project_context (session x) = Some (text_of (projectContext filters)))
       /\ (Js.truthy (dateFrom filters) = true ->
           Sqlite.text_le (text_of (dateFrom filters)) (created_at (session x)) = true)
       /\ (Js.truthy (dateTo filters) = true ->
           Sqlite.text_le (created_at (session x)) (text_of (dateTo filters)) = true).
Proof.
  rewrite searchSessions_opened.
  intros H. inversion H as [[Hrs Hthis]]. split; [reflexivity|].
  intros x Hx. destruct (run_select_sound _ d rs Hrs) as [Hsound _].
  destruct (Hsound x Hx) as [Hin Hc].
  split; [exact Hin|].
  destruct (search_select_body filters (checkFTSTableExists d)) as [_ Hw].
  rewrite Hw in Hc.
  assert (Hextra : forall e, In e (extra_where filters) -> eval e (session x) = true).
  { intros e He. apply Hc. apply in_or_app. now right. }
  unfold extra_where in Hextra.
  split; [|split; [|split]]; intros Ht; rewrite Ht in Hextra.
  - specialize (Hextra _ (or_introl eq_refl)). simpl in Hextra.
    now apply String.eqb_eq in Hextra.
  - assert (He : eval (Eq ColProjectContext (text_of (projectContext filters))) (session x)
                 = true).
    { apply Hextra. apply in_or_app. right. now left. }
    simpl in He. unfold on_column in He. simpl in He.
    destruct (project_context (session x)) as [p|]; [|discriminate].
    apply String.eqb_eq in He. now subst.
  - assert (He : eval (Ge ColCreatedAt (text_of (dateFrom filters))) (session x) = true).
    { apply Hextra. apply in_or_app. right. apply in_or_app. right. now left. }
    exact He.
  - assert (He : eval (Le ColCreatedAt (text_of (dateTo filters))) (session x) = true).
    { apply Hextra. do 3 (apply in_or_app; right). now left. }
    exact He.
Qed.

End SearchProperties.

(** ** The index at the store of one session *)

(** With the word index as engine, at the store of the one session titled
    Test Chat Session: an update to a title of four words fails in the
    trigger, which is to take four words from a column that holds three
    in all, and nothing of the update remains. *)
Lemma update_fails_in_trigger :
  updateSession (D := January2024) (F := WordEngine) "s1" four_words 9%Z
    (opened (one_session true))
  = (Thrown CorruptVtab, opened (one_session true)).
Proof. reflexivity. Qed.

(** An update to the title Renamed succeeds; the index then holds the
    words of both titles for the session, so that a search for a word of
    the old title still returns it, under its new title. *)
Lemma old_title_still_matches :
  fst (updateSession (D := January2024) (F := WordEngine) "s1" renamed 9%Z
         (opened (one_session true)))
  = Returned true
  /\ map (fun x => (id (session x), title (session x)))
       (match fst (searchSessions (F := WordEngine) (P := IndexScan) (query_only "test")
                     (snd (updateSession (D := January2024) (F := WordEngine) "s1" renamed
                             9%Z (opened (one_session true))))) with
        | Returned rs => rs
        | Thrown _ => []
        end)
     = [("s1", "Renamed")].
Proof. split; reflexivity. Qed.

(** ** The search at concrete stores *)

Lemma abc_occurs : occurs_in "bc" (Sqlite.c_string "abc").
Proof. exists ["a"%char], []. reflexivity. Qed.

Lemma fallback_search_witness :
  chat_sessions_fts abc_store = None
  /\ "bc" <> ""
  /\ (Sqlite.utf8_length "bc" <= 49998)%Z
  /\ exists rs : list (SearchResult (F := WordEngine)),
    searchSessions (P := IndexScan) (query_only "bc") (opened abc_store)
      = (Returned rs, opened abc_store)
    /\ (no_nul "bc" = true ->
        forall r, In r (chat_sessions abc_store) ->
                  occurs_in "bc" (Sqlite.c_string (original_content r)) ->
                  In (plain r) rs)
    /\ (forall x, In x rs <->
                  exists r, x = plain r /\ In r (chat_sessions abc_store)
                            /\ like_hit "bc" r = true)
    /\ (no_wildcard "bc" = true -> no_nul "bc" = true ->
        forall r, In r (chat_sessions abc_store) ->
                  (In (plain r) rs <->
                   ci_contains "bc" (Sqlite.c_string (title r))
                   || ci_contains "bc" (Sqlite.c_string (original_content r))
                   || ci_contains "bc" (Sqlite.c_string (tags r)) = true))
    /\ Sorted (fun a b => Sqlite.text_lt (created_at (session a)) (created_at (session b))
                          = false) rs.
Proof.
  split; [reflexivity|]. split; [discriminate|]. split; [vm_compute; discriminate|].
  apply (fallback_search (F := WordEngine) (P := IndexScan) "bc" abc_store);
    [reflexivity|discriminate|vm_compute; discriminate].
Defined.

(** C3, as first stated, fails twice. The query a_c is returned the
    session whose content is abc, although a_c occurs in none of its three
    fields, whatever the case of the letters. And the query bc is not
    returned the session whose content is the character a, a NUL and the
    characters bc, in which it occurs as it is written. *)
Lemma fallback_is_not_substring_match :
  ((exists rs : list (SearchResult (F := WordEngine)),
      searchSessions (P := IndexScan) (query_only "a_c") (opened abc_store)
        = (Returned rs, opened abc_store)
      /\ map (fun x => id (session x)) rs = ["s1"])
   /\ forall r, In r (chat_sessions abc_store) ->
        ci_contains "a_c" (title r) || ci_contains "a_c" (original_content r)
        || ci_contains "a_c" (tags r) = false)
  /\ (searchSessions (F := WordEngine) (P := IndexScan) (query_only "bc") (opened nul_store)
        = (Returned [], opened nul_store)
      /\ forall r, In r (chat_sessions nul_store) -> occurs_in "bc" (original_content r)).
Proof.
  split; split.
  - eexists. split; reflexivity.
  - intros r [Hr|[]]. subst r. reflexivity.
  - reflexivity.
  - intros r [Hr|[]]. subst r. exists ["a"%char; Sqlite.nul], []. reflexivity.
Qed.

Lemma search_respects_limit_witness :
  limit (with_limit 2) = Some 2%Z
  /\ (0 < 2)%Z
  /\ searchSessions (F := WordEngine) (P := IndexScan) (with_limit 2)
       (opened (many_sessions 5))
     = (Returned (map plain (firstn 2 (rev (chat_sessions (many_sessions 5))))),
        opened (many_sessions 5))
  /\ (Z.of_nat (List.length (map (plain (F := WordEngine))
                               (firstn 2 (rev (chat_sessions (many_sessions 5)))))) <= 2)%Z
  /\ ((2 <= max_limit)%Z ->
      (Z.of_nat (List.length (map (plain (F := WordEngine))
                                (firstn 2 (rev (chat_sessions (many_sessions 5))))))
       <= Z.min 2 max_limit)%Z).
Proof.
  split; [reflexivity|]. split; [lia|]. split; [reflexivity|].
  apply (search_respects_limit (F := WordEngine) (P := IndexScan) (with_limit 2) 2%Z
           (opened (many_sessions 5)) (opened (many_sessions 5))).
  - reflexivity.
  - lia.
  - reflexivity.
Defined.

Lemma offset_without_limit_fails_witness :
  offset (with_offset 3) = Some 3%Z
  /\ (0 < 3)%Z
  /\ (limit (with_offset 3) = None \/ limit (with_offset 3) = Some 0%Z)
  /\ (exists o, tail (search_select (with_offset 3)
                        (checkFTSTableExists (many_sessions 5)))
                = [OrderBy o; Offset 3%Z])
  /\ searchSessions (F := WordEngine) (P := IndexScan) (with_offset 3)
       (opened (many_sessions 5))
     = (Thrown (SyntaxError "OFFSET"), opened (many_sessions 5)).
Proof.
  split; [reflexivity|]. split; [lia|]. split; [now left|].
  apply (offset_without_limit_fails (F := WordEngine) (P := IndexScan)
           (with_offset 3) 3%Z (many_sessions 5)).
  - reflexivity.
  - lia.
  - now left.
Defined.

(** C5, as first stated, fails: with limit zero a search returns the one
    stored session, more than the smaller of 0 and 100; with no limit it
    returns all 101 stored sessions, more than 100. *)
Lemma search_exceeds_stated_cap :
  (exists rs : list (SearchResult (F := WordEngine)),
     searchSessions (P := IndexScan) (with_limit 0) (opened (many_sessions 1))
       = (Returned rs, opened (many_sessions 1))
     /\ (Z.of_nat (List.length rs) > Z.min 0 max_limit)%Z)
  /\ (exists rs : list (SearchResult (F := WordEngine)),
        searchSessions (P := IndexScan) no_filters (opened (many_sessions 101))
          = (Returned rs, opened (many_sessions 101))
        /\ (Z.of_nat (List.length rs) > max_limit)%Z).
Proof.
  split.
  - eexists. split; [reflexivity|]. vm_compute. reflexivity.
  - eexists. split; [reflexivity|]. vm_compute. reflexivity.
Qed.

Lemma search_results_satisfy_filters_witness :
  searchSessions (F := WordEngine) (P := IndexScan)
    (mkSearchFilters (Some "postgres") (Some "other") (Some "test-project") None
                     (Some "2024-01-01") (Some "2024-02-01") (Some 5%Z) None)
    (opened (one_session false))
  = (Returned [plain (sample_row "s1" 5)], opened (one_session false))
  /\ opened (one_session false) = opened (one_session false)
  /\ forall x, In x [plain (F := WordEngine) (sample_row "s1" 5)] ->
       In (session x) (chat_sessions (one_session false))
       /\ (Js.truthy (Some "other") = true -> agent_type (session x) = "other")
       /\ (Js.truthy (Some "test-project") = true ->
           project_context (session x) = Some "test-project")
       /\ (Js.truthy (Some "2024-01-01") = true ->
           Sqlite.text_le "2024-01-01" (created_at (session x)) = true)
       /\ (Js.truthy (Some "2024-02-01") = true ->
           Sqlite.text_le (created_at (session x)) "2024-02-01" = true).
Proof.
  split; [reflexivity|].
  apply (search_results_satisfy_filters (F := WordEngine) (P := IndexScan)
           (mkSearchFilters (Some "postgres") (Some "other") (Some "test-project") None
                            (Some "2024-01-01") (Some "2024-02-01") (Some 5%Z) None)
           (one_session false)).
  reflexivity.
Defined.

(** At the store with one indexed session: deleting the session takes it
    from the table and leaves its entry in the index; with the word
    index as engine, the search for a word of its title that returned
    the session before the delete throws after it, where the
    specification has an empty result. *)
Lemma deleted_session_stays_indexed_witness :
  NoDup (map id (chat_sessions (one_session true)))
  /\ (exists d' : Database,
        deleteSession "s1" (opened (one_session true))
          = (Returned (existsb (has_id "s1") (chat_sessions (one_session true))), opened d')
        /\ (forall r, In r (chat_sessions d') <->
                      In r (chat_sessions (one_session true)) /\ id r <> "s1")
        /\ chat_sessions_fts d' = chat_sessions_fts (one_session true))
  /\ map (fun x => id (session x))
       (match fst (searchSessions (F := WordEngine) (P := IndexScan) (query_only "chat")
                     (opened (one_session true))) with
        | Returned rs => rs
        | Thrown _ => []
        end) = ["s1"]
  /\ fst (searchSessions (F := WordEngine) (P := IndexScan) (query_only "chat")
            (snd (deleteSession "s1" (opened (one_session true)))))
     = Thrown CorruptVtab.
Proof.
  assert (Hnd : NoDup (map id (chat_sessions (one_session true)))).
  { simpl. constructor; [intros []|constructor]. }
  split; [exact Hnd|]. split; [|split; reflexivity].
  apply (deleted_session_stays_indexed "s1" (one_session true)). exact Hnd.
Defined.

(** ** Key terms *)

Lemma extractKeyTerms_at_most_8 (content : string) :
  (List.length (KeyTerms.extractKeyTermsFromContent content) <= 8)%nat.
Proof.
  unfold KeyTerms.extractKeyTermsFromContent, Js.slice0.
  rewrite length_map. apply firstn_le_length.
Qed.

Lemma extractKeyTerms_no_words (content : string) :
  KeyTerms.words_of content = [] ->
  KeyTerms.extractKeyTermsFromContent content = [].
Proof.
  intros H. unfold KeyTerms.extractKeyTermsFromContent. rewrite H. reflexivity.
Qed.

Section SimilarProperties.
Context {F : Fts5} {P : Planner}.

(** X19. Without a qualifying token [findSimilarSessions] returns the empty
    list and issues no statement. *)
Lemma findSimilar_no_words (content : string) (limit : Z) (d : Database) :
  KeyTerms.words_of content = [] ->
  findSimilarSessions content limit (opened d) = (Returned [], opened d).
Proof.
  intros H. unfold findSimilarSessions. rewrite with_db_opened.
  rewrite (extractKeyTerms_no_words content H). reflexivity.
Qed.

(** The two statements of [findSimilarSessions]: one MATCH argument that
    joins the terms with OR, or one group of three LIKE predicates for
    each term. *)
Lemma similar_select_shape (keyTerms : list string) (limit : Z) :
  source (similar_select true keyTerms limit) = FromJoinFts (Js.join " OR " keyTerms)
  /\ where_ (similar_select false keyTerms limit)
     = [Or (map (fun term =>
                   Or [Like ColTitle ("%" ++ term ++ "%")%string;
                       Like ColOriginalContent ("%" ++ term ++ "%")%string;
                       Like ColTags ("%" ++ term ++ "%")%string]) keyTerms)].
Proof. split; reflexivity. Qed.

End SimilarProperties.

(** C7. On the text of ten qualifying tokens in which [constructor]
    occurs twice and eight other tokens once each, all ten tokens pass the
    two filters, the value kept for [constructor] is a string and not a
    count, and the eight terms returned are the eight tokens of frequency
    one: the most frequent token is not among them. *)
Theorem key_terms_miss_most_frequent :
  KeyTerms.words_of constructor_text
    = ["aaaa"; "bbbb"; "cccc"; "dddd"; "eeee"; "ffff"; "gggg"; "hhhh";
       "constructor"; "constructor"]
  /\ occurrences "constructor" (KeyTerms.words_of constructor_text) = 2%nat
  /\ KeyTerms.own (KeyTerms.count_words (KeyTerms.words_of constructor_text)) "constructor"
    = Some (KeyTerms.Str "function Object() { [native code] }11")
  /\ KeyTerms.extractKeyTermsFromContent constructor_text
    = ["aaaa"; "bbbb"; "cccc"; "dddd"; "eeee"; "ffff"; "gggg"; "hhhh"]
  /\ (forall t, In t (KeyTerms.extractKeyTermsFromContent constructor_text) ->
                occurrences t (KeyTerms.words_of constructor_text) = 1%nat).
Proof.
  split; [vm_compute; reflexivity|]. split; [vm_compute; reflexivity|].
  split; [vm_compute; reflexivity|]. split; [vm_compute; reflexivity|].
  intros t Ht.
  assert (Hterms : KeyTerms.extractKeyTermsFromContent constructor_text
                   = ["aaaa"; "bbbb"; "cccc"; "dddd"; "eeee"; "ffff"; "gggg"; "hhhh"])
    by (vm_compute; reflexivity).
  rewrite Hterms in Ht. simpl in Ht.
  repeat (destruct Ht as [Ht|Ht]; [subst t; vm_compute; reflexivity|]).
  contradiction.
Qed.

(** ** Key topics *)

Lemma extractKeyTopics_at_most_20 (content : string) :
  (List.length (ChatContentProcessor.extractKeyTopics content) <= 20)%nat.
Proof.
  unfold ChatContentProcessor.extractKeyTopics, Js.slice0. apply firstn_le_length.
Qed.

(** C8. For the text that is one quoted term of thirty characters, the
    pattern for quoted terms matches the term, and [extractKeyTopics]
    returns no topic; the quoted term of twenty-nine characters is
    returned. *)
Theorem key_topics_miss_thirty_characters :
  String.length thirty = 30%nat
  /\ ChatContentProcessor.quotedTerms quoted_thirty = [quoted_thirty]
  /\ ChatContentProcessor.extractKeyTopics quoted_thirty = []
  /\ ChatContentProcessor.extractKeyTopics quoted_twenty_nine = [twenty_nine].
Proof.
  split; [reflexivity|]. split; [vm_compute; reflexivity|].
  split; vm_compute; reflexivity.
Qed.

(** ** Ranking by frequency, for tokens that are not inherited keys *)

Module KeyTermsFacts.
Import KeyTerms.

Lemma own_overwrite (o : JsObject) (k : string) (v : JsValue) (k' : string) :
  own (overwrite o k v) k' = if k =? k' then Some v else own o k'.
Proof.
  induction o as [|[k0 w] o IH]; simpl; [reflexivity|].
  destruct (k0 =? k) eqn:H0; simpl.
  - apply String.eqb_eq in H0. subst k0. now destruct (k =? k').
  - rewrite IH. destruct (k0 =? k') eqn:H1; [|reflexivity].
    apply String.eqb_eq in H1. subst k0.
    rewrite String.eqb_sym in H0. now rewrite H0.
Qed.

Lemma own_None (o : JsObject) (k : string) :
  own o k = None <-> ~ In k (map fst o).
Proof.
  induction o as [|[k0 w] o IH]; simpl; [tauto|].
  destruct (k0 =? k) eqn:H0.
  - apply String.eqb_eq in H0. split; [discriminate|]. intros H. exfalso. apply H. now left.
  - apply String.eqb_neq in H0. rewrite IH. tauto.
Qed.

Lemma keys_overwrite_old (o : JsObject) (k : string) (v : JsValue) :
  In k (map fst o) -> map fst (overwrite o k v) = map fst o.
Proof.
  induction o as [|[k0 w] o IH]; simpl; [contradiction|].
  intros Hin. destruct (k0 =? k) eqn:H0; simpl; [reflexivity|].
  f_equal. apply IH. destruct Hin as [Hin|Hin]; [|exact Hin].
  apply String.eqb_neq in H0. contradiction.
Qed.

Lemma keys_overwrite_new (o : JsObject) (k : string) (v : JsValue) :
  ~ In k (map fst o) -> map fst (overwrite o k v) = map fst o ++ [k].
Proof.
  induction o as [|[k0 w] o IH]; simpl; [reflexivity|].
  intros Hout. destruct (k0 =? k) eqn:H0; simpl.
  - apply String.eqb_eq in H0. exfalso. apply Hout. now left.
  - f_equal. apply IH. intros Hin. apply Hout. now right.
Qed.

Lemma In_own (o : JsObject) (k : string) (v : JsValue) :
  NoDup (map fst o) -> (In (k, v) o <-> own o k = Some v).
Proof.
  induction o as [|[k0 w] o IH]; simpl; intros Hnd.
  - split; [contradiction|discriminate].
  - inversion Hnd as [|? ? Hk0 Ho]; subst.
    destruct (k0 =? k) eqn:H0.
    + apply String.eqb_eq in H0. subst k0. split.
      * intros [Heq|Hin]; [congruence|].
        exfalso. apply Hk0. apply in_map_iff. now exists (k, v).
      * intros Heq. left. congruence.
    + apply String.eqb_neq in H0. rewrite <- (IH Ho). split.
      * intros [Heq|Hin]; [congruence|exact Hin].
      * intros Hin. now right.
Qed.

Lemma inherited_not_proto (w : string) : inherited w = None -> (w =? "__proto__") = false.
Proof. unfold inherited. destruct (w =? "__proto__"); [discriminate|reflexivity]. Qed.

Lemma occurrences_snoc (w w' : string) (ws : list string) :
  occurrences w' (ws ++ [w])
  = Nat.add (occurrences w' ws) (if w =? w' then 1%nat else 0%nat).
Proof.
  unfold occurrences. rewrite count_occ_app. simpl.
  destruct (string_dec w w') as [He|Hne].
  - subst. now rewrite String.eqb_refl.
  - apply String.eqb_neq in Hne. now rewrite Hne.
Qed.

(** Counting one more token keeps the tally. *)
Lemma tally_step (ws : list string) (o : JsObject) (w : string) :
  tally ws o -> inherited w = None ->
  tally (ws ++ [w]) (put o w (incremented o w)).
Proof.
  intros [Hnd Hown] Hinh. unfold put. rewrite (inherited_not_proto w Hinh).
  split.
  - destruct (own o w) eqn:Hw.
    + rewrite keys_overwrite_old; [exact Hnd|].
      destruct (in_dec string_dec w (map fst o)) as [Hin|Hout]; [exact Hin|].
      apply own_None in Hout. congruence.
    + apply own_None in Hw. rewrite keys_overwrite_new by exact Hw.
      apply NoDup_app; [exact Hnd|repeat constructor; intros []|].
      intros k Hk [Hk'|[]]. subst k. contradiction.
  - intros w'. rewrite own_overwrite, occurrences_snoc.
    destruct (w =? w') eqn:Hww.
    + apply String.eqb_eq in Hww. subst w'.
      unfold incremented. rewrite (Hown w), Hinh.
      destruct (occurrences w ws) as [|n]; simpl; [reflexivity|].
      do 2 f_equal; lia.
    + rewrite (Hown w'). rewrite Nat.add_0_r. reflexivity.
Qed.

Lemma tally_fold (ws' ws : list string) (o : JsObject) :
  tally ws o ->
  (forall w, In w ws' -> inherited w = None) ->
  tally (ws ++ ws')
        (fold_left (fun wordCount word => put wordCount word (incremented wordCount word))
                   ws' o).
Proof.
  revert ws o. induction ws' as [|w ws' IH]; intros ws o Ht Hinh; simpl.
  - now rewrite app_nil_r.
  - replace (ws ++ w :: ws') with ((ws ++ [w]) ++ ws')
      by (rewrite <- app_assoc; reflexivity).
    apply IH.
    + apply tally_step; [exact Ht|]. apply Hinh. now left.
    + intros w' Hw'. apply Hinh. now right.
Qed.

Lemma tally_count_words (ws : list string) :
  (forall w, In w ws -> inherited w = None) -> tally ws (count_words ws).
Proof.
  intros Hinh. apply (tally_fold ws [] []); [|exact Hinh].
  split; [constructor|]. intros w. reflexivity.
Qed.

Lemma filter_split_perm {A : Type} (f : A -> bool) (l : list A) :
  Permutation (filter f l ++ filter (fun x => negb (f x)) l) l.
Proof.
  induction l as [|x l IH]; simpl; [constructor|].
  destruct (f x); simpl.
  - now constructor.
  - apply Permutation_sym, Permutation_cons_app, Permutation_sym, IH.
Qed.

Lemma entries_perm (o : JsObject) : Permutation (entries o) o.
Proof.
  unfold entries.
  eapply Permutation_trans; [|apply (filter_split_perm is_index o)].
  apply Permutation_app_tail, sort_by_perm.
Qed.

Lemma by_count_desc_asym (a b : string * JsValue) :
  by_count_desc a b = true -> by_count_desc b a = false.
Proof.
  unfold by_count_desc. destruct (snd a), (snd b); try discriminate; try reflexivity.
  intros H. apply Nat.ltb_lt in H. apply Nat.ltb_ge. lia.
Qed.

Lemma in_order_counts (a b : string * JsValue) :
  is_num a -> is_num b -> Js.in_order by_count_desc a b -> (counted b <= counted a)%nat.
Proof.
  intros [n Ha] [m Hb]. unfold Js.in_order, by_count_desc, counted. rewrite Ha, Hb.
  intros H. now apply Nat.ltb_ge in H.
Qed.

Lemma sorted_counts (l : list (string * JsValue)) :
  Forall is_num l ->
  Sorted (Js.in_order by_count_desc) l ->
  StronglySorted (fun a b => (counted b <= counted a)%nat) l.
Proof.
  intros Hnum Hs. apply Sorted_StronglySorted.
  - intros a b c Hab Hbc. lia.
  - induction Hs as [|a l Hl IH Hhd]; [constructor|].
    inversion Hnum as [|? ? Ha Hl']; subst.
    constructor; [now apply IH|].
    destruct Hhd as [|b l Hab]; constructor.
    inversion Hl' as [|? ? Hb _]; subst. now apply in_order_counts.
Qed.

Lemma strongly_sorted_app {A : Type} (R : A -> A -> Prop) (l1 l2 : list A) :
  StronglySorted R (l1 ++ l2) ->
  forall a b, In a l1 -> In b l2 -> R a b.
Proof.
  induction l1 as [|x l1 IH]; simpl; intros Hs a b Ha Hb; [contradiction|].
  inversion Hs as [|? ? Hs' Hall]; subst.
  destruct Ha as [Ha|Ha].
  - subst x. rewrite Forall_forall in Hall. apply Hall. apply in_or_app. now right.
  - now apply IH.
Qed.

(** X18. When no qualifying token is a key that an object literal inherits,
    the terms returned are distinct qualifying tokens, every token that is
    left out occurs at most as often as every term returned, and no token
    is left out when fewer than eight terms are returned. *)
Lemma key_terms_ranked (content : string) :
  let ws := words_of content in
  let terms := extractKeyTermsFromContent content in
  (forall w, In w ws -> inherited w = None) ->
  (forall t, In t terms -> In t ws)
  /\ NoDup terms
  /\ (forall t w, In t terms -> In w ws -> ~ In w terms ->
                  (occurrences w ws <= occurrences t ws)%nat)
  /\ ((List.length terms < 8)%nat -> forall w, In w ws -> In w terms).
Proof.
  intros ws terms Hinh.
  destruct (tally_count_words ws Hinh) as [Hnd Hown].
  set (o := count_words ws) in *.
  set (sorted := Js.sort_by by_count_desc (entries o)).
  assert (Hperm : Permutation sorted o).
  { eapply Permutation_trans; [apply sort_by_perm|apply entries_perm]. }
  assert (Hval : forall kv, In kv sorted ->
                   In (fst kv) ws /\ snd kv = Num (occurrences (fst kv) ws)).
  { intros [k v] Hin. apply (Permutation_in _ Hperm) in Hin.
    apply (In_own o k v Hnd) in Hin. rewrite Hown in Hin. simpl.
    destruct (occurrences k ws) as [|n] eqn:Hocc; [discriminate|].
    split; [|congruence].
    apply (count_occ_In string_dec). unfold occurrences in Hocc. lia. }
  assert (Hin_sorted : forall w, In w ws -> In (w, Num (occurrences w ws)) sorted).
  { intros w Hw. apply (Permutation_in _ (Permutation_sym Hperm)).
    apply (In_own o w _ Hnd). rewrite Hown.
    pose proof (proj1 (count_occ_In string_dec ws w) Hw) as Hpos.
    unfold occurrences. destruct (count_occ string_dec ws w); [lia|reflexivity]. }
  assert (Hss : StronglySorted (fun a b => (counted b <= counted a)%nat) sorted).
  { apply sorted_counts.
    - apply Forall_forall. intros kv Hkv. destruct (Hval kv Hkv) as [_ Hv].
      exists (occurrences (fst kv) ws). exact Hv.
    - apply sort_by_sorted, by_count_desc_asym. }
  assert (Hterms : terms = map fst (firstn 8 sorted)) by reflexivity.
  assert (Hsplit : sorted = firstn 8 sorted ++ skipn 8 sorted)
    by (symmetry; apply firstn_skipn).
  assert (Hkeys : NoDup (map fst sorted)).
  { apply (Permutation_NoDup (l := map fst o)); [|exact Hnd].
    apply Permutation_map, Permutation_sym, Hperm. }
  split; [|split; [|split]].
  - intros t Ht. rewrite Hterms in Ht. apply in_map_iff in Ht as [kv [Hk Hin]].
    subst t. apply Hval. rewrite Hsplit. apply in_or_app. now left.
  - rewrite Hterms. rewrite Hsplit, map_app in Hkeys.
    now apply NoDup_app_remove_r in Hkeys.
  - intros t w Ht Hw Hout. rewrite Hterms in Ht, Hout.
    apply in_map_iff in Ht as [kt [Hk Hint]]. subst t.
    pose proof (Hin_sorted w Hw) as Hwin. rewrite Hsplit in Hwin.
    apply in_app_or in Hwin as [Hwin|Hwin].
    + exfalso. apply Hout. apply in_map_iff. now exists (w, Num (occurrences w ws)).
    + rewrite Hsplit in Hss.
      pose proof (strongly_sorted_app _ _ _ Hss kt _ Hint Hwin) as Hle.
      assert (Hkt : In kt sorted) by (rewrite Hsplit; apply in_or_app; now left).
      destruct (Hval kt Hkt) as [_ Hv].
      unfold counted in Hle. simpl in Hle. now rewrite Hv in Hle.
  - intros Hlen w Hw. rewrite Hterms in *. rewrite length_map in Hlen.
    assert (Hall : firstn 8 sorted = sorted).
    { apply firstn_all2. rewrite length_firstn in Hlen. lia. }
    rewrite Hall. apply in_map_iff. exists (w, Num (occurrences w ws)).
    split; [reflexivity|now apply Hin_sorted].
Qed.

End KeyTermsFacts.

(* ===================================================================== *)
(** * Listings and statistics *)
(* ===================================================================== *)

Section ListingProperties.
Context {P : Planner}.

(** What [ORDER BY created_at DESC LIMIT n] gives on [rows]. *)
Lemma listing (s : Select) (n : Z) (rows : list ChatSession) :
  let rs := paginate (Some n) None (order_by s (must_follow ByCreatedAtDesc) rows) in
  ((0 <= n)%Z -> (Z.of_nat (List.length rs) <= n)%Z)
  /\ (forall r, In r rs -> In r rows)
  /\ Sorted (fun a b => Sqlite.text_lt (created_at a) (created_at b) = false) rs
  /\ ((n < 0)%Z \/ (Z.of_nat (List.length rows) <= n)%Z -> forall r, In r rows -> In r rs).
Proof.
  intros rs. subst rs. split; [|split; [|split]].
  - intros Hn. now apply paginate_limit.
  - intros r Hr. now apply In_paginate, order_by_In in Hr.
  - apply (Sorted_paginate (Js.in_order (must_follow ByCreatedAtDesc))).
    apply order_by_sorted. apply must_follow_asym.
  - intros H r Hr. rewrite paginate_all; [now apply order_by_In|].
    now rewrite order_by_length.
Qed.

(** A listing statement without LIKE and with a limit in range returns
    its page. *)
Lemma run_rows_listing (s : Select) (n : Z) (d : Database) :
  tail s = [OrderBy ByCreatedAtDesc; Limit n] ->
  existsb too_complex (where_ s) = false ->
  in_bounds n ->
  run_rows s d
  = Returned (paginate (Some n) None
                (order_by s (must_follow ByCreatedAtDesc)
                   (filter (keeps s) (chat_sessions d)))).
Proof.
  intros Ht Hc Hn. unfold run_rows. rewrite Ht. cbn [parse_tail].
  now apply select_rows_returns.
Qed.

(** X9. For a limit (10 when omitted) that is a whole number strictly
    between -2^63 and 2^63, [getRecentSessions] returns stored sessions,
    all of the given agent type when one is given and not empty, in
    descending order of created_at; at most [limit] of them for a limit
    that is not negative, and all of them when the limit is negative or
    not below the number of stored sessions. *)
Theorem getRecentSessions_lists (limit : option Z) (agentType : option string)
    (d : Database) :
  let n := match limit with Some n => n | None => 10%Z end in
  let wanted := fun r =>
    if Js.truthy agentType then agent_type r =? text_of agentType else true in
  in_bounds n ->
  exists rs : list ChatSession,
    getRecentSessions limit agentType (opened d) = (Returned rs, opened d)
    /\ ((0 <= n)%Z -> (Z.of_nat (List.length rs) <= n)%Z)
    /\ (forall r, In r rs -> In r (chat_sessions d) /\ wanted r = true)
    /\ Sorted (fun a b => Sqlite.text_lt (created_at a) (created_at b) = false) rs
    /\ ((n < 0)%Z \/ (Z.of_nat (List.length (chat_sessions d)) <= n)%Z ->
        forall r, In r (chat_sessions d) -> wanted r = true -> In r rs).
Proof.
  intros n wanted Hb. unfold getRecentSessions. rewrite with_db_opened. cbv zeta.
  fold n.
  set (s := append_clause _ (Limit n)).
  assert (Ht : tail s = [OrderBy ByCreatedAtDesc; Limit n])
    by (subst s; destruct (Js.truthy agentType); reflexivity).
  assert (Hc : existsb too_complex (where_ s) = false)
    by (subst s; destruct (Js.truthy agentType); reflexivity).
  assert (Hk : forall r, keeps s r = wanted r).
  { intros r. subst s wanted. unfold keeps. destruct (Js.truthy agentType); simpl.
    - unfold on_column. simpl. apply andb_true_r.
    - reflexivity. }
  rewrite (run_rows_listing s n d Ht Hc Hb). clearbody s.
  set (rows := filter (keeps s) (chat_sessions d)).
  assert (Hrows : forall r, In r rows <-> In r (chat_sessions d) /\ wanted r = true).
  { intros r. subst rows. rewrite filter_In, Hk. reflexivity. }
  assert (Hlen : (List.length rows <= List.length (chat_sessions d))%nat)
    by apply length_filter_le.
  destruct (listing s n rows) as [H1 [H2 [H3 H4]]].
  eexists. split; [reflexivity|]. split; [exact H1|]. split; [|split].
  - intros r Hr. apply Hrows. now apply H2.
  - exact H3.
  - intros Hn r Hr Hw. apply H4; [|now apply Hrows]. lia.
Qed.

(** X10. For a limit (20 when omitted) that is a whole number strictly
    between -2^63 and 2^63, [getSessionsByAgent] returns the stored
    sessions of the agent id in descending order of created_at; at most
    [limit] of them for a limit that is not negative, and all of them
    when the limit is negative or not below the number of stored
    sessions. *)
Theorem getSessionsByAgent_lists (agentId : string) (limit : option Z) (d : Database) :
  let n := match limit with Some n => n | None => 20%Z end in
  in_bounds n ->
  exists rs : list ChatSession,
    getSessionsByAgent agentId limit (opened d) = (Returned rs, opened d)
    /\ ((0 <= n)%Z -> (Z.of_nat (List.length rs) <= n)%Z)
    /\ (forall r, In r rs -> In r (chat_sessions d) /\ agent_id r = agentId)
    /\ Sorted (fun a b => Sqlite.text_lt (created_at a) (created_at b) = false) rs
    /\ ((n < 0)%Z \/ (Z.of_nat (List.length (chat_sessions d)) <= n)%Z ->
        forall r, In r (chat_sessions d) -> agent_id r = agentId -> In r rs).
Proof.
  intros n Hb. unfold getSessionsByAgent. rewrite with_db_opened. cbv zeta.
  fold n.
  set (s := {| source := FromSessions; where_ := [Eq ColAgentId agentId];
               tail := [OrderBy ByCreatedAtDesc; Limit n] |}).
  rewrite (run_rows_listing s n d eq_refl eq_refl Hb).
  set (rows := filter (keeps s) (chat_sessions d)).
  assert (Hrows : forall r, In r rows <-> In r (chat_sessions d) /\ agent_id r = agentId).
  { intros r. subst rows. rewrite filter_In.
    assert (Hk : keeps s r = (agent_id r =? agentId))
      by (unfold keeps, on_column; cbn [s where_ forallb eval column]; apply andb_true_r).
    rewrite Hk, String.eqb_eq. reflexivity. }
  assert (Hlen : (List.length rows <= List.length (chat_sessions d))%nat)
    by apply length_filter_le.
  destruct (listing s n rows) as [H1 [H2 [H3 H4]]].
  eexists. split; [reflexivity|]. split; [exact H1|]. split; [|split].
  - intros r Hr. apply Hrows. now apply H2.
  - exact H3.
  - intros Hn r Hr Hw. apply H4; [|now apply Hrows]. lia.
Qed.

End ListingProperties.

Lemma in_bounds_small (n : Z) : (-1000 <= n <= 1000)%Z -> in_bounds n.
Proof. unfold in_bounds. intros H. split; [|]; lia. Qed.

Lemma getRecentSessions_lists_witness :
  in_bounds 2
  /\ exists rs : list ChatSession,
       getRecentSessions (P := IndexScan) (Some 2%Z) (Some "other") (opened two_sessions)
       = (Returned rs, opened two_sessions)
       /\ ((0 <= 2)%Z -> (Z.of_nat (List.length rs) <= 2)%Z)
       /\ (forall r, In r rs ->
             In r (chat_sessions two_sessions)
             /\ (if Js.truthy (Some "other") then agent_type r =? text_of (Some "other")
                 else true) = true)
       /\ Sorted (fun a b => Sqlite.text_lt (created_at a) (created_at b) = false) rs
       /\ ((2 < 0)%Z \/ (Z.of_nat (List.length (chat_sessions two_sessions)) <= 2)%Z ->
           forall r, In r (chat_sessions two_sessions) ->
                     (if Js.truthy (Some "other") then agent_type r =? text_of (Some "other")
                      else true) = true ->
                     In r rs).
Proof.
  assert (Hb : in_bounds 2) by (apply in_bounds_small; lia).
  split; [exact Hb|].
  apply (getRecentSessions_lists (P := IndexScan) (Some 2%Z) (Some "other") two_sessions Hb).
Defined.

Lemma getSessionsByAgent_lists_witness :
  in_bounds 20
  /\ exists rs : list ChatSession,
       getSessionsByAgent (P := IndexScan) "test-agent-001" None (opened two_sessions)
       = (Returned rs, opened two_sessions)
       /\ ((0 <= 20)%Z -> (Z.of_nat (List.length rs) <= 20)%Z)
       /\ (forall r, In r rs ->
             In r (chat_sessions two_sessions) /\ agent_id r = "test-agent-001")
       /\ Sorted (fun a b => Sqlite.text_lt (created_at a) (created_at b) = false) rs
       /\ ((20 < 0)%Z \/ (Z.of_nat (List.length (chat_sessions two_sessions)) <= 20)%Z ->
           forall r, In r (chat_sessions two_sessions) -> agent_id r = "test-agent-001" ->
                     In r rs).
Proof.
  assert (Hb : in_bounds 20) by (apply in_bounds_small; lia).
  split; [exact Hb|].
  apply (getSessionsByAgent_lists (P := IndexScan) "test-agent-001" None two_sessions Hb).
Defined.

(** ** Statistics *)

Lemma own_put_other (o : KeyTerms.JsObject) (k k' : string) (v : KeyTerms.JsValue) :
  k' <> k -> KeyTerms.own (KeyTerms.put o k' v) k = KeyTerms.own o k.
Proof.
  intros Hne. unfold KeyTerms.put. destruct (k' =? "__proto__"); [reflexivity|].
  rewrite KeyTermsFacts.own_overwrite. apply String.eqb_neq in Hne. now rewrite Hne.
Qed.

Lemma own_fold_absent (rows : list (string * nat)) (o : KeyTerms.JsObject) (k : string) :
  ~ In k (map fst rows) ->
  KeyTerms.own (fold_left (fun record row =>
                  KeyTerms.put record (fst row) (KeyTerms.Num (snd row))) rows o) k
  = KeyTerms.own o k.
Proof.
  revert o. induction rows as [|[k' n] rows IH]; intros o Hout; simpl; [reflexivity|].
  rewrite IH by (intros Hin; apply Hout; now right).
  apply own_put_other. intros Heq. apply Hout. now left.
Qed.

Lemma own_fold_present (rows : list (string * nat)) (o : KeyTerms.JsObject)
    (k : string) (n : nat) :
  NoDup (map fst rows) -> In (k, n) rows -> k <> "__proto__" ->
  KeyTerms.own (fold_left (fun record row =>
                  KeyTerms.put record (fst row) (KeyTerms.Num (snd row))) rows o) k
  = Some (KeyTerms.Num n).
Proof.
  revert o. induction rows as [|[k' n'] rows IH]; intros o Hnd Hin Hk; [contradiction|].
  simpl in Hnd. inversion Hnd as [|? ? Hout Hrest]; subst. simpl.
  destruct Hin as [Heq|Hin].
  - inversion Heq; subst. rewrite own_fold_absent by exact Hout.
    unfold KeyTerms.put. apply String.eqb_neq in Hk. rewrite Hk.
    rewrite KeyTermsFacts.own_overwrite. now rewrite String.eqb_refl.
  - now apply IH.
Qed.

Lemma own_fold_proto (rows : list (string * nat)) (o : KeyTerms.JsObject) :
  KeyTerms.own (fold_left (fun record row =>
                  KeyTerms.put record (fst row) (KeyTerms.Num (snd row))) rows o)
               "__proto__"
  = KeyTerms.own o "__proto__".
Proof.
  revert o. induction rows as [|[k' n] rows IH]; intros o; simpl; [reflexivity|].
  rewrite IH. unfold KeyTerms.put. simpl fst.
  destruct (k' =? "__proto__") eqn:Hk; [reflexivity|].
  rewrite KeyTermsFacts.own_overwrite. now rewrite Hk.
Qed.

Lemma group_count_keys (keys : list string) :
  NoDup (map fst (group_count keys))
  /\ forall k, In k (map fst (group_count keys)) <-> In k keys.
Proof.
  unfold group_count. rewrite map_map. simpl. rewrite map_id. split.
  - apply (Permutation_NoDup (l := nodup string_dec keys)).
    + apply Permutation_sym, sort_by_perm.
    + apply NoDup_nodup.
  - intros k. rewrite sort_by_In. apply nodup_In.
Qed.

(** The record made of the groups holds, for every key but [__proto__],
    the number of times the key occurs, and nothing for a key that does
    not occur. *)
Lemma own_group_record (keys : list string) (k : string) :
  k <> "__proto__" ->
  KeyTerms.own (to_record (group_count keys)) k
  = match count_occ string_dec keys k with
    | O => None
    | S n => Some (KeyTerms.Num (S n))
    end.
Proof.
  intros Hk. destruct (group_count_keys keys) as [Hnd Hin]. unfold to_record.
  destruct (count_occ string_dec keys k) as [|n] eqn:Hc.
  - rewrite own_fold_absent; [reflexivity|].
    rewrite Hin. intros Hk'. apply (count_occ_In string_dec) in Hk'. lia.
  - apply own_fold_present; [exact Hnd| |exact Hk].
    unfold group_count. apply in_map_iff. exists k. split; [now rewrite Hc|].
    apply sort_by_In, nodup_In. apply (count_occ_In string_dec). lia.
Qed.

Lemma count_occ_map_filter (f : ChatSession -> string) (l : list ChatSession) (k : string) :
  count_occ string_dec (map f l) k = List.length (filter (fun r => f r =? k) l).
Proof.
  induction l as [|x l IH]; simpl; [reflexivity|].
  destruct (string_dec (f x) k) as [He|Hne].
  - rewrite He, String.eqb_refl. simpl. now rewrite IH.
  - apply String.eqb_neq in Hne. now rewrite Hne.
Qed.

Lemma count_occ_project_keys (l : list ChatSession) (k : string) :
  count_occ string_dec (project_keys l) k = List.length (filter (project_is k) l).
Proof.
  unfold project_keys, project_is. induction l as [|x l IH]; simpl; [reflexivity|].
  destruct (project_context x) as [p|]; simpl; [|exact IH].
  destruct (string_dec p k) as [He|Hne].
  - rewrite He, String.eqb_refl. simpl. now rewrite IH.
  - apply String.eqb_neq in Hne. now rewrite Hne.
Qed.

(** X11. [getSessionStats] returns the number of stored sessions; its
    record by agent type holds, under every key but [__proto__], the
    number of sessions of that agent type, and its record by project the
    number of sessions of that project, a key without sessions being
    absent; sessions without project_context are in no entry, the key
    [__proto__] is never an entry of either record, and recent_activity is
    empty. *)
Theorem getSessionStats_counts (d : Database) :
  exists st : SessionStats,
    getSessionStats (opened d) = (Returned st, opened d)
    /\ total_sessions st = List.length (chat_sessions d)
    /\ (forall a, a <> "__proto__" ->
          KeyTerms.own (sessions_by_agent st) a
          = match List.length (filter (fun r => agent_type r =? a) (chat_sessions d)) with
            | O => None
            | S n => Some (KeyTerms.Num (S n))
            end)
    /\ (forall p, p <> "__proto__" ->
          KeyTerms.own (sessions_by_project st) p
          = match List.length (filter (project_is p) (chat_sessions d)) with
            | O => None
            | S n => Some (KeyTerms.Num (S n))
            end)
    /\ KeyTerms.own (sessions_by_agent st) "__proto__" = None
    /\ KeyTerms.own (sessions_by_project st) "__proto__" = None
    /\ recent_activity st = [].
Proof.
  unfold getSessionStats. rewrite with_db_opened. simpl fst. simpl snd.
  eexists. split; [reflexivity|]. simpl.
  split; [reflexivity|]. split; [|split; [|split; [|split]]].
  - intros a Ha. rewrite (own_group_record _ a Ha). now rewrite count_occ_map_filter.
  - intros p Hp. rewrite (own_group_record _ p Hp). now rewrite count_occ_project_keys.
  - apply (own_fold_proto _ []).
  - apply (own_fold_proto _ []).
  - reflexivity.
Qed.

(** ** Initialisation *)

(** X12. [initialize] keeps the rows of the file, and a second
    [initialize] of the file it leaves (with the same answer of the probe)
    changes nothing. *)
Theorem initialize_idempotent (hasFTS5 : bool) (file : option Database) :
  exists d : Database,
    initialize hasFTS5 file = opened d
    /\ chat_sessions d = match file with Some f => chat_sessions f | None => [] end
    /\ initialize hasFTS5 (Some d) = opened d.
Proof.
  unfold initialize.
  set (d0 := match file with Some d => d | None => new_file end).
  assert (Hrows : chat_sessions d0 = match file with Some f => chat_sessions f | None => [] end)
    by (subst d0; now destruct file).
  rewrite <- Hrows. clearbody d0. clear Hrows.
  destruct d0 as [rows fts]. destruct hasFTS5.
  - unfold createTables, initializeFTSIndex, fts_count, chat_sessions. simpl.
    rewrite length_map.
    destruct fts as [f|]; simpl;
      (destruct rows as [|r rows]; simpl;
       eexists; (split; [reflexivity|]); split; reflexivity).
  - unfold createTables. simpl. eexists. split; [reflexivity|]. split; reflexivity.
Qed.

(** The count of the text-search table is the count of [chat_sessions],
    so the condition under which [initializeFTSIndex] inserts never
    holds. *)
Lemma initializeFTSIndex_eq (d : Database) : initializeFTSIndex d = d.
Proof.
  unfold initializeFTSIndex, fts_count, chat_sessions.
  destruct (chat_sessions_fts d) as [fts|]; [|reflexivity].
  rewrite length_map. cbv zeta.
  destruct (List.length (by_rowid d)); reflexivity.
Qed.

(** X13. [initialize] never fills the index. When the extension is
    available it leaves the rows of the file as they are and, as the
    index, the one that the file had, or the empty one when the file had
    none: the sessions that were stored before the text-search table
    existed are in no index afterwards. Without the extension it leaves
    the file as it is. *)
Theorem initialize_leaves_index (hasFTS5 : bool) (file : option Database) :
  let d0 := match file with Some f => f | None => new_file end in
  initialize hasFTS5 file
  = opened {| by_rowid := by_rowid d0;
              chat_sessions_fts :=
                if hasFTS5
                then Some (match chat_sessions_fts d0 with Some fts => fts | None => [] end)
                else chat_sessions_fts d0 |}.
Proof.
  intros d0. unfold initialize. fold d0. clearbody d0.
  destruct hasFTS5.
  - rewrite initializeFTSIndex_eq. unfold createTables.
    destruct (chat_sessions_fts d0); reflexivity.
  - unfold createTables. reflexivity.
Qed.

(** At the store of one session that has no text-search table:
    [initialize] gives it the empty index, and with the word index as
    engine a search for a word of the title of the session returns
    nothing. *)
Lemma initialize_leaves_rows_unindexed :
  initialize true (Some (one_session false))
  = opened {| by_rowid := by_rowid (one_session false); chat_sessions_fts := Some [] |}
  /\ searchSessions (F := WordEngine) (P := IndexScan) (query_only "chat")
       (initialize true (Some (one_session false)))
     = (Returned [], initialize true (Some (one_session false))).
Proof. split; reflexivity. Qed.

(* ===================================================================== *)
(** * Further properties of the search *)
(* ===================================================================== *)

Lemma append_assoc (a b c : string) : ((a ++ b) ++ c = a ++ (b ++ c))%string.
Proof. induction a as [|x a IH]; simpl; [reflexivity|]. now rewrite IH. Qed.

Lemma no_wildcard_quoted (t : string) :
  no_wildcard t = true -> no_wildcard (quote ++ t ++ quote)%string = true.
Proof.
  unfold no_wildcard. intros H. rewrite !chars_app, !forallb_app, H. reflexivity.
Qed.

Lemma no_nul_quoted (t : string) :
  no_nul t = true -> no_nul (quote ++ t ++ quote)%string = true.
Proof. intros H. rewrite !no_nul_app, H. reflexivity. Qed.

Lemma utf8_length_quoted (t : string) :
  Sqlite.utf8_length (quote ++ t ++ quote)%string = (Sqlite.utf8_length t + 2)%Z.
Proof.
  rewrite !utf8_length_app. change (Sqlite.utf8_length quote) with 1%Z. lia.
Qed.

Lemma tag_pattern_eq (tag : string) :
  tag_pattern tag = ("%" ++ (quote ++ tag ++ quote) ++ "%")%string.
Proof. unfold tag_pattern. now rewrite !append_assoc. Qed.

Lemma tag_pattern_accepted (tag : string) :
  (Sqlite.utf8_length tag <= 49996)%Z ->
  Sqlite.like_pattern_too_complex (tag_pattern tag) = false.
Proof.
  intros H. apply like_pattern_accepted. rewrite tag_pattern_eq.
  apply between_percents. rewrite utf8_length_quoted. lia.
Qed.

Lemma tag_patterns_accepted (ts : list string) :
  (forall tag, In tag ts -> (Sqlite.utf8_length tag <= 49996)%Z) ->
  existsb too_complex (map (fun tag => Like ColTags (tag_pattern tag)) ts) = false.
Proof.
  induction ts as [|t ts IH]; intros H; [reflexivity|]. cbn [map existsb too_complex].
  rewrite (tag_pattern_accepted t (H t (or_introl eq_refl))).
  apply IH. intros tag Htag. apply H. now right.
Qed.

Lemma eval_tag_filter (ts : list string) (r : ChatSession) :
  eval (Or (map (fun tag => Like ColTags (tag_pattern tag)) ts)) r
  = existsb (fun t => Sqlite.like_true (tags r) (tag_pattern t)) ts.
Proof.
  simpl. induction ts as [|t ts IH]; simpl; [reflexivity|]. now rewrite IH.
Qed.

Lemma eval_like_any_field (term : string) (r : ChatSession) :
  eval (like_any_field term) r = like_hit term r.
Proof.
  unfold like_any_field, like_hit, on_column. simpl.
  now rewrite orb_false_r, orb_assoc.
Qed.

Lemma eval_similar (terms : list string) (r : ChatSession) :
  eval (Or (map like_any_field terms)) r = existsb (fun term => like_hit term r) terms.
Proof.
  change (eval (Or (map like_any_field terms)) r)
    with (existsb (fun e => eval e r) (map like_any_field terms)).
  induction terms as [|a l IH]; [reflexivity|].
  cbn [map existsb]. now rewrite eval_like_any_field, IH.
Qed.

Lemma term_patterns_accepted (terms : list string) :
  (forall term, In term terms -> (Sqlite.utf8_length term <= 49998)%Z) ->
  existsb too_complex (map like_any_field terms) = false.
Proof.
  induction terms as [|t ts IH]; intros H; [reflexivity|].
  cbn [map existsb]. rewrite IH by (intros term Hterm; apply H; now right).
  unfold like_any_field. cbn [too_complex existsb].
  rewrite (like_pattern_accepted _ (between_percents t (H t (or_introl eq_refl)))).
  reflexivity.
Qed.

(** No pattern of the statement of a search is too long when the query
    has at most 49998 bytes and every tag at most 49996. *)
Lemma search_patterns_accepted (filters : SearchFilters) (hasFTSTable : bool) :
  (Sqlite.utf8_length (text_of (query filters)) <= 49998)%Z ->
  (forall tag, In tag (match filter_tags filters with Some ts => ts | None => [] end) ->
               (Sqlite.utf8_length tag <= 49996)%Z) ->
  existsb too_complex (base_where filters hasFTSTable ++ extra_where filters) = false.
Proof.
  intros Hq Htags. rewrite existsb_app. apply orb_false_iff. split.
  - unfold base_where.
    destruct (Js.truthy (query filters) && hasFTSTable); [reflexivity|].
    destruct (Js.truthy (query filters)); [|reflexivity].
    cbn [existsb too_complex].
    rewrite (like_pattern_accepted _ (between_percents _ Hq)). reflexivity.
  - unfold extra_where. rewrite !existsb_app.
    destruct (Js.truthy (agentType filters)), (Js.truthy (projectContext filters)),
      (Js.truthy (dateFrom filters)), (Js.truthy (dateTo filters));
      cbn [existsb too_complex orb];
      (destruct (filter_tags filters) as [[|t ts]|]; [reflexivity| |reflexivity];
       cbn [existsb too_complex]; rewrite (tag_patterns_accepted (t :: ts) Htags);
       reflexivity).
Qed.

Lemma length_page {A : Type} (n m : Z) (l : list A) :
  (0 <= n)%Z -> (0 <= m)%Z ->
  Z.of_nat (List.length (firstn (Z.to_nat n) (skipn (Z.to_nat m) l)))
  = Z.min n (Z.max 0 (Z.of_nat (List.length l) - m)).
Proof.
  intros Hn Hm. rewrite length_firstn, length_skipn. lia.
Qed.

Section SearchPages.
Context {F : Fts5} {P : Planner}.

(** X15. For a search that runs on [chat_sessions] alone (no query, or no
    text-search table), with a positive limit n and an offset m that is
    absent or not negative, both whole numbers below 2^63, a query of at
    most 49998 bytes and at most 998 tags of at most 49996 bytes (more
    tags make an expression that SQLite finds too deep): the search and the
    same search without limit and offset both return; the page has
    min(n, max(0, M - m)) results, where M is the number of results
    without pagination; each of them is one of those; the page is empty
    when m is not below M; and it is in descending order of created_at. *)
Theorem search_page (filters : SearchFilters) (n : Z) (d : Database) :
  limit filters = Some n ->
  (0 < n)%Z ->
  in_bounds n ->
  (0 <= num_of (offset filters))%Z ->
  in_bounds (num_of (offset filters)) ->
  Js.truthy (query filters) && checkFTSTableExists d = false ->
  (Sqlite.utf8_length (text_of (query filters)) <= 49998)%Z ->
  (List.length (match filter_tags filters with Some ts => ts | None => [] end) <= 998)%nat ->
  (forall tag, In tag (match filter_tags filters with Some ts => ts | None => [] end) ->
               (Sqlite.utf8_length tag <= 49996)%Z) ->
  exists all rs : list SearchResult,
    searchSessions (unpaged filters) (opened d) = (Returned all, opened d)
    /\ searchSessions filters (opened d) = (Returned rs, opened d)
    /\ Z.of_nat (List.length rs)
       = Z.min n (Z.max 0 (Z.of_nat (List.length all) - num_of (offset filters)))
    /\ (forall x, In x rs -> In x all)
    /\ ((Z.of_nat (List.length all) <= num_of (offset filters))%Z -> rs = [])
    /\ Sorted (fun a b => Sqlite.text_lt (created_at (session a)) (created_at (session b))
                          = false) rs.
Proof.
  intros Hlim Hn Hbn Hoff Hbm Hpath Hq _ Htags.
  rewrite !searchSessions_opened.
  set (h := checkFTSTableExists d) in *.
  set (s := search_select filters h).
  set (s0 := search_select (unpaged filters) h).
  destruct (search_select_body filters h) as [Hs Hw].
  destruct (search_select_body (unpaged filters) h) as [Hs0 Hw0].
  pose proof (search_select_tail filters h) as Ht.
  pose proof (search_select_tail (unpaged filters) h) as Ht0.
  change (query (unpaged filters)) with (query filters) in *.
  change (base_where (unpaged filters) h) with (base_where filters h) in Hw0.
  change (extra_where (unpaged filters)) with (extra_where filters) in Hw0.
  rewrite Hpath in Hs, Hs0, Ht, Ht0. simpl in Ht0.
  assert (Hn0 : Js.truthy_num (limit filters) = true).
  { rewrite Hlim. simpl. apply negb_true_iff, Z.eqb_neq. lia. }
  rewrite Hn0, Hlim in Ht. simpl num_of in Ht.
  fold s in Hs, Hw, Ht. fold s0 in Hs0, Hw0, Ht0.
  pose proof (search_patterns_accepted filters h Hq Htags) as Hc.
  assert (Hc1 : existsb too_complex (where_ s) = false) by (now rewrite Hw).
  assert (Hc0 : existsb too_complex (where_ s0) = false) by (now rewrite Hw0).
  assert (Hk : forall r, keeps s r = keeps s0 r)
    by (intros r; unfold keeps; now rewrite Hw, Hw0).
  clearbody s s0.
  set (rows := filter (keeps s0) (chat_sessions d)).
  set (off' := if Js.truthy_num (offset filters)
               then Some (num_of (offset filters)) else None).
  assert (Hrun0 : run_select s0 d
                  = Returned (map plain (order_by s0 (must_follow ByCreatedAtDesc) rows))).
  { unfold run_select. rewrite Ht0, Hs0. cbn [parse_tail].
    rewrite (select_rows_returns s0 ByCreatedAtDesc None None) by (exact Hc0 || exact I).
    reflexivity. }
  assert (Hrun : run_select s d
                 = Returned (map plain
                      (paginate (Some n) off'
                         (order_by s (must_follow ByCreatedAtDesc) rows)))).
  { assert (Htail : parse_tail (tail s) = Returned (ByCreatedAtDesc, Some n, off')).
    { rewrite Ht. subst off'. destruct (Js.truthy_num (offset filters)); reflexivity. }
    unfold run_select. rewrite Htail, Hs.
    rewrite (select_rows_returns s ByCreatedAtDesc (Some n) off').
    - cbn [map_returned]. do 4 f_equal. subst rows. apply filter_ext_In.
      intros r _. apply Hk.
    - exact Hc1.
    - exact Hbn.
    - subst off'. destruct (Js.truthy_num (offset filters)); [exact Hbm|exact I]. }
  rewrite Hrun0, Hrun. eexists. eexists. split; [reflexivity|]. split; [reflexivity|].
  assert (Hpage : paginate (Some n) off' (order_by s (must_follow ByCreatedAtDesc) rows)
                  = firstn (Z.to_nat n)
                      (skipn (Z.to_nat (num_of (offset filters)))
                         (order_by s (must_follow ByCreatedAtDesc) rows))).
  { unfold paginate, Sqlite.apply_limit, Sqlite.apply_offset.
    destruct (n <? 0)%Z eqn:Hneg; [apply Z.ltb_lt in Hneg; lia|].
    subst off'. destruct (Js.truthy_num (offset filters)) eqn:Ho; [reflexivity|].
    assert (Hz : num_of (offset filters) = 0%Z).
    { destruct (offset filters) as [m|]; [|reflexivity]. simpl in Ho.
      apply negb_false_iff, Z.eqb_eq in Ho. exact Ho. }
    rewrite Hz. reflexivity. }
  assert (Hlen : Z.of_nat (List.length
                   (map plain (paginate (Some n) off'
                                 (order_by s (must_follow ByCreatedAtDesc) rows))))
                 = Z.min n (Z.max 0 (Z.of_nat (List.length
                      (map plain (order_by s0 (must_follow ByCreatedAtDesc) rows)))
                    - num_of (offset filters)))).
  { rewrite !length_map, Hpage, length_page by lia.
    now rewrite !order_by_length. }
  split; [exact Hlen|]. split; [|split].
  - intros x Hx. apply in_map_iff in Hx as [r [Hxr Hr]]. subst x.
    apply In_plain. apply order_by_In. now apply In_paginate, order_by_In in Hr.
  - intros Hbeyond.
    apply length_zero_iff_nil. apply Nat2Z.inj. rewrite Hlen. simpl Z.of_nat. lia.
  - apply (Sorted_map (Js.in_order (must_follow ByCreatedAtDesc))).
    + intros a b Hab. exact Hab.
    + apply Sorted_paginate. apply order_by_sorted. apply must_follow_asym.
Qed.

(** X16. A search by a non-empty list of at most 998 tags alone (more
    make an expression that SQLite finds too deep), each of at most
    49996 bytes, returns, on either kind of store, exactly the stored
    sessions whose serialized tags match the LIKE pattern made of one of
    the tags between double quotes; for tags without percent sign,
    underscore and NUL these are the sessions whose serialized tags, read
    up to their first NUL, contain one of the quoted tags up to the case
    of ASCII letters. *)
Theorem search_by_tags (t : string) (ts : list string) (d : Database) :
  (List.length (t :: ts) <= 998)%nat ->
  (forall tag, In tag (t :: ts) -> (Sqlite.utf8_length tag <= 49996)%Z) ->
  exists rs : list SearchResult,
    searchSessions (tags_only (t :: ts)) (opened d) = (Returned rs, opened d)
    /\ (forall x, In x rs <->
          exists r, x = plain r /\ In r (chat_sessions d)
                    /\ existsb (fun tag => Sqlite.like_true (tags r) (tag_pattern tag))
                               (t :: ts)
                       = true)
    /\ (forallb no_wildcard (t :: ts) = true ->
        forallb no_nul (t :: ts) = true ->
        forall r, In (plain r) rs <->
          In r (chat_sessions d)
          /\ existsb (fun tag => ci_contains (quote ++ tag ++ quote)%string
                                             (Sqlite.c_string (tags r))) (t :: ts)
             = true).
Proof.
  intros _ Hlen.
  set (h := checkFTSTableExists d).
  set (s := search_select (tags_only (t :: ts)) h).
  assert (Hrun : searchSessions (tags_only (t :: ts)) (opened d)
                 = (Returned (map plain
                      (order_by s (must_follow ByCreatedAtDesc)
                         (filter (fun r => existsb (fun tag =>
                                     Sqlite.like_true (tags r) (tag_pattern tag)) (t :: ts))
                                 (chat_sessions d)))),
                    opened d)).
  { rewrite searchSessions_opened. fold h. fold s. f_equal.
    destruct (search_select_body (tags_only (t :: ts)) h) as [Hs Hw].
    pose proof (search_select_tail (tags_only (t :: ts)) h) as Ht.
    assert (Hw' : where_ s = [Or (map (fun tag => Like ColTags (tag_pattern tag)) (t :: ts))])
      by exact Hw.
    assert (Hs' : source s = FromSessions) by exact Hs.
    assert (Ht' : tail s = [OrderBy ByCreatedAtDesc]) by exact Ht.
    clearbody s.
    unfold run_select. rewrite Ht', Hs'. cbn [parse_tail].
    rewrite (select_rows_returns s ByCreatedAtDesc None None);
      [|rewrite Hw'; cbn [existsb too_complex];
        rewrite (tag_patterns_accepted (t :: ts) Hlen); reflexivity
       |exact I|exact I].
    cbn [map_returned]. unfold paginate. do 3 f_equal.
    apply filter_ext_In. intros r _. unfold keeps. rewrite Hw'.
    cbn [forallb]. rewrite andb_true_r. apply eval_tag_filter. }
  clearbody s.
  eexists. split; [exact Hrun|]. split.
  - intros x. rewrite in_map_iff. split.
    + intros [r [Hx Hr]]. apply order_by_In, filter_In in Hr as [Hr Hm].
      exists r. now repeat split.
    + intros [r [Hx [Hr Hm]]]. exists r. split; [now symmetry|].
      apply order_by_In, filter_In. now split.
  - intros Hnw Hnul r. rewrite In_plain, order_by_In, filter_In.
    assert (Heq : existsb (fun tag => Sqlite.like_true (tags r) (tag_pattern tag)) (t :: ts)
                  = existsb (fun tag => ci_contains (quote ++ tag ++ quote)%string
                                                    (Sqlite.c_string (tags r)))
                            (t :: ts)).
    { rewrite forallb_forall in Hnw. rewrite forallb_forall in Hnul.
      assert (Hpoint : forall tag, In tag (t :: ts) ->
                Sqlite.like_true (tags r) (tag_pattern tag)
                = ci_contains (quote ++ tag ++ quote)%string (Sqlite.c_string (tags r))).
      { intros tag Htag. rewrite tag_pattern_eq.
        apply like_no_wildcard.
        - rewrite utf8_length_quoted. specialize (Hlen tag Htag). lia.
        - apply no_wildcard_quoted. now apply Hnw.
        - apply no_nul_quoted. now apply Hnul. }
      clear Hnw Hnul Hrun Hlen. induction (t :: ts) as [|a l IH]; simpl; [reflexivity|].
      rewrite (Hpoint a (or_introl eq_refl)), IH; [reflexivity|].
      intros tag Htag. apply Hpoint. now right. }
    rewrite Heq. reflexivity.
Qed.

(** X17. On a store without the text-search table, for a limit that is a
    whole number strictly between -2^63 and 2^63 and a text none of whose
    key terms has more than 49998 bytes, [findSimilarSessions] returns
    and leaves the store as it was; every result is a stored session in
    which one of the key terms of the text matches, as a LIKE pattern
    between percent signs, the title, the original_content or the
    serialized tags; the results are in descending order of created_at,
    at most [limit] for a limit that is not negative, and they are all the
    matching sessions when the limit is negative or not below the number
    of stored sessions. *)
Theorem findSimilar_fallback (content : string) (limit : Z) (d : Database) :
  chat_sessions_fts d = None ->
  in_bounds limit ->
  (forall term, In term (KeyTerms.extractKeyTermsFromContent content) ->
                (Sqlite.utf8_length term <= 49998)%Z) ->
  let terms := KeyTerms.extractKeyTermsFromContent content in
  exists rs : list SearchResult,
    findSimilarSessions content limit (opened d) = (Returned rs, opened d)
    /\ ((0 <= limit)%Z -> (Z.of_nat (List.length rs) <= limit)%Z)
    /\ (forall x, In x rs ->
          exists r term, x = plain r /\ In r (chat_sessions d)
                         /\ In term terms /\ like_hit term r = true)
    /\ Sorted (fun a b => Sqlite.text_lt (created_at (session a)) (created_at (session b))
                          = false) rs
    /\ ((limit < 0)%Z \/ (Z.of_nat (List.length (chat_sessions d)) <= limit)%Z ->
        forall r term, In r (chat_sessions d) -> In term terms -> like_hit term r = true ->
                       In (plain r) rs).
Proof.
  intros Hfts Hb Hlen terms. unfold findSimilarSessions. rewrite with_db_opened. cbv zeta.
  fold terms in Hlen |- *. destruct terms as [|term0 terms'] eqn:Hterms.
  - simpl. exists []. split; [reflexivity|]. split; [simpl; lia|].
    split; [intros x []|]. split; [constructor|]. intros _ r term _ [].
  - change (List.length (term0 :: terms') =? 0)%nat with false. cbv iota.
    unfold checkFTSTableExists. rewrite Hfts.
    set (s := similar_select false (term0 :: terms') limit).
    assert (Hw : where_ s = [Or (map like_any_field (term0 :: terms'))]) by reflexivity.
    assert (Hs : source s = FromSessions) by reflexivity.
    assert (Ht : tail s = [OrderBy ByCreatedAtDesc; Limit limit]) by reflexivity.
    clearbody s.
    unfold run_select. rewrite Ht, Hs. cbn [parse_tail].
    rewrite (select_rows_returns s ByCreatedAtDesc (Some limit) None);
      [|rewrite Hw; cbn [existsb too_complex];
        rewrite (term_patterns_accepted (term0 :: terms') Hlen); reflexivity
       |exact Hb|exact I].
    cbn [map_returned].
    set (hit := fun r => existsb (fun term => like_hit term r) (term0 :: terms')).
    assert (Hfilter : filter (keeps s) (chat_sessions d) = filter hit (chat_sessions d)).
    { apply filter_ext_In. intros r _. unfold keeps. rewrite Hw.
      cbn [forallb]. rewrite andb_true_r. apply eval_similar. }
    rewrite Hfilter.
    destruct (listing s limit (filter hit (chat_sessions d))) as [H1 [H2 [H3 H4]]].
    eexists. split; [reflexivity|]. split; [|split; [|split]].
    + rewrite length_map. exact H1.
    + intros x Hx. apply in_map_iff in Hx as [r [Hxr Hr]]. apply H2 in Hr.
      apply filter_In in Hr as [Hr Hhit]. subst hit.
      apply existsb_exists in Hhit as [term [Hterm Hm]].
      exists r, term. split; [now symmetry|]. now repeat split.
    + apply (Sorted_map (fun a b => Sqlite.text_lt (created_at a) (created_at b) = false));
        [|exact H3].
      intros a b Hab. exact Hab.
    + intros Hl r term Hr Hterm Hm. apply In_plain. apply H4.
      * destruct Hl as [Hl|Hl]; [now left|right].
        pose proof (length_filter_le hit (chat_sessions d)). lia.
      * apply filter_In. split; [exact Hr|].
        subst hit. apply existsb_exists. now exists term.
Qed.

End SearchPages.

Lemma search_page_witness :
  limit (mkSearchFilters None None None None None None (Some 2%Z) (Some 1%Z)) = Some 2%Z
  /\ (0 < 2)%Z
  /\ in_bounds 2
  /\ (0 <= num_of (offset (mkSearchFilters None None None None None None
                             (Some 2%Z) (Some 1%Z))))%Z
  /\ in_bounds (num_of (offset (mkSearchFilters None None None None None None
                                  (Some 2%Z) (Some 1%Z))))
  /\ (List.length (match filter_tags (mkSearchFilters None None None None None None
                                        (Some 2%Z) (Some 1%Z))
                   with Some ts => ts | None => [] end) <= 998)%nat
  /\ exists all rs : list (SearchResult (F := WordEngine)),
       searchSessions (P := IndexScan)
         (unpaged (mkSearchFilters None None None None None None (Some 2%Z) (Some 1%Z)))
         (opened (many_sessions 5))
       = (Returned all, opened (many_sessions 5))
       /\ searchSessions (P := IndexScan)
            (mkSearchFilters None None None None None None (Some 2%Z) (Some 1%Z))
            (opened (many_sessions 5))
          = (Returned rs, opened (many_sessions 5))
       /\ Z.of_nat (List.length rs)
          = Z.min 2 (Z.max 0 (Z.of_nat (List.length all)
                              - num_of (offset (mkSearchFilters None None None None None None
                                                  (Some 2%Z) (Some 1%Z)))))
       /\ (forall x, In x rs -> In x all)
       /\ ((Z.of_nat (List.length all)
            <= num_of (offset (mkSearchFilters None None None None None None
                                 (Some 2%Z) (Some 1%Z))))%Z -> rs = [])
       /\ Sorted (fun a b => Sqlite.text_lt (created_at (session a)) (created_at (session b))
                             = false) rs.
Proof.
  assert (H2 : in_bounds 2) by (apply in_bounds_small; lia).
  assert (H1 : in_bounds 1) by (apply in_bounds_small; lia).
  split; [reflexivity|]. split; [lia|]. split; [exact H2|]. split; [simpl; lia|].
  split; [exact H1|]. split; [simpl; lia|].
  apply (search_page (F := WordEngine) (P := IndexScan)
           (mkSearchFilters None None None None None None (Some 2%Z) (Some 1%Z)) 2%Z
           (many_sessions 5)).
  - reflexivity.
  - lia.
  - exact H2.
  - simpl. lia.
  - exact H1.
  - reflexivity.
  - vm_compute. discriminate.
  - simpl. lia.
  - intros tag [].
Defined.

Lemma search_by_tags_witness :
  (List.length ["db"] <= 998)%nat
  /\ (forall tag, In tag ["db"] -> (Sqlite.utf8_length tag <= 49996)%Z)
  /\ exists rs : list (SearchResult (F := WordEngine)),
       searchSessions (P := IndexScan) (tags_only ["db"]) (opened (one_session true))
       = (Returned rs, opened (one_session true))
       /\ (forall x, In x rs <->
             exists r, x = plain r /\ In r (chat_sessions (one_session true))
                       /\ existsb (fun tag => Sqlite.like_true (tags r) (tag_pattern tag))
                                  ["db"]
                          = true)
       /\ (forallb no_wildcard ["db"] = true ->
           forallb no_nul ["db"] = true ->
           forall r, In (plain r) rs <->
             In r (chat_sessions (one_session true))
             /\ existsb (fun tag => ci_contains (quote ++ tag ++ quote)%string
                                                (Sqlite.c_string (tags r))) ["db"]
                = true).
Proof.
  assert (H : forall tag, In tag ["db"] -> (Sqlite.utf8_length tag <= 49996)%Z).
  { intros tag [Ht|[]]. subst tag. vm_compute. discriminate. }
  assert (Hn : (List.length ["db"] <= 998)%nat) by (simpl; lia).
  split; [exact Hn|]. split; [exact H|].
  apply (search_by_tags (F := WordEngine) (P := IndexScan) "db" [] (one_session true) Hn H).
Defined.

Lemma findSimilar_fallback_witness :
  chat_sessions_fts (one_session false) = None
  /\ in_bounds 5
  /\ (forall term, In term (KeyTerms.extractKeyTermsFromContent
                              "I am discussing postgresql and databases") ->
                   (Sqlite.utf8_length term <= 49998)%Z)
  /\ exists rs : list (SearchResult (F := WordEngine)),
       findSimilarSessions (P := IndexScan) "I am discussing postgresql and databases" 5%Z
                           (opened (one_session false))
       = (Returned rs, opened (one_session false))
       /\ ((0 <= 5)%Z -> (Z.of_nat (List.length rs) <= 5)%Z)
       /\ (forall x, In x rs ->
             exists r term, x = plain r /\ In r (chat_sessions (one_session false))
                            /\ In term (KeyTerms.extractKeyTermsFromContent
                                          "I am discussing postgresql and databases")
                            /\ like_hit term r = true)
       /\ Sorted (fun a b => Sqlite.text_lt (created_at (session a)) (created_at (session b))
                             = false) rs
       /\ ((5 < 0)%Z \/ (Z.of_nat (List.length (chat_sessions (one_session false))) <= 5)%Z ->
           forall r term, In r (chat_sessions (one_session false)) ->
                          In term (KeyTerms.extractKeyTermsFromContent
                                     "I am discussing postgresql and databases") ->
                          like_hit term r = true -> In (plain r) rs).
Proof.
  assert (Hb : in_bounds 5) by (apply in_bounds_small; lia).
  assert (Hlen : forall term, In term (KeyTerms.extractKeyTermsFromContent
                                         "I am discussing postgresql and databases") ->
                              (Sqlite.utf8_length term <= 49998)%Z).
  { intros term Hterm. vm_compute in Hterm.
    repeat (destruct Hterm as [Hterm|Hterm]; [subst term; vm_compute; discriminate|]).
    destruct Hterm. }
  split; [reflexivity|]. split; [exact Hb|]. split; [exact Hlen|].
  apply (findSimilar_fallback (F := WordEngine) (P := IndexScan)
           "I am discussing postgresql and databases" 5%Z (one_session false)
           eq_refl Hb Hlen).
Defined.

(* ===================================================================== *)
(** * Properties of the term extraction, the validation and the processor *)
(* ===================================================================== *)

Lemma key_terms_ranked_witness :
  (forall w, In w (KeyTerms.words_of "I am discussing postgresql and databases") ->
             KeyTerms.inherited w = None)
  /\ (forall t, In t (KeyTerms.extractKeyTermsFromContent
                        "I am discussing postgresql and databases") ->
                In t (KeyTerms.words_of "I am discussing postgresql and databases"))
  /\ NoDup (KeyTerms.extractKeyTermsFromContent "I am discussing postgresql and databases")
  /\ (forall t w,
        In t (KeyTerms.extractKeyTermsFromContent
                "I am discussing postgresql and databases") ->
        In w (KeyTerms.words_of "I am discussing postgresql and databases") ->
        ~ In w (KeyTerms.extractKeyTermsFromContent
                  "I am discussing postgresql and databases") ->
        (occurrences w (KeyTerms.words_of "I am discussing postgresql and databases")
         <= occurrences t (KeyTerms.words_of "I am discussing postgresql and databases"))%nat)
  /\ ((List.length (KeyTerms.extractKeyTermsFromContent
                      "I am discussing postgresql and databases") < 8)%nat ->
      forall w, In w (KeyTerms.words_of "I am discussing postgresql and databases") ->
                In w (KeyTerms.extractKeyTermsFromContent
                        "I am discussing postgresql and databases")).
Proof.
  assert (Hinh : forall w,
             In w (KeyTerms.words_of "I am discussing postgresql and databases") ->
             KeyTerms.inherited w = None).
  { intros w Hw. vm_compute in Hw.
    destruct Hw as [Hw|[Hw|[Hw|[]]]]; subst w; reflexivity. }
  split; [exact Hinh|].
  apply (KeyTermsFacts.key_terms_ranked "I am discussing postgresql and databases" Hinh).
Defined.

Lemma findSimilar_no_words_witness :
  KeyTerms.words_of "the and a or I am" = []
  /\ findSimilarSessions (F := WordEngine) (P := IndexScan) "the and a or I am" 5%Z (opened (one_session false))
     = (Returned [], opened (one_session false)).
Proof.
  split; [reflexivity|].
  apply (findSimilar_no_words (F := WordEngine) (P := IndexScan) "the and a or I am" 5%Z (one_session false)).
  reflexivity.
Defined.

(** X20. The terms that the server reports as [basedOn] are the first five
    of the terms that [findSimilarSessions] searches for. *)
Theorem extractKeyTerms_prefix (content : string) :
  Server.extractKeyTerms content
  = firstn 5 (KeyTerms.extractKeyTermsFromContent content).
Proof.
  unfold Server.extractKeyTerms, KeyTerms.extractKeyTermsFromContent, Js.slice0.
  rewrite firstn_map, firstn_firstn. reflexivity.
Qed.

Lemma string_length_chars (s : string) : String.length s = List.length (Js.chars s).
Proof. induction s as [|c s IH]; simpl; [reflexivity|]. now rewrite IH. Qed.

(** X21. An id that [generateId] makes of a time stamp and a random part
    that consist of letters, digits, underscores and hyphens and have at
    most 91 characters together is accepted by [validateId]. *)
Theorem generated_id_is_valid (date_now random36 : string) :
  forallb Validation.id_char (Js.chars date_now) = true ->
  forallb Validation.id_char (Js.chars random36) = true ->
  (String.length date_now + String.length random36 <= 91)%nat ->
  Validation.validateId (generateId date_now random36) = true.
Proof.
  intros Hd Hr Hlen. unfold Validation.validateId, generateId.
  rewrite !string_length_chars in *. rewrite !chars_app, !length_app, !forallb_app.
  rewrite Hd, Hr. simpl.
  assert (Hle : (8 + (List.length (Js.chars date_now)
                      + (1 + List.length (Js.chars random36))) <= 100)%nat) by lia.
  apply Nat.leb_le in Hle. simpl in Hle. now rewrite Hle.
Qed.

Lemma generated_id_is_valid_witness :
  forallb Validation.id_char (Js.chars "1700000000000") = true
  /\ forallb Validation.id_char (Js.chars "k3j9x0q2a") = true
  /\ (String.length "1700000000000" + String.length "k3j9x0q2a" <= 91)%nat
  /\ Validation.validateId (generateId "1700000000000" "k3j9x0q2a") = true.
Proof.
  split; [reflexivity|]. split; [reflexivity|].
  assert (Hlen : (String.length "1700000000000" + String.length "k3j9x0q2a" <= 91)%nat)
    by (simpl; lia).
  split; [exact Hlen|].
  apply (generated_id_is_valid "1700000000000" "k3j9x0q2a"); [reflexivity|reflexivity|exact Hlen].
Defined.

(** X22. A body that [validateSessionData] accepts for a new session has
    a non-empty string agentId, an agentType that satisfies the CHECK
    constraint of the table, and a non-empty string chatContent of at most
    50 MB; its title, when truthy, is a string of at most 500 characters,
    its projectContext, when truthy, a string of at most 1000 characters,
    and its tags, when truthy, an array of at most 50 strings. *)
Theorem accepted_session_data (data : Validation.SessionBody) :
  Validation.validateSessionData data false = None ->
  (exists a, Validation.agentId data = Some (Validation.JStr a) /\ a <> "")
  /\ (exists t, Validation.agentType data = Some (Validation.JStr t)
                /\ agent_type_check t = true)
  /\ (exists c, Validation.chatContent data = Some (Validation.JStr c) /\ c <> ""
                /\ (Z.of_nat (String.length c) <= 52428800)%Z)
  /\ (Validation.truthy (Validation.title data) = true ->
      exists s, Validation.title data = Some (Validation.JStr s)
                /\ (String.length s <= 500)%nat)
  /\ (Validation.truthy (Validation.projectContext data) = true ->
      exists s, Validation.projectContext data = Some (Validation.JStr s)
                /\ (String.length s <= 1000)%nat)
  /\ (Validation.truthy (Validation.tags data) = true ->
      exists items, Validation.tags data = Some (Validation.JArr items)
                    /\ (List.length items <= 50)%nat
                    /\ Forall (fun tag => exists s, tag = Validation.JStr s) items).
Proof.
  unfold Validation.validateSessionData. simpl negb. cbv iota.
  destruct data as [aid aty cc ti pc tg]. simpl.
  destruct (negb (Validation.truthy aid) || negb (Validation.is_string aid)) eqn:H1;
    [discriminate|].
  destruct (negb (Validation.truthy aty) || negb (Validation.is_agent_type aty)) eqn:H2;
    [discriminate|].
  destruct (negb (Validation.truthy cc) || negb (Validation.is_string cc)) eqn:H3;
    [discriminate|].
  destruct (Validation.length_gt cc _) eqn:H4; [discriminate|].
  destruct (Validation.truthy ti
            && (negb (Validation.is_string ti) || Validation.length_gt ti 500)) eqn:H5;
    [discriminate|].
  destruct (Validation.truthy pc
            && (negb (Validation.is_string pc) || Validation.length_gt pc 1000)) eqn:H6;
    [discriminate|].
  destruct (Validation.truthy tg
            && (negb (Validation.is_array tg) || negb (Validation.every_string tg))) eqn:H7;
    [discriminate|].
  destruct (Validation.truthy tg && Validation.length_gt tg 50) eqn:H8; [discriminate|].
  intros _.
  apply orb_false_iff in H1 as [H1a H1b], H2 as [H2a H2b], H3 as [H3a H3b].
  apply negb_false_iff in H1a, H1b, H2a, H2b, H3a, H3b.
  split; [|split; [|split; [|split; [|split]]]].
  - destruct aid as [[| | |a| |]|]; try discriminate. exists a. split; [reflexivity|].
    simpl in H1a. apply negb_true_iff in H1a. now apply String.eqb_neq.
  - destruct aty as [[| | |t| |]|]; try discriminate. exists t. split; [reflexivity|].
    exact H2b.
  - destruct cc as [[| | |c| |]|]; try discriminate. exists c. split; [reflexivity|].
    simpl in H3a, H4. apply negb_true_iff in H3a. split; [now apply String.eqb_neq|].
    apply Z.ltb_ge in H4. exact H4.
  - intros Ht. rewrite Ht in H5. simpl in H5. apply orb_false_iff in H5 as [H5a H5b].
    apply negb_false_iff in H5a.
    destruct ti as [[| | |s| |]|]; try discriminate. exists s. split; [reflexivity|].
    simpl in H5b. apply Z.ltb_ge in H5b. lia.
  - intros Ht. rewrite Ht in H6. simpl in H6. apply orb_false_iff in H6 as [H6a H6b].
    apply negb_false_iff in H6a.
    destruct pc as [[| | |s| |]|]; try discriminate. exists s. split; [reflexivity|].
    simpl in H6b. apply Z.ltb_ge in H6b. lia.
  - intros Ht. rewrite Ht in H7, H8. simpl in H7, H8.
    apply orb_false_iff in H7 as [H7a H7b]. apply negb_false_iff in H7a, H7b.
    destruct tg as [[| | | |items|]|]; try discriminate. exists items.
    split; [reflexivity|]. simpl in H8, H7b. apply Z.ltb_ge in H8. split; [lia|].
    apply Forall_forall. intros tag Htag.
    rewrite forallb_forall in H7b. specialize (H7b tag Htag).
    destruct tag; try discriminate. now eexists.
Qed.

Lemma accepted_session_data_witness :
  Validation.validateSessionData sample_body false = None
  /\ (exists a, Validation.agentId sample_body = Some (Validation.JStr a) /\ a <> "")
  /\ (exists t, Validation.agentType sample_body = Some (Validation.JStr t)
                /\ agent_type_check t = true)
  /\ (exists c, Validation.chatContent sample_body = Some (Validation.JStr c) /\ c <> ""
                /\ (Z.of_nat (String.length c) <= 52428800)%Z)
  /\ (Validation.truthy (Validation.title sample_body) = true ->
      exists s, Validation.title sample_body = Some (Validation.JStr s)
                /\ (String.length s <= 500)%nat)
  /\ (Validation.truthy (Validation.projectContext sample_body) = true ->
      exists s, Validation.projectContext sample_body = Some (Validation.JStr s)
                /\ (String.length s <= 1000)%nat)
  /\ (Validation.truthy (Validation.tags sample_body) = true ->
      exists items, Validation.tags sample_body = Some (Validation.JArr items)
                    /\ (List.length items <= 50)%nat
                    /\ Forall (fun tag => exists s, tag = Validation.JStr s) items).
Proof.
  split; [reflexivity|].
  apply (accepted_session_data sample_body). reflexivity.
Defined.

(** ** Key topics *)

Lemma lower_char_idempotent (c : ascii) :
  Js.lower_char (Js.lower_char c) = Js.lower_char c.
Proof. destruct c as [[] [] [] [] [] [] [] []]; reflexivity. Qed.

Lemma toLowerCase_idempotent (l : list ascii) :
  Js.toLowerCase (Js.toLowerCase l) = Js.toLowerCase l.
Proof.
  unfold Js.toLowerCase. rewrite map_map. apply map_ext. apply lower_char_idempotent.
Qed.

Lemma chars_str (l : list ascii) : Js.chars (Js.str l) = l.
Proof. apply list_ascii_of_string_of_list_ascii. Qed.

Lemma lower_of_lowered (l : list ascii) :
  ChatContentProcessor.lower (Js.str (Js.toLowerCase l)) = Js.str (Js.toLowerCase l).
Proof.
  unfold ChatContentProcessor.lower. now rewrite chars_str, toLowerCase_idempotent.
Qed.

Lemma add_topic (topics : list string) (l : list ascii) :
  topic_set topics ->
  topic_set (ChatContentProcessor.add topics (Js.str (Js.toLowerCase l))).
Proof.
  intros [Hnd Hlow]. unfold ChatContentProcessor.add.
  destruct (Js.includes topics (Js.str (Js.toLowerCase l))) eqn:Hin; [now split|].
  split.
  - apply NoDup_app; [exact Hnd|repeat constructor; intros []|].
    intros t Ht [Heq|[]]. subst t. apply includes_In in Ht. congruence.
  - apply Forall_app. split; [exact Hlow|]. constructor; [|constructor].
    apply lower_of_lowered.
Qed.

Lemma fold_topic_set {A : Type} (step : list string -> A -> list string) (xs : list A)
    (topics : list string) :
  (forall t x, topic_set t -> topic_set (step t x)) ->
  topic_set topics -> topic_set (fold_left step xs topics).
Proof.
  intros Hstep. revert topics. induction xs as [|x xs IH]; intros topics Ht; simpl.
  - exact Ht.
  - apply IH. now apply Hstep.
Qed.

(** X23. [extractKeyTopics] returns at most 20 topics, no topic twice, and
    every topic in lower case. *)
Theorem key_topics_are_a_lowercase_set (content : string) :
  (List.length (ChatContentProcessor.extractKeyTopics content) <= 20)%nat
  /\ NoDup (ChatContentProcessor.extractKeyTopics content)
  /\ forall t, In t (ChatContentProcessor.extractKeyTopics content) ->
               ChatContentProcessor.lower t = t.
Proof.
  split; [apply extractKeyTopics_at_most_20|].
  unfold ChatContentProcessor.extractKeyTopics, Js.slice0.
  match goal with |- context [firstn 20 ?l] => set (topics := l) end.
  assert (Hset : topic_set topics).
  { subst topics. apply fold_topic_set.
    - intros t x Ht. now apply add_topic.
    - apply fold_topic_set.
      + intros t x Ht. unfold ChatContentProcessor.cleanTerm.
        match goal with |- context [if ?b then _ else _] => destruct b end;
          [now apply add_topic|exact Ht].
      + apply fold_topic_set.
        * intros t x Ht. destruct (ChatContentProcessor.keyword_test x content);
            [now apply add_topic|exact Ht].
        * split; constructor. }
  destruct Hset as [Hnd Hlow]. split.
  - rewrite <- (firstn_skipn 20 topics) in Hnd. now apply NoDup_app_remove_r in Hnd.
  - intros t Ht. apply In_firstn in Ht. rewrite Forall_forall in Hlow. now apply Hlow.
Qed.

(** ** The metrics and the summary *)

Lemma split_runs_not_empty (sep : ascii -> bool) (in_sep : bool) (cur s : list ascii) :
  (1 <= List.length (Processor.split_runs sep in_sep cur s))%nat.
Proof.
  revert in_sep cur. induction s as [|c s IH]; intros in_sep cur; simpl; [lia|].
  destruct (sep c); [destruct in_sep|]; simpl; try apply IH. lia.
Qed.

Lemma trim_start_blank (s : list ascii) :
  forallb Js.is_space s = true -> Processor.trim_start s = [].
Proof.
  induction s as [|c s IH]; simpl; [reflexivity|].
  intros H. apply andb_true_iff in H as [Hc Hs]. rewrite Hc. now apply IH.
Qed.

(** X24. [countWords] is never zero: a text that is empty or consists of
    white space counts as one word. *)
Theorem countWords_at_least_one (content : string) :
  (1 <= Processor.countWords content)%nat
  /\ (forallb Js.is_space (Js.chars content) = true -> Processor.countWords content = 1%nat).
Proof.
  unfold Processor.countWords. split; [apply split_runs_not_empty|].
  intros H. unfold Processor.trim. rewrite (trim_start_blank _ H). reflexivity.
Qed.

Lemma participants_without_colon (st : Processor.Scan) (s : list ascii) :
  forallb (fun c => negb (Ascii.eqb c ":"%char)) s = true ->
  Processor.participants_from st s = [].
Proof.
  revert st. induction s as [|c s IH]; intros st H; simpl; [reflexivity|].
  simpl in H. apply andb_true_iff in H as [Hc Hs]. apply negb_true_iff in Hc.
  destruct (Processor.is_line_terminator c); [now apply IH|].
  destruct st; try (destruct (Js.is_word c)); try rewrite Hc; now apply IH.
Qed.

(** X25. [extractParticipantCount] is at least one and at most the number
    of lines that open with a name and a colon, or one when there is no
    such line; a text without a colon has one participant. *)
Theorem participant_count_bounds (content : string) :
  let matches := Processor.participants_from Processor.LineStart (Js.chars content) in
  (1 <= Processor.extractParticipantCount content)%nat
  /\ (Processor.extractParticipantCount content <= Nat.max 1 (List.length matches))%nat
  /\ (forallb (fun c => negb (Ascii.eqb c ":"%char)) (Js.chars content) = true ->
      Processor.extractParticipantCount content = 1%nat).
Proof.
  intros matches. unfold Processor.extractParticipantCount. fold matches.
  split; [|split].
  - destruct matches as [|m ms] eqn:Hm; [lia|].
    assert (Hin : In m (nodup string_dec (m :: ms))) by (apply nodup_In; now left).
    destruct (nodup string_dec (m :: ms)); [contradiction|simpl; lia].
  - destruct matches as [|m ms] eqn:Hm; [simpl; lia|].
    pose proof (NoDup_incl_length (NoDup_nodup string_dec (m :: ms))
                  (fun x Hx => proj1 (nodup_In string_dec (m :: ms) x) Hx)) as Hle.
    lia.
  - intros H. subst matches. now rewrite (participants_without_colon _ _ H).
Qed.

Lemma length_append (a b : string) :
  String.length (a ++ b)%string = (String.length a + String.length b)%nat.
Proof. induction a as [|c a IH]; simpl; [reflexivity|]. now rewrite IH. Qed.

Lemma length_substring_le (n : nat) (s : string) :
  (String.length (String.substring 0 n s) <= n)%nat.
Proof.
  revert s. induction n as [|n IH]; intros s.
  - destruct s; simpl; lia.
  - destruct s as [|c s]; simpl; [lia|]. specialize (IH s). lia.
Qed.

(** X26. The summary that [generateSummary] returns has at most 500
    characters, whatever the text and the topics. *)
Theorem summary_at_most_500 (content : string) (keyTopics decisions : list string) :
  (String.length (Processor.generateSummary content keyTopics decisions) <= 500)%nat.
Proof.
  unfold Processor.generateSummary.
  match goal with |- context [if Nat.eqb ?n 0 then _ else _] => destruct (Nat.eqb n 0) end.
  - simpl. lia.
  - cbv zeta.
    match goal with |- context [if Nat.ltb 500 (String.length ?s) then _ else _] =>
      set (summary := s); destruct (Nat.ltb 500 (String.length summary)) eqn:Hlong end.
    + rewrite length_append. pose proof (length_substring_le 497 summary). simpl. lia.
    + apply Nat.ltb_ge in Hlong. exact Hlong.
Qed.

(** ** The constraints of the table along a run *)

Lemma assign_all_agent_type (fields : list Assignment) (r : ChatSession) :
  agent_type (assign_all fields r) = agent_type r.
Proof.
  unfold assign_all. revert r.
  induction fields as [|a fields IH]; intros r; simpl; [reflexivity|].
  rewrite IH. now destruct a.
Qed.

Lemma insert_keeps_valid (row : ChatSession) (d : Database) :
  table_valid d -> table_valid (snd (sql_insert row d)).
Proof.
  intros [Hnd Hall].
  destruct (agent_type_check (agent_type row)) eqn:Hc;
    [|unfold sql_insert; rewrite Hc; now split].
  destruct (existsb (fun r => id r =? id row) (chat_sessions d)) eqn:Hex;
    [unfold sql_insert; rewrite Hc, Hex; now split|].
  destruct (sql_insert_rows row d Hc Hex) as [_ Hrows].
  split; rewrite Hrows.
  - now apply NoDup_id_snoc.
  - apply Forall_app. split; [exact Hall|]. now repeat constructor.
Qed.

Lemma delete_keeps_valid (cond : ChatSession -> bool) (d : Database) :
  table_valid d -> table_valid (snd (sql_delete cond d)).
Proof.
  intros [Hnd Hall]. split; rewrite sql_delete_rows.
  - now apply NoDup_id_filter.
  - apply Forall_forall. intros r Hr. apply filter_In in Hr as [Hr _].
    rewrite Forall_forall in Hall. now apply Hall.
Qed.

Section RunConstraints.
Context {D : JsDate} {F : Fts5}.

Lemma update_keeps_valid (fields : list Assignment) (key : string) (d : Database) :
  table_valid d -> table_valid (snd (sql_update fields key d)).
Proof.
  intros [Hnd Hall].
  destruct (sql_update_cases fields key d) as [[d' [Heq [Hrows _]]]|[Heq _]];
    rewrite Heq; simpl; [|now split].
  split; rewrite Hrows.
  - rewrite map_id_update; [exact Hnd|apply assign_all_id].
  - apply Forall_map.
    apply (Forall_impl _ (P := fun r => agent_type_check (agent_type r) = true));
      [|exact Hall].
    intros r Hr. destruct (id r =? key); [|exact Hr]. now rewrite assign_all_agent_type.
Qed.

Lemma step_keeps_valid (o : Op) (d : Database) :
  table_valid d ->
  exists d', step (opened d) o = opened d' /\ table_valid d'.
Proof.
  intros Hc.
  destruct o; unfold step;
    [unfold createSession | unfold updateSession | unfold deleteSession
    | unfold deleteSessions | unfold deleteAllSessions | unfold deleteOldSessions
    | unfold deleteSessionsByAgent | unfold deleteSessionsByProject ];
    rewrite with_db_snd; eexists; (split; [reflexivity|]).
  - rewrite on_result_snd. now apply insert_keeps_valid.
  - match goal with |- context [if ?b then _ else _] => destruct b end.
    + exact Hc.
    + rewrite on_result_snd. now apply update_keeps_valid.
  - rewrite on_result_snd. now apply delete_keeps_valid.
  - destruct (List.length ids =? 0)%nat; [exact Hc|now apply delete_keeps_valid].
  - now apply delete_keeps_valid.
  - now apply delete_keeps_valid.
  - now apply delete_keeps_valid.
  - now apply delete_keeps_valid.
Qed.

(** X27. On a store with or without the text-search table, after any
    sequence of calls of the writing methods every stored session still
    has an id that no other stored session has and an agent type among
    claude, cursor and other. *)
Theorem run_keeps_table_constraints (ops : list Op) (d : Database) :
  table_valid d ->
  exists d', run ops (opened d) = opened d'
             /\ NoDup (map id (chat_sessions d'))
             /\ forall r, In r (chat_sessions d') -> agent_type_check (agent_type r) = true.
Proof.
  revert d. induction ops as [|o ops IH]; intros d Hc.
  - exists d. destruct Hc as [Hnd Hall]. split; [reflexivity|]. split; [exact Hnd|].
    now apply Forall_forall.
  - destruct (step_keeps_valid o d Hc) as [d1 [H1 Hc1]].
    destruct (IH d1 Hc1) as [d2 [H2 Hc2]].
    exists d2. split; [|exact Hc2]. unfold run in *. simpl. now rewrite H1.
Qed.

End RunConstraints.

Lemma run_keeps_table_constraints_witness :
  table_valid new_file
  /\ exists d', run (F := WordEngine) sample_ops (opened new_file) = opened d'
                /\ NoDup (map id (chat_sessions d'))
                /\ forall r, In r (chat_sessions d') ->
                             agent_type_check (agent_type r) = true.
Proof.
  assert (Hv : table_valid new_file) by (split; constructor).
  split; [exact Hv|].
  apply (run_keeps_table_constraints (D := January2024) (F := WordEngine)
           sample_ops new_file Hv).
Defined.

